(** * CI/Scripts/analyze-performance.py: a shallow embedding

    The script scans an artifacts directory for log, CSV and JSON files of a
    performance-gate run, merges what it finds into one analysis record and
    writes a Markdown summary, a JSON dump and a gate table.

    Conventions of the embedding:
    - text is [string]; a character is a code point below 256;
    - Python [int] is [Z]; Python [float] is a binary64 value, represented
      by [spec_float] with [prec = 53] and [emax = 1024], so that parsing,
      division and formatting round exactly as CPython does;
    - a Python [dict] is an association list in insertion order with unique
      keys ([dict_set] overwrites in place, as CPython keeps the position
      of a key that is assigned again);
    - code that prints, writes files or raises runs in the monad [M]: a
      state is threaded through and survives an exception;
    - the files of the artifacts tree are an input; the output directory
      can be created and written, and written text keeps its line feeds
      (a POSIX host);
    - the modules [re], [csv] and [float] are embedded as far as the script
      uses them, with CPython's behaviour. *)

From Stdlib Require Import ZArith NArith List String Ascii Bool Lia.
From Stdlib Require Import Floats.SpecFloat Numbers.DecimalString.
Import ListNotations.

Local Open Scope string_scope.
Local Open Scope Z_scope.

(** ** Python runtime fragments *)

Module Py.

(** *** Characters *)

Definition code (c : ascii) : N := N_of_ascii c.

Definition between (lo hi : N) (c : ascii) : bool :=
  (N.leb lo (code c) && N.leb (code c) hi)%bool.

(** [str.isdecimal] on one character: [\d] of the [re] module. *)
Definition isdigit (c : ascii) : bool := between 48 57 c.

(** [\w] of the [re] module on a [str] pattern: alphanumeric or underscore.
    Below 256 the alphanumeric characters outside ASCII are the Latin-1
    letters, the superscript digits and the vulgar fractions. *)
Definition isword (c : ascii) : bool :=
  (between 97 122 c || between 65 90 c || isdigit c || N.eqb (code c) 95
   || N.eqb (code c) 170 || between 178 179 c || N.eqb (code c) 181
   || between 185 186 c || between 188 190 c
   || between 192 214 c || between 216 246 c || between 248 255 c)%bool.

(** [\s] of the [re] module and [str.isspace]. *)
Definition isspace (c : ascii) : bool :=
  (between 9 13 c || between 28 32 c || N.eqb (code c) 133
   || N.eqb (code c) 160)%bool.

Definition lower (c : ascii) : ascii :=
  if between 65 90 c then ascii_of_N (code c + 32) else c.

(** Characters that have no literal of their own here. *)
Definition LF : ascii := ascii_of_N 10.
Definition CR : ascii := ascii_of_N 13.
Definition DQUOTE : ascii := ascii_of_N 34.
Definition nl : string := String LF EmptyString.

(** *** Strings *)

Fixpoint span (p : ascii -> bool) (s : string) : string * string :=
  match s with
  | String c s' =>
      if p c then let '(a, b) := span p s' in (String c a, b)
      else (EmptyString, s)
  | EmptyString => (EmptyString, EmptyString)
  end.

Fixpoint drop_while (p : ascii -> bool) (s : string) : string :=
  match s with
  | String c s' => if p c then drop_while p s' else s
  | EmptyString => EmptyString
  end.

Fixpoint rev_onto (s acc : string) : string :=
  match s with
  | String c s' => rev_onto s' (String c acc)
  | EmptyString => acc
  end.

Definition rev (s : string) : string := rev_onto s EmptyString.

(** The white space [float] strips from both ends of its argument: the
    ASCII white space of C and the spaces outside ASCII. *)
Definition isspace_float (c : ascii) : bool :=
  (between 9 13 c || N.eqb (code c) 32 || N.eqb (code c) 133
   || N.eqb (code c) 160)%bool.

Definition strip_float (s : string) : string :=
  rev (drop_while isspace_float (rev (drop_while isspace_float s))).

Definition lowercase (s : string) : string :=
  string_of_list_ascii (List.map lower (list_ascii_of_string s)).

(** [s.startswith(prefix)]. *)
Fixpoint startswith (s prefix : string) : bool :=
  match prefix, s with
  | EmptyString, _ => true
  | String _ _, EmptyString => false
  | String a prefix', String b s' => (Ascii.eqb a b && startswith s' prefix')%bool
  end.

(** [needle in hay]. *)
Fixpoint contains (needle hay : string) : bool :=
  if startswith hay needle then true
  else match hay with
       | String _ hay' => contains needle hay'
       | EmptyString => false
       end.

Fixpoint drop (n : nat) (s : string) : string :=
  match n, s with
  | S n', String _ s' => drop n' s'
  | _, _ => s
  end.

Fixpoint take (n : nat) (s : string) : string :=
  match n, s with
  | S n', String c s' => String c (take n' s')
  | _, _ => EmptyString
  end.

Fixpoint has_char (c : ascii) (s : string) : bool :=
  match s with
  | String d s' => (Ascii.eqb c d || has_char c s')%bool
  | EmptyString => false
  end.

Definition endswith (s suffix : string) : bool :=
  startswith (rev s) (rev suffix).

Fixpoint repeat_char (c : ascii) (n : nat) : string :=
  match n with
  | O => EmptyString
  | S n' => String c (repeat_char c n')
  end.

(** [str(n)] for an [int]. *)
Definition str_int (n : Z) : string := NilZero.string_of_int (Z.to_int n).

(** [str(b)] for a [bool]. *)
Definition str_bool (b : bool) : string := if b then "True" else "False".

(** The value of a run of decimal digits. *)
Fixpoint digits_value_from (acc : Z) (s : string) : Z :=
  match s with
  | String c s' => digits_value_from (10 * acc + Z.of_N (code c - 48)) s'
  | EmptyString => acc
  end.

Definition digits_value (s : string) : Z := digits_value_from 0 s.

(** *** Results and exceptions *)

(** An exception is represented by the text [str(e)] it prints as. *)
Inductive result (A : Type) : Type :=
| Ok (a : A)
| Raise (e : string).
Arguments Ok {A} a.
Arguments Raise {A} e.

(** *** Ordered dictionaries *)

Section Dict.
Context {K V : Type} (keq : K -> K -> bool).

Definition dict : Type := list (K * V).

Fixpoint dict_get (d : dict) (k : K) : option V :=
  match d with
  | [] => None
  | (k', v) :: d' => if keq k k' then Some v else dict_get d' k
  end.

(** [d[k] = v]: an existing key keeps its position. *)
Fixpoint dict_set (d : dict) (k : K) (v : V) : dict :=
  match d with
  | [] => [(k, v)]
  | (k', v') :: d' =>
      if keq k k' then (k', v) :: d' else (k', v') :: dict_set d' k v
  end.

Definition dict_has (d : dict) (k : K) : bool :=
  match dict_get d k with Some _ => true | None => false end.

(** [dict(pairs)] and repeated assignment. *)
Definition dict_of (kvs : list (K * V)) : dict :=
  fold_left (fun d kv => dict_set d (fst kv) (snd kv)) kvs [].
End Dict.
Arguments dict K V : clear implicits.

(** *** Floats *)

Definition float : Type := spec_float.

Definition prec : Z := 53.
Definition emax : Z := 1024.

(** The float nearest to [m * 10^e] (ties to even), for [m >= 0]. *)
Definition float_of_decimal (neg : bool) (m e : Z) : float :=
  match m with
  | Zpos p =>
      if 0 <=? e
      then binary_normalize prec emax
             (if neg then - (m * 10 ^ e) else m * 10 ^ e) 0 false
      else match 10 ^ (- e) with
           | Zpos q => SFdiv prec emax (S754_finite neg p 0) (S754_finite false q 0)
           | _ => S754_nan
           end
  | _ => S754_zero neg
  end.

(** [float(n)] for an [int] that does not overflow. *)
Definition float_of_int (n : Z) : float := binary_normalize prec emax n 0 false.

(** The least magnitude that rounds to an infinity: half-way between the
    largest float and [2^1024]. *)
Definition overflow_bound : Z := 2 ^ 1024 - 2 ^ 970.

(** [a / b] on two [int]s: the correctly rounded quotient;
    [ZeroDivisionError] and [OverflowError] are decided on the integers. *)
Definition truediv (a b : Z) : result float :=
  if b =? 0 then Raise "division by zero"
  else if Z.abs b * overflow_bound <=? Z.abs a
  then Raise "integer division result too large for a float"
  else Ok match a, b with
          | Zpos p, Zpos q => SFdiv prec emax (S754_finite false p 0) (S754_finite false q 0)
          | Zpos p, Zneg q => SFdiv prec emax (S754_finite false p 0) (S754_finite true q 0)
          | Zneg p, Zpos q => SFdiv prec emax (S754_finite true p 0) (S754_finite false q 0)
          | Zneg p, Zneg q => SFdiv prec emax (S754_finite true p 0) (S754_finite true q 0)
          | _, _ => S754_zero (b <? 0)
          end.

Definition fmul (x y : float) : float := SFmul prec emax x y.
Definition fadd (x y : float) : float := SFadd prec emax x y.

(** [x / n] for a float and the length of a list: the length converts to
    a float without overflow and is zero as a float only when it is 0. *)
Definition fdiv_len (x : float) (n : nat) : result float :=
  match n with
  | O => Raise "float division by zero"
  | S _ => Ok (SFdiv prec emax x (float_of_int (Z.of_nat n)))
  end.

Definition flt (x y : float) : bool := SFltb x y.

(** Digits, an optional point, digits, an optional exponent: the grammar
    [strtod] accepts once sign and underscores are gone.  The result is
    the decimal mantissa and the power of ten. *)
Definition parse_decimal (s : string) : option (Z * Z) :=
  let '(ip, r1) := span isdigit s in
  let '(fp, r2) :=
    match r1 with
    | String "." r => span isdigit r
    | _ => (EmptyString, r1)
    end in
  if (String.length ip + String.length fp =? 0)%nat then None
  else
    let m := digits_value (ip ++ fp) in
    let e0 := - Z.of_nat (String.length fp) in
    match r2 with
    | EmptyString => Some (m, e0)
    | String c r3 =>
        if Ascii.eqb (lower c) "e" then
          let '(eneg, r4) :=
            match r3 with
            | String "-" r => (true, r)
            | String "+" r => (false, r)
            | _ => (false, r3)
            end in
          let '(ed, r5) := span isdigit r4 in
          match ed, r5 with
          | String _ _, EmptyString =>
              Some (m, e0 + (if eneg then - digits_value ed else digits_value ed))
          | _, _ => None
          end
        else None
    end.

(** Underscores may only stand between two digits; they are dropped. *)
Fixpoint drop_underscores (prev : ascii) (s : string) : option string :=
  match s with
  | EmptyString => if Ascii.eqb prev "_" then None else Some EmptyString
  | String c s' =>
      if Ascii.eqb c "_" then
        if isdigit prev then drop_underscores c s' else None
      else if (Ascii.eqb prev "_" && negb (isdigit c))%bool then None
      else match drop_underscores c s' with
           | Some t => Some (String c t)
           | None => None
           end
  end.

(** [float(s)] for a [str]: [None] stands for [ValueError]. *)
Definition float_of_string (s : string) : option float :=
  let t := strip_float s in
  let '(neg, body) :=
    match t with
    | String "-" r => (true, r)
    | String "+" r => (false, r)
    | _ => (false, t)
    end in
  let lb := lowercase body in
  if (String.eqb lb "inf" || String.eqb lb "infinity")%bool
  then Some (S754_infinity neg)
  else if String.eqb lb "nan" then Some S754_nan
  else
    match (if has_char "_" body then drop_underscores zero body else Some body) with
    | None => None
    | Some plain =>
        match parse_decimal plain with
        | Some (m, e) => Some (float_of_decimal neg m e)
        | None => None
        end
    end.

(** Round [n / d] to the nearest integer, ties to even ([d > 0]). *)
Definition div_half_even (n d : Z) : Z :=
  let q := n / d in
  let r := n mod d in
  match 2 * r ?= d with
  | Lt => q
  | Gt => q + 1
  | Eq => if Z.even q then q else q + 1
  end.

(** [format(x, '.<p>f')]. *)
Definition format_f (p : nat) (x : float) : string :=
  let body (scaled : Z) :=
    let ds := str_int scaled in
    let ds := repeat_char "0" (S p - String.length ds) ++ ds in
    let k := (String.length ds - p)%nat in
    match p with
    | O => ds
    | _ => take k ds ++ "." ++ drop k ds
    end in
  match x with
  | S754_nan => "nan"
  | S754_infinity s => if s then "-inf" else "inf"
  | S754_zero s => (if s then "-" else "") ++ body 0
  | S754_finite s m e =>
      let scaled :=
        if 0 <=? e then Zpos m * 2 ^ e * 10 ^ Z.of_nat p
        else div_half_even (Zpos m * 10 ^ Z.of_nat p) (2 ^ (- e)) in
      (if s then "-" else "") ++ body scaled
  end.

End Py.

(** ** The fragment of [re] the script uses

    Each of the three patterns is a sequence of literals, greedy [c+] runs
    over a character class and one alternation of literals; every group
    wraps exactly one of them.  The matcher backtracks as [re] does: a run
    is tried longest first, alternatives left to right. *)

Module Re.

Inductive atom : Type :=
| Lit (s : string)
| Plus (cls : ascii -> bool)
| Alt (alts : list string).

(** A pattern: the flag says whether the atom is a capturing group. *)
Definition regex : Type := list (bool * atom).

Fixpoint plus_splits (cls : ascii -> bool) (s : string) : list (string * string) :=
  match s with
  | String c s' =>
      if cls c
      then List.map (fun ab => (String c (fst ab), snd ab)) (plus_splits cls s')
             ++ [(String c EmptyString, s')]
      else []
  | EmptyString => []
  end.

Definition lit_splits (l s : string) : list (string * string) :=
  if Py.startswith s l then [(l, Py.drop (String.length l) s)] else [].

(** The ways an atom can consume a prefix of [s], in the order tried. *)
Definition splits (a : atom) (s : string) : list (string * string) :=
  match a with
  | Lit l => lit_splits l s
  | Plus cls => plus_splits cls s
  | Alt alts => List.flat_map (fun l => lit_splits l s) alts
  end.

Fixpoint first_some {A B : Type} (f : A -> option B) (l : list A) : option B :=
  match l with
  | [] => None
  | a :: l' => match f a with Some b => Some b | None => first_some f l' end
  end.

(** Match at the start of [s]: the groups and the text left over. *)
Fixpoint match_here (r : regex) (s : string) : option (list string * string) :=
  match r with
  | [] => Some ([], s)
  | (cap, a) :: r' =>
      first_some
        (fun split =>
           match match_here r' (snd split) with
           | Some (gs, fin) => Some (if cap : bool then fst split :: gs else gs, fin)
           | None => None
           end)
        (splits a s)
  end.

(** [re.search(r, s)]: the groups of the leftmost match. *)
Fixpoint search (r : regex) (s : string) : option (list string) :=
  match match_here r s with
  | Some (gs, _) => Some gs
  | None => match s with
            | String _ s' => search r s'
            | EmptyString => None
            end
  end.

(** [re.finditer(r, s)]: the groups of every match, left to right, without
    overlap.  [skip] counts the characters still inside the last match. *)
Fixpoint finditer_from (r : regex) (skip : nat) (s : string) : list (list string) :=
  match skip, s with
  | S k, String _ s' => finditer_from r k s'
  | S _, EmptyString => []
  | O, _ =>
      match match_here r s with
      | Some (gs, fin) =>
          gs :: match s with
                | String _ s' =>
                    finditer_from r (String.length s - String.length fin - 1) s'
                | EmptyString => []
                end
      | None => match s with
                | String _ s' => finditer_from r O s'
                | EmptyString => []
                end
      end
  end.

Definition finditer (r : regex) (s : string) : list (list string) :=
  finditer_from r O s.

(** [match.group(i)] for [i >= 1]. *)
Definition group (m : list string) (i : nat) : string :=
  nth (i - 1) m EmptyString.

End Re.

(** ** The fragment of [csv] the script uses (dialect [excel]) *)

Module Csv.

Inductive state : Type :=
| START_RECORD | START_FIELD | IN_FIELD
| IN_QUOTED_FIELD | QUOTE_IN_QUOTED_FIELD | EAT_CRNL.

Definition state_eqb (a b : state) : bool :=
  match a, b with
  | START_RECORD, START_RECORD | START_FIELD, START_FIELD
  | IN_FIELD, IN_FIELD | IN_QUOTED_FIELD, IN_QUOTED_FIELD
  | QUOTE_IN_QUOTED_FIELD, QUOTE_IN_QUOTED_FIELD | EAT_CRNL, EAT_CRNL => true
  | _, _ => false
  end.

(** The reader's registers; [field] and [fields] are kept reversed. *)
Record parser : Type := {
  st : state;
  field : string;
  field_len : N;
  fields : list string
}.

Definition parse_reset : parser :=
  {| st := START_RECORD; field := EmptyString; field_len := 0%N; fields := [] |}.

Definition with_state (p : parser) (s : state) : parser :=
  {| st := s; field := field p; field_len := field_len p; fields := fields p |}.

Definition field_limit : N := 131072.

Definition parse_add_char (p : parser) (c : ascii) : Py.result parser :=
  if N.leb field_limit (field_len p)
  then Py.Raise "field larger than field limit (131072)"
  else Py.Ok {| st := st p; field := String c (field p);
                field_len := N.succ (field_len p); fields := fields p |}.

Definition parse_save_field (p : parser) : parser :=
  {| st := st p; field := EmptyString; field_len := 0%N;
     fields := Py.rev (field p) :: fields p |}.

(** What the reader is fed: a character of the line, or the end of it. *)
Inductive event : Type :=
| Chr (c : ascii)
| EOL.

Definition is_nl (e : event) : bool :=
  match e with
  | Chr c => (Ascii.eqb c Py.LF || Ascii.eqb c Py.CR)%bool
  | EOL => false
  end.

Definition is_chr (e : event) (d : ascii) : bool :=
  match e with
  | Chr c => Ascii.eqb c d
  | EOL => false
  end.

Definition after_line (e : event) : state :=
  match e with EOL => START_RECORD | Chr _ => EAT_CRNL end.

Definition add_event (p : parser) (e : event) (next : state) : Py.result parser :=
  match e with
  | Chr c =>
      match parse_add_char p c with
      | Py.Ok p' => Py.Ok (with_state p' next)
      | Py.Raise x => Py.Raise x
      end
  | EOL => Py.Ok p
  end.

Definition start_field (p : parser) (e : event) : Py.result parser :=
  if (is_nl e || match e with EOL => true | _ => false end)%bool
  then Py.Ok (with_state (parse_save_field p) (after_line e))
  else if is_chr e Py.DQUOTE then Py.Ok (with_state p IN_QUOTED_FIELD)
  else if is_chr e "," then Py.Ok (with_state (parse_save_field p) START_FIELD)
  else add_event p e IN_FIELD.

(** [parse_process_char]; there is no escape character in this dialect
    and [strict] is off. *)
Definition parse_process_char (p : parser) (e : event) : Py.result parser :=
  match st p with
  | START_RECORD =>
      match e with
      | EOL => Py.Ok p
      | Chr _ =>
          if is_nl e then Py.Ok (with_state p EAT_CRNL)
          else start_field p e
      end
  | START_FIELD => start_field p e
  | IN_FIELD =>
      if (is_nl e || match e with EOL => true | _ => false end)%bool
      then Py.Ok (with_state (parse_save_field p) (after_line e))
      else if is_chr e "," then Py.Ok (with_state (parse_save_field p) START_FIELD)
      else add_event p e IN_FIELD
  | IN_QUOTED_FIELD =>
      match e with
      | EOL => Py.Ok p
      | Chr _ =>
          if is_chr e Py.DQUOTE then Py.Ok (with_state p QUOTE_IN_QUOTED_FIELD)
          else add_event p e IN_QUOTED_FIELD
      end
  | QUOTE_IN_QUOTED_FIELD =>
      if is_chr e Py.DQUOTE then add_event p e IN_QUOTED_FIELD
      else if is_chr e "," then Py.Ok (with_state (parse_save_field p) START_FIELD)
      else if (is_nl e || match e with EOL => true | _ => false end)%bool
      then Py.Ok (with_state (parse_save_field p) (after_line e))
      else add_event p e IN_FIELD
  | EAT_CRNL =>
      match e with
      | EOL => Py.Ok (with_state p START_RECORD)
      | Chr _ =>
          if is_nl e then Py.Ok p
          else Py.Raise "new-line character seen in unquoted field - do you need to open the file with newline=''?"
      end
  end.

Fixpoint process_line (p : parser) (line : string) : Py.result parser :=
  match line with
  | EmptyString => parse_process_char p EOL
  | String c line' =>
      match parse_process_char p (Chr c) with
      | Py.Ok p' => process_line p' line'
      | Py.Raise x => Py.Raise x
      end
  end.

(** A lazily produced sequence: the items delivered, then either the end
    or the exception raised when the next item is asked for. *)
Definition stream (A : Type) : Type := list A * option string.

(** [csv.reader(lines)], iterated to the end. *)
Fixpoint reader_from (p : parser) (lines : list string) (tail : option string)
  : stream (list string) :=
  match lines with
  | [] =>
      match tail with
      | Some x => ([], Some x)
      | None =>
          if (negb (N.eqb (field_len p) 0) || state_eqb (st p) IN_QUOTED_FIELD)%bool
          then ([List.rev (fields (parse_save_field p))], None)
          else ([], None)
      end
  | line :: lines' =>
      match process_line p line with
      | Py.Raise x => ([], Some x)
      | Py.Ok p' =>
          if state_eqb (st p') START_RECORD
          then let '(rows, x) := reader_from parse_reset lines' tail in
               (List.rev (fields p') :: rows, x)
          else reader_from p' lines' tail
      end
  end.

Definition reader (lines : stream string) : stream (list string) :=
  reader_from parse_reset (fst lines) (snd lines).

(** A value of a [DictReader] row, before and after the script's numeric
    conversion: a string, a float, [None] for a missing column, or the
    list of surplus fields stored under the key [None]. *)
Inductive cell : Type :=
| CStr (s : string)
| CFloat (x : Py.float)
| CNone
| CList (l : list string).

Definition key_eqb (a b : option string) : bool :=
  match a, b with
  | Some x, Some y => String.eqb x y
  | None, None => true
  | _, _ => false
  end.

Definition row : Type := Py.dict (option string) cell.

Definition is_empty {A : Type} (l : list A) : bool :=
  match l with [] => true | _ => false end.

(** One row of [DictReader.__next__]. *)
Definition make_row (fieldnames r : list string) : row :=
  let d := Py.dict_of key_eqb
             (List.map (fun kv => (Some (fst kv), CStr (snd kv)))
                       (List.combine fieldnames r)) in
  let lf := List.length fieldnames in
  let lr := List.length r in
  if (lf <? lr)%nat then Py.dict_set key_eqb d None (CList (List.skipn lf r))
  else fold_left (fun d k => Py.dict_set key_eqb d (Some k) CNone)
                 (List.skipn lr fieldnames) d.

(** [csv.DictReader(f)], iterated to the end: the first record names the
    columns, blank records after it are skipped. *)
Definition DictReader (lines : stream string) : stream row :=
  let '(rows, x) := reader lines in
  match rows with
  | [] => ([], x)
  | fieldnames :: rest =>
      (List.map (make_row fieldnames)
                (List.filter (fun r => negb (is_empty r)) rest), x)
  end.

(** [csv.writer(f).writerow(fields)] on fields already turned to text. *)
Definition needs_quotes (s : string) : bool :=
  (Py.has_char "," s || Py.has_char Py.DQUOTE s
   || Py.has_char Py.CR s || Py.has_char Py.LF s)%bool.

Fixpoint double_quotes (s : string) : string :=
  match s with
  | String c s' =>
      if Ascii.eqb c Py.DQUOTE then String c (String c (double_quotes s'))
      else String c (double_quotes s')
  | EmptyString => EmptyString
  end.

Definition quote_field (s : string) : string :=
  if needs_quotes s
  then String Py.DQUOTE (double_quotes s ++ String Py.DQUOTE EmptyString)
  else s.

Definition writerow (fs : list string) : string :=
  match fs with
  | [EmptyString] => String Py.DQUOTE (String Py.DQUOTE (String Py.CR Py.nl))
  | _ => String.concat "," (List.map quote_field fs) ++ String Py.CR Py.nl
  end.

End Csv.

(** ** State and exceptions

    A computation reads and updates a state of type [S] and either returns
    or raises; the state reached when it raises is kept, as the effects of
    a Python block are when an exception leaves it. *)

Definition M (S A : Type) : Type := S -> Py.result A * S.

Definition ret {S A : Type} (a : A) : M S A := fun s => (Py.Ok a, s).

Definition bind {S A B : Type} (c : M S A) (k : A -> M S B) : M S B :=
  fun s =>
    match c s with
    | (Py.Ok a, s') => k a s'
    | (Py.Raise e, s') => (Py.Raise e, s')
    end.

Definition lift {S A : Type} (r : Py.result A) : M S A := fun s => (r, s).

Definition modify {S : Type} (f : S -> S) : M S unit := fun s => (Py.Ok tt, f s).

Declare Scope monad_scope.
Delimit Scope monad_scope with monad.
Notation "x <- c ;; k" := (bind c (fun x => k))
  (at level 61, c at next level, right associativity) : monad_scope.
Notation "c ;; k" := (bind c (fun _ => k))
  (at level 61, right associativity) : monad_scope.
Local Open Scope monad_scope.

(** [for x in l: body]. *)
Fixpoint for_each {S X : Type} (l : list X) (body : X -> M S unit) : M S unit :=
  match l with
  | [] => ret tt
  | x :: l' => body x ;; for_each l' body
  end.

(** A loop that rebinds a local variable [acc]. *)
Fixpoint for_fold {S X A : Type} (l : list X) (acc : A) (body : A -> X -> M S A)
  : M S A :=
  match l with
  | [] => ret acc
  | x :: l' => acc' <- body acc x ;; for_fold l' acc' body
  end.

(** [if cond: body]. *)
Definition when {S : Type} (cond : bool) (body : M S unit) : M S unit :=
  if cond then body else ret tt.

(** ** Data model *)

(** A decoded JSON document. *)
#[local] Set Warnings "-register-all".
Inductive json : Type :=
| JNull
| JBool (b : bool)
| JInt (n : Z)
| JFloat (x : Py.float)
| JStr (s : string)
| JArr (items : list json)
| JObj (members : list (string * json)).
#[local] Set Warnings "register-all".

(** Truth value of a decoded document, as [if json_data:] tests it. *)
Definition truthy (j : json) : bool :=
  match j with
  | JNull => false
  | JBool b => b
  | JInt n => negb (n =? 0)
  | JFloat (S754_zero _) => false
  | JFloat _ => true
  | JStr s => negb (String.eqb s EmptyString)
  | JArr items => negb (Csv.is_empty items)
  | JObj members => negb (Csv.is_empty members)
  end.

(** What reading a file gives: the decoded characters, an exception before
    any character is delivered, or characters followed by an exception (a
    decoding error further down a file that is read line by line). *)
Inductive read_outcome : Type :=
| Unreadable (e : string)
| Text (raw : string)
| TextThenError (raw : string) (e : string).

(** A file of the artifacts tree.  [f_json] is what [json.load] makes of
    the file: the decoder itself is not part of the script. *)
Record file : Type := {
  f_path : string;
  f_data : read_outcome;
  f_json : Py.result json
}.

(** What one log file yields.  The key ['metrics'] is absent until it is
    assigned: [None] stands for the absent key. *)
Module Results.
Record t : Type := {
  gates : Py.dict string bool;
  overall_success : bool;
  execution_time : Z;
  build_id : string;
  timestamp : option string;
  metrics : option (Py.dict string Py.float)
}.
End Results.

Module Summary.
Record t : Type := {
  total_gates : Z;
  passed_gates : Z;
  failed_gates : Z;
  overall_success : bool;
  analysis_timestamp : string
}.
End Summary.

Module Report.
Record t : Type := {
  name : string;
  path : string;
  data : json
}.
End Report.

Module Analysis.
Record t : Type := {
  summary : Summary.t;
  gates : Py.dict string bool;
  performance_data : Py.dict string (list Csv.row);
  reports : list Report.t
}.
End Analysis.

(** What a written file holds: text, or the analysis handed to
    [json.dump] (its serialisation is not modelled). *)
Inductive content : Type :=
| TextContent (s : string)
| JsonDump (a : Analysis.t).

(** The console and the files written so far. *)
Record world : Type := {
  console : list string;
  files : Py.dict string content
}.

Definition empty_world : world := {| console := []; files := [] |}.

Definition print (s : string) : M world unit :=
  modify (fun w => {| console := (console w ++ [s])%list; files := files w |}).

(** [f.write(s)] inside a [with open(path, 'w') as f:] block, whose state
    is the text written to [f] so far. *)
Definition emit (s : string) : M string unit := modify (fun text => text ++ s).

(** [with open(path, 'w') as f: body]: the file holds what [body] wrote,
    also when [body] raises. *)
Definition with_open_w (path : string) (body : M string unit) : M world unit :=
  fun w =>
    let '(r, text) := body EmptyString in
    (r, {| console := console w;
           files := Py.dict_set String.eqb (files w) path (TextContent text) |}).

(** [with open(path, 'w') as f: json.dump(a, f, indent=2, default=str)]. *)
Definition dump (path : string) (a : Analysis.t) : M world unit :=
  modify (fun w => {| console := console w;
                      files := Py.dict_set String.eqb (files w) path (JsonDump a) |}).

(** ** Paths and text files *)

(** [Path(d) / n], for a directory name without a trailing separator. *)
Definition path_join (d n : string) : string := d ++ "/" ++ n.

(** [Path.name]: the last component. *)
Definition basename (p : string) : string :=
  Py.rev (fst (Py.span (fun c => negb (Ascii.eqb c "/")) (Py.rev p))).

(** [Path.stem]: the name without its last suffix. *)
Definition stem (p : string) : string :=
  let n := basename p in
  let '(suffix_rev, rest) := Py.span (fun c => negb (Ascii.eqb c ".")) (Py.rev n) in
  match suffix_rev, rest with
  | String _ _, String _ (String c before) => Py.rev (String c before)
  | _, _ => n
  end.

(** Text mode with universal newlines: CR LF and a lone CR read as LF. *)
Fixpoint universal_newlines (raw : string) : string :=
  match raw with
  | String c rest =>
      if Ascii.eqb c Py.CR then
        match rest with
        | String d rest' =>
            if Ascii.eqb d Py.LF then String Py.LF (universal_newlines rest')
            else String Py.LF (universal_newlines rest)
        | EmptyString => Py.nl
        end
      else String c (universal_newlines rest)
  | EmptyString => EmptyString
  end.

(** The lines of a text, each with its newline; [partial] tells whether
    an unterminated last line is delivered too. *)
Fixpoint lines_from (partial : bool) (cur : string) (s : string) : list string :=
  match s with
  | String c s' =>
      if Ascii.eqb c Py.LF then Py.rev (String c cur) :: lines_from partial EmptyString s'
      else lines_from partial (String c cur) s'
  | EmptyString =>
      match cur with
      | EmptyString => []
      | _ => if partial then [Py.rev cur] else []
      end
  end.

(** [f.read()] on a file opened for reading as text. *)
Definition read (f : file) : Py.result string :=
  match f_data f with
  | Text raw => Py.Ok (universal_newlines raw)
  | Unreadable e => Py.Raise e
  | TextThenError _ e => Py.Raise e
  end.

(** Iterating over a file opened for reading as text; [open] itself may
    raise. *)
Definition open_lines (f : file) : Py.result (Csv.stream string) :=
  match f_data f with
  | Text raw => Py.Ok (lines_from true EmptyString (universal_newlines raw), None)
  | Unreadable e => Py.Raise e
  | TextThenError raw e =>
      Py.Ok (lines_from false EmptyString (universal_newlines raw), Some e)
  end.

(** ** parse_log_file *)

Definition build_id_pattern : Re.regex :=
  [(false, Re.Lit "Build ID: ");
   (true, Re.Plus (fun c => negb (Py.isspace c || Ascii.eqb c Py.LF)))].

Definition gate_pattern : Re.regex :=
  [(false, Re.Lit "[");
   (true, Re.Plus Py.isword);
   (false, Re.Lit "] Gate '");
   (true, Re.Plus (fun c => negb (Ascii.eqb c "'")));
   (false, Re.Lit "': ");
   (true, Re.Alt ["PASS"; "FAIL"])].

Definition metrics_pattern : Re.regex :=
  [(true, Re.Plus Py.isword);
   (false, Re.Lit ": ");
   (true, Re.Plus (fun c => (Py.isdigit c || Ascii.eqb c ".")%bool))].

Definition default_results : Results.t :=
  {| Results.gates := [];
     Results.overall_success := false;
     Results.execution_time := 0;
     Results.build_id := "unknown";
     Results.timestamp := None;
     Results.metrics := None |}.

Definition set_build_id (v : string) (r : Results.t) : Results.t :=
  {| Results.gates := Results.gates r;
     Results.overall_success := Results.overall_success r;
     Results.execution_time := Results.execution_time r;
     Results.build_id := v;
     Results.timestamp := Results.timestamp r;
     Results.metrics := Results.metrics r |}.

Definition set_overall_success (v : bool) (r : Results.t) : Results.t :=
  {| Results.gates := Results.gates r;
     Results.overall_success := v;
     Results.execution_time := Results.execution_time r;
     Results.build_id := Results.build_id r;
     Results.timestamp := Results.timestamp r;
     Results.metrics := Results.metrics r |}.

Definition set_gate (k : string) (v : bool) (r : Results.t) : Results.t :=
  {| Results.gates := Py.dict_set String.eqb (Results.gates r) k v;
     Results.overall_success := Results.overall_success r;
     Results.execution_time := Results.execution_time r;
     Results.build_id := Results.build_id r;
     Results.timestamp := Results.timestamp r;
     Results.metrics := Results.metrics r |}.

Definition set_metrics (v : Py.dict string Py.float) (r : Results.t) : Results.t :=
  {| Results.gates := Results.gates r;
     Results.overall_success := Results.overall_success r;
     Results.execution_time := Results.execution_time r;
     Results.build_id := Results.build_id r;
     Results.timestamp := Results.timestamp r;
     Results.metrics := Some v |}.

(** [float(s)] on a token of digits and dots: the [ValueError] shows the
    token between quotes. *)
Definition float_of_token (s : string) : Py.result Py.float :=
  match Py.float_of_string s with
  | Some x => Py.Ok x
  | None => Py.Raise ("could not convert string to float: '" ++ s ++ "'")
  end.

(** The body of the [try] block, acting on the dictionary [results]. *)
Definition parse_log_file_try (f : file) : M Results.t unit :=
  content <- lift (read f) ;;
  (* Extract build ID *)
  match Re.search build_id_pattern content with
  | Some build_id_match => modify (set_build_id (Re.group build_id_match 1))
  | None => ret tt
  end ;;
  (* Extract overall result *)
  (if Py.contains "ALL PERFORMANCE GATES PASSED" content
   then modify (set_overall_success true)
   else if Py.contains "PERFORMANCE GATES FAILED" content
   then modify (set_overall_success false)
   else ret tt) ;;
  (* Extract individual gate results *)
  for_each (Re.finditer gate_pattern content) (fun m =>
    let gate_name := Re.group m 2 in
    let gate_result := String.eqb (Re.group m 3) "PASS" in
    modify (set_gate gate_name gate_result)) ;;
  (* Extract performance metrics *)
  metrics <- for_fold (Re.finditer metrics_pattern content) []
    (fun metrics m =>
       let metric_name := Re.group m 1 in
       metric_value <- lift (float_of_token (Re.group m 2)) ;;
       ret (Py.dict_set String.eqb metrics metric_name metric_value)) ;;
  modify (set_metrics metrics).

Definition parse_log_file (log_path : file) : M world Results.t :=
  match parse_log_file_try log_path default_results with
  | (Py.Ok _, results) => ret results
  | (Py.Raise e, results) =>
      print ("Error parsing log file " ++ f_path log_path ++ ": " ++ e) ;;
      ret results
  end.

(** ** parse_csv_report *)

(** [row[key] = float(value)], or the value kept when that raises
    [ValueError] (a string that is no number) or [TypeError] ([None], a
    list). *)
Definition convert_cell (value : Csv.cell) : Csv.cell :=
  match value with
  | Csv.CStr s =>
      match Py.float_of_string s with
      | Some x => Csv.CFloat x
      | None => value
      end
  | _ => value
  end.

Definition convert_row (r : Csv.row) : Csv.row :=
  List.map (fun kv => (fst kv, convert_cell (snd kv))) r.

(** The body of the [try] block, acting on the list [data]. *)
Definition parse_csv_report_try (csv_path : file) : M (list Csv.row) unit :=
  f <- lift (open_lines csv_path) ;;
  let '(rows, failure) := Csv.DictReader f in
  for_each rows (fun row =>
    (* Convert numeric fields *)
    modify (fun data => (data ++ [convert_row row])%list)) ;;
  match failure with
  | Some e => lift (Py.Raise e)
  | None => ret tt
  end.

Definition parse_csv_report (csv_path : file) : M world (list Csv.row) :=
  match parse_csv_report_try csv_path [] with
  | (Py.Ok _, data) => ret data
  | (Py.Raise e, data) =>
      print ("Error parsing CSV file " ++ f_path csv_path ++ ": " ++ e) ;;
      ret data
  end.

(** ** parse_json_report *)

Definition parse_json_report (json_path : file) : M world json :=
  match f_json json_path with
  | Py.Ok v => ret v
  | Py.Raise e =>
      print ("Error parsing JSON file " ++ f_path json_path ++ ": " ++ e) ;;
      ret (JObj [])
  end.

(** ** analyze_artifacts_directory *)

Definition bump (a : Analysis.t) (gs : Py.dict string bool)
    (dt dp df : Z) : Analysis.t :=
  let s := Analysis.summary a in
  {| Analysis.summary :=
       {| Summary.total_gates := Summary.total_gates s + dt;
          Summary.passed_gates := Summary.passed_gates s + dp;
          Summary.failed_gates := Summary.failed_gates s + df;
          Summary.overall_success := Summary.overall_success s;
          Summary.analysis_timestamp := Summary.analysis_timestamp s |};
     Analysis.gates := gs;
     Analysis.performance_data := Analysis.performance_data a;
     Analysis.reports := Analysis.reports a |}.

(** One turn of the loop over [log_results['gates'].items()]. *)
Definition merge_gate (analysis : Analysis.t) (item : string * bool) : Analysis.t :=
  let '(gate_name, gate_result) := item in
  let gs := Py.dict_set String.eqb (Analysis.gates analysis) gate_name gate_result in
  if gate_result then bump analysis gs 1 1 0 else bump analysis gs 1 0 1.

Definition mark_success (a : Analysis.t) : Analysis.t :=
  let s := Analysis.summary a in
  {| Analysis.summary :=
       {| Summary.total_gates := Summary.total_gates s;
          Summary.passed_gates := Summary.passed_gates s;
          Summary.failed_gates := Summary.failed_gates s;
          Summary.overall_success := true;
          Summary.analysis_timestamp := Summary.analysis_timestamp s |};
     Analysis.gates := Analysis.gates a;
     Analysis.performance_data := Analysis.performance_data a;
     Analysis.reports := Analysis.reports a |}.

(** What the loop over the log files does with one [log_results]. *)
Definition merge_log (analysis : Analysis.t) (log_results : Results.t) : Analysis.t :=
  (* Merge gate results *)
  let analysis := fold_left merge_gate (Results.gates log_results) analysis in
  (* Update overall success *)
  if Results.overall_success log_results then mark_success analysis else analysis.

Definition set_performance_data (a : Analysis.t) (k : string) (v : list Csv.row)
  : Analysis.t :=
  {| Analysis.summary := Analysis.summary a;
     Analysis.gates := Analysis.gates a;
     Analysis.performance_data :=
       Py.dict_set String.eqb (Analysis.performance_data a) k v;
     Analysis.reports := Analysis.reports a |}.

Definition append_report (a : Analysis.t) (r : Report.t) : Analysis.t :=
  {| Analysis.summary := Analysis.summary a;
     Analysis.gates := Analysis.gates a;
     Analysis.performance_data := Analysis.performance_data a;
     Analysis.reports := (Analysis.reports a ++ [r])%list |}.

(** [Path.glob('**/<name>')] and [Path.glob('**/*<suffix>')] over the
    files of the tree, listed in the order the walk meets them. *)
Definition glob_name (n : string) (tree : list file) : list file :=
  List.filter (fun f => String.eqb (basename (f_path f)) n) tree.

Definition glob_suffix (suffix : string) (tree : list file) : list file :=
  List.filter (fun f => Py.endswith (basename (f_path f)) suffix) tree.

Definition initial_analysis (now : string) : Analysis.t :=
  {| Analysis.summary :=
       {| Summary.total_gates := 0;
          Summary.passed_gates := 0;
          Summary.failed_gates := 0;
          Summary.overall_success := false;
          Summary.analysis_timestamp := now |};
     Analysis.gates := [];
     Analysis.performance_data := [];
     Analysis.reports := [] |}.

(** The log files in the order they are visited: a file named
    [performance-gates.log] is found by both patterns. *)
Definition log_files (tree : list file) : list file :=
  (glob_name "performance-gates.log" tree ++ glob_suffix ".log" tree)%list.

(** [tree] lists the files below [artifacts_dir]; [now] is
    [datetime.utcnow().isoformat()]. *)
Definition analyze_artifacts_directory (artifacts_dir : string) (tree : list file)
    (now : string) : M world Analysis.t :=
  let analysis := initial_analysis now in
  print ("Analyzing artifacts in: " ++ artifacts_dir) ;;
  (* Find and parse log files *)
  analysis <- for_fold (log_files tree) analysis (fun analysis log_file =>
    print ("Parsing log file: " ++ f_path log_file) ;;
    log_results <- parse_log_file log_file ;;
    ret (merge_log analysis log_results)) ;;
  (* Find and parse CSV reports *)
  analysis <- for_fold (glob_suffix ".csv" tree) analysis (fun analysis csv_file =>
    print ("Parsing CSV file: " ++ f_path csv_file) ;;
    csv_data <- parse_csv_report csv_file ;;
    if negb (Csv.is_empty csv_data)
    then ret (set_performance_data analysis (stem (f_path csv_file)) csv_data)
    else ret analysis) ;;
  (* Find and parse JSON reports *)
  analysis <- for_fold (glob_suffix ".json" tree) analysis (fun analysis json_file =>
    print ("Parsing JSON file: " ++ f_path json_file) ;;
    json_data <- parse_json_report json_file ;;
    if truthy json_data
    then ret (append_report analysis
                {| Report.name := stem (f_path json_file);
                   Report.path := f_path json_file;
                   Report.data := json_data |})
    else ret analysis) ;;
  ret analysis.

(** ** generate_summary_report *)

(** The two status glyphs, as the UTF-8 bytes written to the file:
    U+2705 and U+274C. *)
Definition CHECK_MARK : string :=
  String (ascii_of_N 226) (String (ascii_of_N 156) (String (ascii_of_N 133) EmptyString)).
Definition CROSS_MARK : string :=
  String (ascii_of_N 226) (String (ascii_of_N 157) (String (ascii_of_N 140) EmptyString)).

(** [str(key)] for a column key. *)
Definition str_key (k : option string) : string :=
  match k with Some s => s | None => "None" end.

Definition is_number (c : Csv.cell) : bool :=
  match c with Csv.CFloat _ => true | _ => false end.

(** [min(values)] and [max(values)]: the first item is kept until a
    strictly smaller (greater) one is met. *)
Definition py_min (first : Py.float) (others : list Py.float) : Py.float :=
  fold_left (fun cur x => if Py.flt x cur then x else cur) others first.

Definition py_max (first : Py.float) (others : list Py.float) : Py.float :=
  fold_left (fun cur x => if Py.flt cur x then x else cur) others first.

(** [sum(values)], accumulated left to right from zero (CPython up to
    3.11; later versions carry a compensation term along). *)
Definition py_sum (values : list Py.float) : Py.float :=
  fold_left Py.fadd values (S754_zero false).

(** [[row[col] for row in data if isinstance(row.get(col), (int, float))]]. *)
Definition column_values (data : list Csv.row) (col : option string) : list Py.float :=
  List.flat_map
    (fun r => match Py.dict_get Csv.key_eqb r col with
              | Some (Csv.CFloat x) => [x]
              | _ => []
              end) data.

(** [(passed_gates / total_gates) * 100], shown with one decimal. *)
Definition success_rate (s : Summary.t) : Py.result string :=
  match Py.truediv (Summary.passed_gates s) (Summary.total_gates s) with
  | Py.Ok q => Py.Ok (Py.format_f 1 (Py.fmul q (Py.float_of_int 100)))
  | Py.Raise e => Py.Raise e
  end.

(** The statistics table of one tabular report. *)
Definition write_statistics (data : list Csv.row) : M string unit :=
  match data with
  | [] => ret tt
  | first :: _ =>
      (* Calculate basic statistics for numeric columns *)
      let numeric_columns :=
        List.map fst (List.filter (fun kv => is_number (snd kv)) first) in
      when (negb (Csv.is_empty numeric_columns)) (
        emit ("| Metric | Min | Max | Average |" ++ Py.nl) ;;
        emit ("|--------|-----|-----|----------|" ++ Py.nl) ;;
        for_each numeric_columns (fun col =>
          match column_values data col with
          | [] => ret tt
          | v :: vs =>
              let min_val := py_min v vs in
              let max_val := py_max v vs in
              avg_val <- lift (Py.fdiv_len (py_sum (v :: vs)) (List.length (v :: vs))) ;;
              emit ("| " ++ str_key col ++ " | " ++ Py.format_f 2 min_val
                    ++ " | " ++ Py.format_f 2 max_val
                    ++ " | " ++ Py.format_f 2 avg_val ++ " |" ++ Py.nl)
          end) ;;
        emit Py.nl)
  end.

(** The table of gates. *)
Definition write_gate_table (analysis : Analysis.t) : M string unit :=
  when (negb (Csv.is_empty (Analysis.gates analysis))) (
    emit ("## Individual Gate Results" ++ Py.nl ++ Py.nl) ;;
    emit ("| Gate Name | Status |" ++ Py.nl) ;;
    emit ("|-----------|--------|" ++ Py.nl) ;;
    for_each (Analysis.gates analysis) (fun item =>
      let '(gate_name, gate_result) := item in
      let status_emoji := if gate_result : bool then CHECK_MARK else CROSS_MARK in
      let status_text := if gate_result then "PASS" else "FAIL" in
      emit ("| " ++ gate_name ++ " | " ++ status_emoji ++ " " ++ status_text
            ++ " |" ++ Py.nl)) ;;
    emit Py.nl).

Definition write_performance_data (analysis : Analysis.t) : M string unit :=
  when (negb (Csv.is_empty (Analysis.performance_data analysis))) (
    emit ("## Performance Data Summary" ++ Py.nl ++ Py.nl) ;;
    for_each (Analysis.performance_data analysis) (fun item =>
      let '(report_name, data) := item in
      emit ("### " ++ report_name ++ Py.nl ++ Py.nl) ;;
      write_statistics data ;;
      emit ("**Data Points**: " ++ Py.str_int (Z.of_nat (List.length data))
            ++ Py.nl ++ Py.nl))).

Definition write_reports (analysis : Analysis.t) : M string unit :=
  when (negb (Csv.is_empty (Analysis.reports analysis))) (
    emit ("## Available Reports" ++ Py.nl ++ Py.nl) ;;
    for_each (Analysis.reports analysis) (fun report =>
      emit ("- **" ++ Report.name report ++ "**: " ++ Report.path report ++ Py.nl)) ;;
    emit Py.nl).

Definition write_recommendations (analysis : Analysis.t) : M string unit :=
  emit ("## Recommendations" ++ Py.nl ++ Py.nl) ;;
  if 0 <? Summary.failed_gates (Analysis.summary analysis) then
    emit (CROSS_MARK ++ " **Action Required**: Some performance gates have failed."
          ++ Py.nl ++ Py.nl) ;;
    emit ("**Failed Gates:**" ++ Py.nl) ;;
    for_each (Analysis.gates analysis) (fun item =>
      let '(gate_name, gate_result) := item in
      when (negb gate_result) (emit ("- " ++ gate_name ++ Py.nl))) ;;
    emit Py.nl ;;
    emit ("**Next Steps:**" ++ Py.nl) ;;
    emit ("1. Review the detailed logs for each failed gate" ++ Py.nl) ;;
    emit ("2. Address the specific issues identified" ++ Py.nl) ;;
    emit ("3. Re-run the performance gates" ++ Py.nl) ;;
    emit ("4. Consider adjusting performance thresholds if appropriate" ++ Py.nl)
  else
    emit (CHECK_MARK ++ " **All Clear**: All performance gates have passed successfully."
          ++ Py.nl ++ Py.nl) ;;
    emit ("**Next Steps:**" ++ Py.nl) ;;
    emit ("1. Proceed with build deployment" ++ Py.nl) ;;
    emit ("2. Monitor performance metrics in production" ++ Py.nl) ;;
    emit ("3. Consider tightening performance thresholds for continuous improvement"
          ++ Py.nl).

(** Title, timestamp and overall status. *)
Definition write_overall_status (analysis : Analysis.t) : M string unit :=
  let summary := Analysis.summary analysis in
  emit ("# Performance Gates Analysis Summary" ++ Py.nl ++ Py.nl) ;;
  emit ("**Analysis Timestamp**: " ++ Summary.analysis_timestamp summary
        ++ Py.nl ++ Py.nl) ;;
  (* Overall status *)
  let status_emoji := if Summary.overall_success summary then CHECK_MARK else CROSS_MARK in
  let status_text := if Summary.overall_success summary then "PASSED" else "FAILED" in
  emit ("## Overall Status: " ++ status_emoji ++ " " ++ status_text ++ Py.nl ++ Py.nl).

(** The summary statistics. *)
Definition write_summary_statistics (analysis : Analysis.t) : M string unit :=
  let summary := Analysis.summary analysis in
  emit ("## Summary Statistics" ++ Py.nl ++ Py.nl) ;;
  emit ("- **Total Gates**: " ++ Py.str_int (Summary.total_gates summary) ++ Py.nl) ;;
  emit ("- **Passed Gates**: " ++ Py.str_int (Summary.passed_gates summary) ++ Py.nl) ;;
  emit ("- **Failed Gates**: " ++ Py.str_int (Summary.failed_gates summary) ++ Py.nl) ;;
  when (0 <? Summary.total_gates summary) (
    rate <- lift (success_rate summary) ;;
    emit ("- **Success Rate**: " ++ rate ++ "%" ++ Py.nl)) ;;
  emit Py.nl.

(** The sections after the summary statistics, in order. *)
Definition write_sections (analysis : Analysis.t) : M string unit :=
  (* Individual gate results *)
  write_gate_table analysis ;;
  (* Performance data summary *)
  write_performance_data analysis ;;
  (* Reports summary *)
  write_reports analysis ;;
  (* Recommendations *)
  write_recommendations analysis.

(** The body of the [with] block: everything written to the summary. *)
Definition summary_body (analysis : Analysis.t) : M string unit :=
  write_overall_status analysis ;;
  write_summary_statistics analysis ;;
  write_sections analysis.

Definition generate_summary_report (analysis : Analysis.t) (output_dir : string)
  : M world string :=
  let output_path := path_join output_dir "performance-analysis-summary.md" in
  with_open_w output_path (summary_body analysis) ;;
  print ("Summary report generated: " ++ output_path) ;;
  ret output_path.

(** ** generate_detailed_analysis *)

(** The body of the [with] block that writes the gate table. *)
Definition gates_csv_body (analysis : Analysis.t) : M string unit :=
  emit (Csv.writerow ["Gate Name"; "Status"; "Success"]) ;;
  for_each (Analysis.gates analysis) (fun item =>
    let '(gate_name, gate_result) := item in
    let status := if gate_result : bool then "PASS" else "FAIL" in
    emit (Csv.writerow [gate_name; status; Py.str_bool gate_result])).

Definition generate_detailed_analysis (analysis : Analysis.t) (output_dir : string)
  : M world unit :=
  (* Save full analysis as JSON *)
  let analysis_json_path := path_join output_dir "full-analysis.json" in
  dump analysis_json_path analysis ;;
  print ("Detailed analysis saved: " ++ analysis_json_path) ;;
  (* Generate CSV summary of gate results *)
  when (negb (Csv.is_empty (Analysis.gates analysis))) (
    let gates_csv_path := path_join output_dir "gate-results.csv" in
    with_open_w gates_csv_path (gates_csv_body analysis) ;;
    print ("Gate results CSV saved: " ++ gates_csv_path)).

(** ** main *)

(** The entry point after argument parsing.  [tree] is [None] when
    [artifacts_dir] does not exist, else the files below it; the output
    directory can be created and written.  The value returned is the
    argument of [sys.exit]. *)
Definition main (artifacts_dir output_dir : string) (tree : option (list file))
    (now : string) : M world Z :=
  match tree with
  | None =>
      print ("Error: Artifacts directory not found: " ++ artifacts_dir) ;;
      ret 1
  | Some tree =>
      print "=== Performance Gates Analysis ===" ;;
      print ("Artifacts Directory: " ++ artifacts_dir) ;;
      print ("Output Directory: " ++ output_dir) ;;
      print "" ;;
      (* Analyze artifacts *)
      analysis <- analyze_artifacts_directory artifacts_dir tree now ;;
      (* Generate reports *)
      summary_path <- generate_summary_report analysis output_dir ;;
      generate_detailed_analysis analysis output_dir ;;
      (* Print summary to console *)
      let summary := Analysis.summary analysis in
      print (Py.nl ++ "=== Analysis Summary ===") ;;
      print ("Total Gates: " ++ Py.str_int (Summary.total_gates summary)) ;;
      print ("Passed Gates: " ++ Py.str_int (Summary.passed_gates summary)) ;;
      print ("Failed Gates: " ++ Py.str_int (Summary.failed_gates summary)) ;;
      when (0 <? Summary.total_gates summary) (
        rate <- lift (success_rate summary) ;;
        print ("Success Rate: " ++ rate ++ "%")) ;;
      let overall_status := if Summary.overall_success summary then "PASSED" else "FAILED" in
      print ("Overall Status: " ++ overall_status) ;;
      print (Py.nl ++ "Detailed reports available in: " ++ output_dir) ;;
      (* Exit with appropriate code *)
      if 0 <? Summary.failed_gates summary then
        print (Py.nl ++ CROSS_MARK ++ " Some performance gates failed - check the detailed reports") ;;
        ret 1
      else
        print (Py.nl ++ CHECK_MARK ++ " All performance gates passed successfully") ;;
        ret 0
  end.

(** The exit status of the process: the argument of [sys.exit], or 1 when
    an exception reaches the top level. *)
Definition exit_status (run : Py.result Z * world) : Z :=
  match fst run with
  | Py.Ok code => code
  | Py.Raise _ => 1
  end.

(** ** Notions the statements are written with *)

(** What [parse_log_file] returns for a file (see [parse_log_file_returns]),
    what [parse_csv_report] returns, what [parse_json_report] returns. *)
Definition log_results (f : file) : Results.t :=
  snd (parse_log_file_try f default_results).

Definition csv_data (f : file) : list Csv.row :=
  snd (parse_csv_report_try f []).

Definition json_data (f : file) : json :=
  match f_json f with
  | Py.Ok v => v
  | Py.Raise _ => JObj []
  end.

(** The occurrences of the gate pattern in a text, in order: the name
    and whether the verdict reads [PASS]. *)
Definition gate_matches (content : string) : list (string * bool) :=
  List.map (fun m => (Re.group m 2, String.eqb (Re.group m 3) "PASS"))
           (Re.finditer gate_pattern content).

(** The occurrences met while a log file is parsed. *)
Definition occurrences (f : file) : list (string * bool) :=
  match read f with
  | Py.Ok content => gate_matches content
  | Py.Raise _ => []
  end.

(** The occurrences met over a whole run, in processing order. *)
Definition all_occurrences (tree : list file) : list (string * bool) :=
  List.flat_map occurrences (log_files tree).

(** The verdict of the last occurrence of [x]. *)
Fixpoint last_verdict (x : string) (occ : list (string * bool)) : option bool :=
  match occ with
  | [] => None
  | (k, v) :: rest =>
      match last_verdict x rest with
      | Some v' => Some v'
      | None => if String.eqb x k then Some v else None
      end
  end.

(** Whether some entry carries the name [x]. *)
Definition occurs (x : string) (occ : list (string * bool)) : bool :=
  List.existsb (fun kv => String.eqb x (fst kv)) occ.

(** How many entries carry the name [x]. *)
Definition count_name (x : string) (occ : list (string * bool)) : nat :=
  List.length (List.filter (fun kv => String.eqb x (fst kv)) occ).

(** How many entries pass, how many fail. *)
Definition passes (l : list (string * bool)) : nat :=
  List.length (List.filter (fun kv => snd kv) l).

Definition fails (l : list (string * bool)) : nat :=
  List.length (List.filter (fun kv => negb (snd kv)) l).

(** The entries the merge loop of the aggregator runs over, in order:
    for each visited log file, the items of its [gates] dictionary. *)
Definition folded_entries (tree : list file) : list (string * bool) :=
  List.flat_map (fun f => Results.gates (log_results f)) (log_files tree).

(** The metrics dictionary of a text, when every conversion succeeds. *)
Fixpoint metrics_from (ms : list (list string)) (acc : Py.dict string Py.float)
  : option (Py.dict string Py.float) :=
  match ms with
  | [] => Some acc
  | m :: ms' =>
      match Py.float_of_string (Re.group m 2) with
      | Some x => metrics_from ms' (Py.dict_set String.eqb acc (Re.group m 1) x)
      | None => None
      end
  end.

Definition build_id_of (content : string) : string :=
  match Re.search build_id_pattern content with
  | Some m => Re.group m 1
  | None => "unknown"
  end.

(** The fields of the result, for a file whose text could be read. *)
Definition results_of_text (content : string) : Results.t :=
  {| Results.gates := Py.dict_of String.eqb (gate_matches content);
     Results.overall_success := Py.contains "ALL PERFORMANCE GATES PASSED" content;
     Results.execution_time := 0;
     Results.build_id := build_id_of content;
     Results.timestamp := None;
     Results.metrics := metrics_from (Re.finditer metrics_pattern content) [] |}.

(** The aggregate after the three loops, as a fold. *)
Definition csv_step (analysis : Analysis.t) (csv_file : file) : Analysis.t :=
  if negb (Csv.is_empty (csv_data csv_file))
  then set_performance_data analysis (stem (f_path csv_file)) (csv_data csv_file)
  else analysis.

Definition json_step (analysis : Analysis.t) (json_file : file) : Analysis.t :=
  if truthy (json_data json_file)
  then append_report analysis
         {| Report.name := stem (f_path json_file);
            Report.path := f_path json_file;
            Report.data := json_data json_file |}
  else analysis.

Definition merged_logs (tree : list file) (now : string) : Analysis.t :=
  fold_left merge_log (List.map log_results (log_files tree)) (initial_analysis now).

Definition final_analysis (tree : list file) (now : string) : Analysis.t :=
  fold_left json_step (glob_suffix ".json" tree)
    (fold_left csv_step (glob_suffix ".csv" tree) (merged_logs tree now)).

(** Every state of the aggregate while the log files are merged: before
    and after each gate entry folded in, and after each log file. *)
Fixpoint scan {A B : Type} (f : A -> B -> A) (l : list B) (a : A) : list A :=
  a :: match l with
       | [] => []
       | b :: l' => scan f l' (f a b)
       end.

Fixpoint aggregation_states (rs : list Results.t) (a : Analysis.t) : list Analysis.t :=
  match rs with
  | [] => [a]
  | r :: rs' =>
      (scan merge_gate (Results.gates r) a
         ++ aggregation_states rs' (merge_log a r))%list
  end.

Definition counters_consistent (a : Analysis.t) : Prop :=
  Summary.total_gates (Analysis.summary a)
  = Summary.passed_gates (Analysis.summary a) + Summary.failed_gates (Analysis.summary a).

(** The computation returns from every state. *)
Definition returns {S A : Type} (c : M S A) : Prop :=
  forall s, exists a s', c s = (Py.Ok a, s').

(** The counters of a summary are those of a count: none is negative and
    the passed gates are among the total. *)
Definition counters_sane (s : Summary.t) : Prop :=
  0 <= Summary.passed_gates s <= Summary.total_gates s
  /\ 0 <= Summary.failed_gates s.

(** A block of writes only appends to the text written before it. *)
Definition appends {A : Type} (c : M string A) : Prop :=
  forall t, c t = (fst (c EmptyString), t ++ snd (c EmptyString)).

(** The second world holds the same files as the first. *)
Definition same_files (w w' : world) : Prop := files w' = files w.

(** The text of the two rendered files. *)
Definition summary_text (a : Analysis.t) : string := snd (summary_body a EmptyString).

Definition gates_csv_text (a : Analysis.t) : string := snd (gates_csv_body a EmptyString).

(** The files after both renderers have run on [a]. *)
Definition output_files (output_dir : string) (a : Analysis.t)
    (fs : Py.dict string content) : Py.dict string content :=
  let fs := Py.dict_set String.eqb fs
              (path_join output_dir "performance-analysis-summary.md")
              (TextContent (summary_text a)) in
  let fs := Py.dict_set String.eqb fs
              (path_join output_dir "full-analysis.json") (JsonDump a) in
  if Csv.is_empty (Analysis.gates a) then fs
  else Py.dict_set String.eqb fs
         (path_join output_dir "gate-results.csv")
         (TextContent (gates_csv_text a)).

(** An analysis with its total and passed counters replaced. *)
Definition with_counts (total passed : Z) (a : Analysis.t) : Analysis.t :=
  {| Analysis.summary :=
       {| Summary.total_gates := total;
          Summary.passed_gates := passed;
          Summary.failed_gates := Summary.failed_gates (Analysis.summary a);
          Summary.overall_success := Summary.overall_success (Analysis.summary a);
          Summary.analysis_timestamp := Summary.analysis_timestamp (Analysis.summary a) |};
     Analysis.gates := Analysis.gates a;
     Analysis.performance_data := Analysis.performance_data a;
     Analysis.reports := Analysis.reports a |}.

(** Every character of the text satisfies [p]. *)
Fixpoint all_chars (p : ascii -> bool) (s : string) : bool :=
  match s with
  | String c s' => (p c && all_chars p s')%bool
  | EmptyString => true
  end.

(** The text an atom of a pattern accepts. *)
Definition atom_accepts (a : Re.atom) (piece : string) : Prop :=
  match a with
  | Re.Lit l => piece = l
  | Re.Plus cls => piece <> EmptyString /\ all_chars cls piece = true
  | Re.Alt alts => In piece alts
  end.

(** The pieces of a match that the groups of the pattern capture. *)
Fixpoint captured (r : Re.regex) (pieces : list string) : list string :=
  match r, pieces with
  | (cap, _) :: r', p :: pieces' =>
      if cap : bool then p :: captured r' pieces' else captured r' pieces'
  | _, _ => []
  end.

(** Some character of the text satisfies [p]. *)
Fixpoint any_char (p : ascii -> bool) (s : string) : bool :=
  match s with
  | String c s' => (p c || any_char p s')%bool
  | EmptyString => false
  end.

Fixpoint count_char (c : ascii) (s : string) : nat :=
  match s with
  | String d s' => if Ascii.eqb c d then S (count_char c s') else count_char c s'
  | EmptyString => O
  end.

(** A number part the metrics loop can convert: at most one point and at
    least one digit. *)
Definition well_formed_number (t : string) : bool :=
  (Nat.leb (count_char "." t) 1 && any_char Py.isdigit t)%bool.

(** The characters a number part is made of. *)
Definition digit_or_dot (c : ascii) : bool := (Py.isdigit c || Ascii.eqb c ".")%bool.

Definition is_some {A : Type} (o : option A) : bool :=
  match o with Some _ => true | None => false end.

(** The text a gate line shows for a verdict. *)
Definition verdict_text (v : bool) : string := if v then "PASS" else "FAIL".

(** The reader fed the characters of a piece of a line. *)
Fixpoint feed (p : Csv.parser) (s : string) : Py.result Csv.parser :=
  match s with
  | EmptyString => Py.Ok p
  | String c s' =>
      match Csv.parse_process_char p (Csv.Chr c) with
      | Py.Ok p' => feed p' s'
      | Py.Raise x => Py.Raise x
      end
  end.

(** The end of a line: the record is delivered when it is complete. *)
Definition end_of_line (p : Csv.parser)
    (continue : Csv.parser -> Csv.stream (list string)) : Csv.stream (list string) :=
  match Csv.parse_process_char p Csv.EOL with
  | Py.Raise x => ([], Some x)
  | Py.Ok p' =>
      if Csv.state_eqb (Csv.st p') Csv.START_RECORD
      then let '(rows, x) := continue Csv.parse_reset in
           (List.rev (Csv.fields p') :: rows, x)
      else continue p'
  end.

(** The reader run over a text character by character; [mid] tells
    whether a line has been started. *)
Fixpoint read_chars (mid : bool) (p : Csv.parser) (s : string)
  : Csv.stream (list string) :=
  match s with
  | EmptyString =>
      if mid then end_of_line p (fun p' => Csv.reader_from p' [] None)
      else Csv.reader_from p [] None
  | String c s' =>
      match Csv.parse_process_char p (Csv.Chr c) with
      | Py.Raise x => ([], Some x)
      | Py.Ok p1 =>
          if Ascii.eqb c Py.LF
          then end_of_line p1 (fun p' => read_chars false p' s')
          else read_chars true p1 s'
      end
  end.

(** What [writerow] puts before the line terminator. *)
Definition record_text (fs : list string) : string :=
  match fs with
  | [EmptyString] => String Py.DQUOTE (String Py.DQUOTE EmptyString)
  | _ => String.concat "," (List.map Csv.quote_field fs)
  end.

(** A field the reader gives back as written: no carriage return, and
    within the field size limit. *)
Definition plain_field (f : string) : Prop :=
  Py.has_char Py.CR f = false /\ (N.of_nat (String.length f) <= Csv.field_limit)%N.

(** The scenario of the end-to-end test. *)
Definition scenario_log : string :=
  "Build ID: b123" ++ Py.nl ++
  "ALL PERFORMANCE GATES PASSED" ++ Py.nl ++
  "[X] Gate 'latency': PASS" ++ Py.nl ++
  "[X] Gate 'memory': FAIL" ++ Py.nl ++
  "throughput: 42.5" ++ Py.nl.

(** ** Lemmas on the monad *)

Lemma bind_ok {S A B : Type} (c : M S A) (k : A -> M S B) (s s' : S) (a : A) :
  c s = (Py.Ok a, s') -> bind c k s = k a s'.
Proof. intros H. unfold bind. rewrite H. reflexivity. Qed.

Lemma bind_raise {S A B : Type} (c : M S A) (k : A -> M S B) (s s' : S) (e : string) :
  c s = (Py.Raise e, s') -> bind c k s = (Py.Raise e, s').
Proof. intros H. unfold bind. rewrite H. reflexivity. Qed.

Lemma for_each_modify {S X : Type} (g : X -> S -> S) (l : list X) (s : S) :
  for_each l (fun x => modify (g x)) s = (Py.Ok tt, fold_left (fun s x => g x s) l s).
Proof.
  revert s. induction l as [|x l IH]; intros s; simpl; [reflexivity|].
  unfold bind at 1. unfold modify at 1. apply IH.
Qed.

(** A loop whose body always returns computes a fold and returns; what
    the body preserves of the state, the loop preserves. *)
Lemma for_fold_total {S X A : Type} (keeps : S -> S -> Prop)
    (body : A -> X -> M S A) (step : A -> X -> A) (l : list X) :
  (forall s, keeps s s) ->
  (forall s1 s2 s3, keeps s1 s2 -> keeps s2 s3 -> keeps s1 s3) ->
  (forall acc x s, exists s', body acc x s = (Py.Ok (step acc x), s') /\ keeps s s') ->
  forall acc s,
  exists s', for_fold l acc body s = (Py.Ok (fold_left step l acc), s') /\ keeps s s'.
Proof.
  intros Hrefl Htrans Hbody. induction l as [|x l IH]; intros acc s; simpl.
  - exists s. split; [reflexivity | apply Hrefl].
  - destruct (Hbody acc x s) as [s1 [H1 K1]].
    destruct (IH (step acc x) s1) as [s2 [H2 K2]].
    exists s2. rewrite (bind_ok _ _ _ _ _ H1). split; [exact H2 | eauto].
Qed.

(** ** parse_log_file in closed form *)

Lemma fold_set_gate (ms : list (list string)) (r : Results.t) :
  fold_left (fun s m => set_gate (Re.group m 2) (String.eqb (Re.group m 3) "PASS") s) ms r
  = {| Results.gates :=
         fold_left (fun d kv => Py.dict_set String.eqb d (fst kv) (snd kv))
           (List.map (fun m => (Re.group m 2, String.eqb (Re.group m 3) "PASS")) ms)
           (Results.gates r);
       Results.overall_success := Results.overall_success r;
       Results.execution_time := Results.execution_time r;
       Results.build_id := Results.build_id r;
       Results.timestamp := Results.timestamp r;
       Results.metrics := Results.metrics r |}.
Proof.
  revert r. induction ms as [|m ms IH]; intros r.
  - destruct r; reflexivity.
  - simpl. rewrite IH. reflexivity.
Qed.

Lemma metrics_loop {S : Type} (ms : list (list string)) :
  forall (acc : Py.dict string Py.float) (s : S),
    match metrics_from ms acc with
    | Some d =>
        for_fold ms acc
          (fun metrics m =>
             metric_value <- lift (float_of_token (Re.group m 2)) ;;
             ret (Py.dict_set String.eqb metrics (Re.group m 1) metric_value)) s
        = (Py.Ok d, s)
    | None =>
        exists e,
        for_fold ms acc
          (fun metrics m =>
             metric_value <- lift (float_of_token (Re.group m 2)) ;;
             ret (Py.dict_set String.eqb metrics (Re.group m 1) metric_value)) s
        = (Py.Raise e, s)
    end.
Proof.
  induction ms as [|m ms IH]; intros acc s; simpl.
  - reflexivity.
  - unfold bind at 1 3, lift at 1 3, float_of_token.
    destruct (Py.float_of_string (Re.group m 2)) as [x|].
    + unfold bind at 1 3, ret at 1 3. apply IH.
    + eexists. reflexivity.
Qed.

Lemma bind_lift_ok {S A B : Type} (a : A) (k : A -> M S B) (s : S) :
  bind (lift (Py.Ok a)) k s = k a s.
Proof. reflexivity. Qed.

Lemma bind_lift_raise {S A B : Type} (e : string) (k : A -> M S B) (s : S) :
  bind (lift (Py.Raise e)) k s = (Py.Raise e, s).
Proof. reflexivity. Qed.

Lemma bind_modify {S B : Type} (g : S -> S) (k : unit -> M S B) (s : S) :
  bind (modify g) k s = k tt (g s).
Proof. reflexivity. Qed.

Lemma bind_ret {S A B : Type} (a : A) (k : A -> M S B) (s : S) :
  bind (ret a) k s = k a s.
Proof. reflexivity. Qed.

Lemma parse_log_file_try_prefix (f : file) (content : string) :
  read f = Py.Ok content ->
  parse_log_file_try f default_results
  = (metrics <- for_fold (Re.finditer metrics_pattern content) []
       (fun metrics m =>
          metric_value <- lift (float_of_token (Re.group m 2)) ;;
          ret (Py.dict_set String.eqb metrics (Re.group m 1) metric_value)) ;;
     modify (set_metrics metrics))
      {| Results.gates := Py.dict_of String.eqb (gate_matches content);
         Results.overall_success := Py.contains "ALL PERFORMANCE GATES PASSED" content;
         Results.execution_time := 0;
         Results.build_id := build_id_of content;
         Results.timestamp := None;
         Results.metrics := None |}.
Proof.
  intros Hread. unfold parse_log_file_try. rewrite Hread, bind_lift_ok.
  unfold build_id_of, gate_matches, Py.dict_of.
  destruct (Re.search build_id_pattern content);
    destruct (Py.contains "ALL PERFORMANCE GATES PASSED" content);
    destruct (Py.contains "PERFORMANCE GATES FAILED" content);
    cbv beta iota; repeat (rewrite bind_modify || rewrite bind_ret);
    unfold bind at 1;
    rewrite (for_each_modify
               (fun m => set_gate (Re.group m 2) (String.eqb (Re.group m 3) "PASS")));
    rewrite fold_set_gate; reflexivity.
Qed.

Lemma parse_log_file_try_text (f : file) (content : string) :
  read f = Py.Ok content ->
  snd (parse_log_file_try f default_results) = results_of_text content.
Proof.
  intros Hread. rewrite (parse_log_file_try_prefix f content Hread).
  match goal with |- context [bind _ _ ?s] =>
    pose proof (metrics_loop (Re.finditer metrics_pattern content) [] s) as HM end.
  unfold results_of_text.
  destruct (metrics_from (Re.finditer metrics_pattern content) []) as [d|].
  - rewrite (bind_ok _ _ _ _ _ HM). reflexivity.
  - destruct HM as [e HM]. rewrite (bind_raise _ _ _ _ _ HM). reflexivity.
Qed.

Lemma parse_log_file_try_status (f : file) (content : string) :
  read f = Py.Ok content ->
  match metrics_from (Re.finditer metrics_pattern content) [] with
  | Some _ => fst (parse_log_file_try f default_results) = Py.Ok tt
  | None => exists e, fst (parse_log_file_try f default_results) = Py.Raise e
  end.
Proof.
  intros Hread. rewrite (parse_log_file_try_prefix f content Hread).
  match goal with |- context [bind _ _ ?s] =>
    pose proof (metrics_loop (Re.finditer metrics_pattern content) [] s) as HM end.
  destruct (metrics_from (Re.finditer metrics_pattern content) []) as [d|].
  - rewrite (bind_ok _ _ _ _ _ HM). reflexivity.
  - destruct HM as [e HM]. exists e. rewrite (bind_raise _ _ _ _ _ HM). reflexivity.
Qed.

Lemma parse_log_file_try_unreadable (f : file) (e : string) :
  read f = Py.Raise e ->
  parse_log_file_try f default_results = (Py.Raise e, default_results).
Proof.
  intros Hread. unfold parse_log_file_try. rewrite Hread. reflexivity.
Qed.

(** [parse_log_file] always returns, and returns [log_results]; it
    writes no file. *)
Lemma parse_log_file_returns (f : file) (w : world) :
  exists w', parse_log_file f w = (Py.Ok (log_results f), w') /\ files w' = files w.
Proof.
  unfold parse_log_file, log_results.
  destruct (parse_log_file_try f default_results) as [[u|e] r]; simpl.
  - exists w. split; reflexivity.
  - eexists. split; reflexivity.
Qed.

(** ** Dictionaries with string keys *)

Section StringDict.
Context {V : Type}.
Implicit Types (d : Py.dict string V) (k x : string) (v : V).

Lemma dict_get_set d k v x :
  Py.dict_get String.eqb (Py.dict_set String.eqb d k v) x
  = if String.eqb x k then Some v else Py.dict_get String.eqb d x.
Proof.
  induction d as [|[k' v'] d IH]; simpl.
  - reflexivity.
  - destruct (String.eqb k k') eqn:Hk; simpl.
    + apply String.eqb_eq in Hk. subst k'.
      destruct (String.eqb x k); reflexivity.
    + destruct (String.eqb x k') eqn:Hx.
      * apply String.eqb_eq in Hx. subst k'.
        rewrite String.eqb_sym, Hk. reflexivity.
      * exact IH.
Qed.

Lemma dict_get_set_same d k v :
  Py.dict_get String.eqb (Py.dict_set String.eqb d k v) k = Some v.
Proof. rewrite dict_get_set, String.eqb_refl. reflexivity. Qed.

Lemma dict_set_keys_in d k v x :
  In x (List.map fst (Py.dict_set String.eqb d k v))
  <-> x = k \/ In x (List.map fst d).
Proof.
  induction d as [|[k' v'] d IH]; simpl.
  - intuition congruence.
  - destruct (String.eqb k k') eqn:Hk; simpl.
    + apply String.eqb_eq in Hk. subst k'. intuition.
    + rewrite IH. intuition.
Qed.

Lemma dict_set_unique d k v :
  NoDup (List.map fst d) -> NoDup (List.map fst (Py.dict_set String.eqb d k v)).
Proof.
  induction d as [|[k' v'] d IH]; simpl; intros Hd.
  - constructor; [intros []|constructor].
  - inversion Hd as [|? ? Hnin Hd']; subst.
    destruct (String.eqb k k') eqn:Hk; simpl.
    + constructor; assumption.
    + constructor; [|apply IH; assumption].
      rewrite dict_set_keys_in. intros [->|Hin]; [|contradiction].
      rewrite String.eqb_refl in Hk. discriminate.
Qed.

Lemma dict_fold_unique (l : list (string * V)) d :
  NoDup (List.map fst d) ->
  NoDup (List.map fst
           (fold_left (fun d kv => Py.dict_set String.eqb d (fst kv) (snd kv)) l d)).
Proof.
  revert d. induction l as [|[k v] l IH]; intros d Hd; simpl.
  - exact Hd.
  - apply IH, dict_set_unique, Hd.
Qed.

Lemma dict_of_unique (l : list (string * V)) :
  NoDup (List.map fst (Py.dict_of String.eqb l)).
Proof. apply dict_fold_unique. constructor. Qed.

Lemma dict_get_absent d x :
  ~ In x (List.map fst d) -> Py.dict_get String.eqb d x = None.
Proof.
  induction d as [|[k v] d IH]; simpl; intros Hx; [reflexivity|].
  destruct (String.eqb x k) eqn:Hk.
  - apply String.eqb_eq in Hk. subst. tauto.
  - apply IH. tauto.
Qed.
End StringDict.

(** ** Last verdicts and counts *)

Lemma last_verdict_app (x : string) (l1 l2 : list (string * bool)) :
  last_verdict x (l1 ++ l2)
  = match last_verdict x l2 with
    | Some v => Some v
    | None => last_verdict x l1
    end.
Proof.
  induction l1 as [|[k v] l1 IH]; simpl.
  - destruct (last_verdict x l2); reflexivity.
  - rewrite IH. destruct (last_verdict x l2); reflexivity.
Qed.

(** Assigning the entries in order leaves each name with the verdict of
    its last entry. *)
Lemma dict_get_fold_set (l : list (string * bool)) (d : Py.dict string bool) (x : string) :
  Py.dict_get String.eqb
    (fold_left (fun d kv => Py.dict_set String.eqb d (fst kv) (snd kv)) l d) x
  = match last_verdict x l with
    | Some v => Some v
    | None => Py.dict_get String.eqb d x
    end.
Proof.
  revert d. induction l as [|[k v] l IH]; intros d; simpl.
  - reflexivity.
  - rewrite IH, dict_get_set.
    destruct (last_verdict x l); [reflexivity|].
    destruct (String.eqb x k); reflexivity.
Qed.

Lemma last_verdict_absent (x : string) (l : list (string * bool)) :
  ~ In x (List.map fst l) -> last_verdict x l = None.
Proof.
  induction l as [|[k v] l IH]; simpl; intros Hx; [reflexivity|].
  rewrite IH by tauto.
  destruct (String.eqb x k) eqn:Hk; [|reflexivity].
  apply String.eqb_eq in Hk. subst. tauto.
Qed.

(** In a dictionary the last entry of a name is its only entry. *)
Lemma last_verdict_dict (x : string) (d : Py.dict string bool) :
  NoDup (List.map fst d) -> last_verdict x d = Py.dict_get String.eqb d x.
Proof.
  induction d as [|[k v] d IH]; simpl; intros Hd; [reflexivity|].
  inversion Hd as [|? ? Hnin Hd']; subst.
  destruct (String.eqb x k) eqn:Hk.
  - apply String.eqb_eq in Hk. subst.
    rewrite last_verdict_absent by assumption. reflexivity.
  - rewrite IH by assumption.
    destruct (Py.dict_get String.eqb d x); reflexivity.
Qed.

Lemma last_verdict_dict_of (x : string) (l : list (string * bool)) :
  last_verdict x (Py.dict_of String.eqb l) = last_verdict x l.
Proof.
  rewrite last_verdict_dict by apply dict_of_unique.
  unfold Py.dict_of. rewrite dict_get_fold_set. simpl.
  destruct (last_verdict x l); reflexivity.
Qed.

Lemma last_verdict_flat_map {A : Type} (x : string)
    (g h : A -> list (string * bool)) (l : list A) :
  (forall a, last_verdict x (g a) = last_verdict x (h a)) ->
  last_verdict x (List.flat_map g l) = last_verdict x (List.flat_map h l).
Proof.
  intros Hgh. induction l as [|a l IH]; simpl; [reflexivity|].
  rewrite !last_verdict_app, IH, Hgh. reflexivity.
Qed.

Lemma last_verdict_occurs (x : string) (l : list (string * bool)) :
  occurs x l = match last_verdict x l with Some _ => true | None => false end.
Proof.
  induction l as [|[k v] l IH]; simpl; [reflexivity|].
  unfold occurs in *. simpl. rewrite IH.
  destruct (last_verdict x l); [apply orb_true_r|].
  destruct (String.eqb x k); reflexivity.
Qed.

Lemma count_name_app (x : string) (l1 l2 : list (string * bool)) :
  count_name x (l1 ++ l2) = (count_name x l1 + count_name x l2)%nat.
Proof. unfold count_name. rewrite List.filter_app, List.length_app. reflexivity. Qed.

Lemma count_name_absent (x : string) (l : list (string * bool)) :
  ~ In x (List.map fst l) -> count_name x l = O.
Proof.
  unfold count_name.
  induction l as [|[k v] l IH]; simpl; intros Hx; [reflexivity|].
  destruct (String.eqb x k) eqn:Hk.
  - apply String.eqb_eq in Hk. subst. tauto.
  - apply IH. tauto.
Qed.

(** A dictionary holds a name at most once. *)
Lemma count_name_dict (x : string) (d : Py.dict string bool) :
  NoDup (List.map fst d) ->
  count_name x d = if occurs x d then 1%nat else O.
Proof.
  unfold occurs.
  induction d as [|[k v] d IH]; simpl; intros Hd; [reflexivity|].
  inversion Hd as [|? ? Hnin Hd']; subst.
  unfold count_name in *. simpl.
  destruct (String.eqb x k) eqn:Hk; simpl.
  - apply String.eqb_eq in Hk. subst.
    fold (count_name k d). rewrite count_name_absent by assumption. reflexivity.
  - apply IH. assumption.
Qed.

Lemma occurs_dict_of (x : string) (l : list (string * bool)) :
  occurs x (Py.dict_of String.eqb l) = occurs x l.
Proof. rewrite !last_verdict_occurs, last_verdict_dict_of. reflexivity. Qed.

(** ** The aggregator as a fold *)

Lemma merge_gate_fold (l : list (string * bool)) (a : Analysis.t) :
  let a' := fold_left merge_gate l a in
  Analysis.gates a'
  = fold_left (fun d kv => Py.dict_set String.eqb d (fst kv) (snd kv)) l (Analysis.gates a)
  /\ Summary.total_gates (Analysis.summary a')
     = Summary.total_gates (Analysis.summary a) + Z.of_nat (List.length l)
  /\ Summary.passed_gates (Analysis.summary a')
     = Summary.passed_gates (Analysis.summary a) + Z.of_nat (passes l)
  /\ Summary.failed_gates (Analysis.summary a')
     = Summary.failed_gates (Analysis.summary a) + Z.of_nat (fails l)
  /\ Summary.overall_success (Analysis.summary a')
     = Summary.overall_success (Analysis.summary a)
  /\ Summary.analysis_timestamp (Analysis.summary a')
     = Summary.analysis_timestamp (Analysis.summary a)
  /\ Analysis.performance_data a' = Analysis.performance_data a
  /\ Analysis.reports a' = Analysis.reports a.
Proof.
  revert a. induction l as [|[k v] l IH]; intros a.
  - simpl. unfold passes, fails. simpl. repeat split; lia.
  - cbn [fold_left]. specialize (IH (merge_gate a (k, v))).
    cbv zeta in IH |- *.
    destruct IH as (Hg & Ht & Hp & Hf & Ho & Hs & Hd & Hr).
    rewrite Hg, Ht, Hp, Hf, Ho, Hs, Hd, Hr.
    unfold passes, fails. cbn [List.filter List.length snd fst].
    destruct v; cbn -[Z.of_nat Z.add]; repeat split; lia.
Qed.

Lemma merge_log_fields (a : Analysis.t) (r : Results.t) :
  let a' := merge_log a r in
  Analysis.gates a'
  = fold_left (fun d kv => Py.dict_set String.eqb d (fst kv) (snd kv))
      (Results.gates r) (Analysis.gates a)
  /\ Summary.total_gates (Analysis.summary a')
     = Summary.total_gates (Analysis.summary a) + Z.of_nat (List.length (Results.gates r))
  /\ Summary.passed_gates (Analysis.summary a')
     = Summary.passed_gates (Analysis.summary a) + Z.of_nat (passes (Results.gates r))
  /\ Summary.failed_gates (Analysis.summary a')
     = Summary.failed_gates (Analysis.summary a) + Z.of_nat (fails (Results.gates r))
  /\ Summary.overall_success (Analysis.summary a')
     = (Summary.overall_success (Analysis.summary a) || Results.overall_success r)%bool.
Proof.
  cbv zeta. unfold merge_log.
  destruct (merge_gate_fold (Results.gates r) a) as (Hg & Ht & Hp & Hf & Ho & _).
  destruct (Results.overall_success r); simpl.
  - rewrite Hg, Ht, Hp, Hf, orb_true_r. repeat split.
  - rewrite Hg, Ht, Hp, Hf, Ho, orb_false_r. repeat split.
Qed.

Lemma passes_app (l1 l2 : list (string * bool)) :
  passes (l1 ++ l2) = (passes l1 + passes l2)%nat.
Proof. unfold passes. rewrite List.filter_app, List.length_app. reflexivity. Qed.

Lemma fails_app (l1 l2 : list (string * bool)) :
  fails (l1 ++ l2) = (fails l1 + fails l2)%nat.
Proof. unfold fails. rewrite List.filter_app, List.length_app. reflexivity. Qed.

Lemma passes_fails (l : list (string * bool)) :
  (passes l + fails l = List.length l)%nat.
Proof.
  unfold passes, fails. induction l as [|[k [|]] l IH]; simpl; lia.
Qed.

Lemma merge_logs_fields (rs : list Results.t) (a : Analysis.t) :
  let a' := fold_left merge_log rs a in
  let entries := List.flat_map Results.gates rs in
  Analysis.gates a'
  = fold_left (fun d kv => Py.dict_set String.eqb d (fst kv) (snd kv))
      entries (Analysis.gates a)
  /\ Summary.total_gates (Analysis.summary a')
     = Summary.total_gates (Analysis.summary a) + Z.of_nat (List.length entries)
  /\ Summary.passed_gates (Analysis.summary a')
     = Summary.passed_gates (Analysis.summary a) + Z.of_nat (passes entries)
  /\ Summary.failed_gates (Analysis.summary a')
     = Summary.failed_gates (Analysis.summary a) + Z.of_nat (fails entries)
  /\ Summary.overall_success (Analysis.summary a')
     = (Summary.overall_success (Analysis.summary a)
        || List.existsb Results.overall_success rs)%bool.
Proof.
  revert a. induction rs as [|r rs IH]; intros a.
  - simpl. unfold passes, fails. simpl. rewrite orb_false_r. repeat split; lia.
  - cbn [fold_left List.flat_map List.existsb]. cbv zeta in IH |- *.
    destruct (IH (merge_log a r)) as (Hg & Ht & Hp & Hf & Ho).
    destruct (merge_log_fields a r) as (Hg1 & Ht1 & Hp1 & Hf1 & Ho1).
    rewrite Hg, Ht, Hp, Hf, Ho, Hg1, Ht1, Hp1, Hf1, Ho1.
    rewrite List.fold_left_app, List.length_app, passes_app, fails_app, orb_assoc.
    repeat split; lia.
Qed.

Lemma flat_map_map {A B C : Type} (f : A -> B) (g : B -> list C) (l : list A) :
  List.flat_map g (List.map f l) = List.flat_map (fun a => g (f a)) l.
Proof. induction l as [|a l IH]; simpl; [reflexivity|]. rewrite IH. reflexivity. Qed.

Lemma existsb_map {A B : Type} (f : A -> B) (p : B -> bool) (l : list A) :
  List.existsb p (List.map f l) = List.existsb (fun a => p (f a)) l.
Proof. induction l as [|a l IH]; simpl; [reflexivity|]. rewrite IH. reflexivity. Qed.

(** The counters and the gate table once all log files are merged. *)
Lemma merged_logs_fields (tree : list file) (now : string) :
  let a := merged_logs tree now in
  Analysis.gates a = Py.dict_of String.eqb (folded_entries tree)
  /\ Summary.total_gates (Analysis.summary a) = Z.of_nat (List.length (folded_entries tree))
  /\ Summary.passed_gates (Analysis.summary a) = Z.of_nat (passes (folded_entries tree))
  /\ Summary.failed_gates (Analysis.summary a) = Z.of_nat (fails (folded_entries tree))
  /\ Summary.overall_success (Analysis.summary a)
     = List.existsb (fun f => Results.overall_success (log_results f)) (log_files tree).
Proof.
  cbv zeta. unfold merged_logs, folded_entries.
  destruct (merge_logs_fields (List.map log_results (log_files tree)) (initial_analysis now))
    as (Hg & Ht & Hp & Hf & Ho).
  cbv zeta in Hg, Ht, Hp, Hf, Ho.
  rewrite flat_map_map in Hg, Ht, Hp, Hf. rewrite existsb_map in Ho.
  rewrite Hg, Ht, Hp, Hf, Ho. simpl. repeat split.
Qed.

Lemma csv_step_keeps (a : Analysis.t) (f : file) :
  Analysis.summary (csv_step a f) = Analysis.summary a
  /\ Analysis.gates (csv_step a f) = Analysis.gates a.
Proof. unfold csv_step. destruct (negb _); split; reflexivity. Qed.

Lemma json_step_keeps (a : Analysis.t) (f : file) :
  Analysis.summary (json_step a f) = Analysis.summary a
  /\ Analysis.gates (json_step a f) = Analysis.gates a.
Proof. unfold json_step. destruct (truthy _); split; reflexivity. Qed.

Lemma fold_keeps {X : Type} (step : Analysis.t -> X -> Analysis.t) (l : list X) :
  (forall a x, Analysis.summary (step a x) = Analysis.summary a
               /\ Analysis.gates (step a x) = Analysis.gates a) ->
  forall a, Analysis.summary (fold_left step l a) = Analysis.summary a
            /\ Analysis.gates (fold_left step l a) = Analysis.gates a.
Proof.
  intros Hstep. induction l as [|x l IH]; intros a; simpl.
  - split; reflexivity.
  - destruct (IH (step a x)) as [H1 H2]. destruct (Hstep a x) as [H3 H4].
    rewrite H1, H2, H3, H4. split; reflexivity.
Qed.

(** The tabular and structured reports leave counters and gates alone. *)
Lemma final_analysis_summary (tree : list file) (now : string) :
  Analysis.summary (final_analysis tree now) = Analysis.summary (merged_logs tree now)
  /\ Analysis.gates (final_analysis tree now) = Analysis.gates (merged_logs tree now).
Proof.
  unfold final_analysis.
  destruct (fold_keeps json_step (glob_suffix ".json" tree) json_step_keeps
              (fold_left csv_step (glob_suffix ".csv" tree) (merged_logs tree now)))
    as [H1 H2].
  destruct (fold_keeps csv_step (glob_suffix ".csv" tree) csv_step_keeps
              (merged_logs tree now)) as [H3 H4].
  rewrite H1, H2, H3, H4. split; reflexivity.
Qed.

(** ** The readers always return *)

Lemma parse_csv_report_returns (f : file) (w : world) :
  exists w', parse_csv_report f w = (Py.Ok (csv_data f), w') /\ files w' = files w.
Proof.
  unfold parse_csv_report, csv_data.
  destruct (parse_csv_report_try f []) as [[u|e] data]; simpl.
  - exists w. split; reflexivity.
  - eexists. split; reflexivity.
Qed.

Lemma parse_json_report_returns (f : file) (w : world) :
  exists w', parse_json_report f w = (Py.Ok (json_data f), w') /\ files w' = files w.
Proof.
  unfold parse_json_report, json_data.
  destruct (f_json f) as [v|e].
  - exists w. split; reflexivity.
  - eexists. split; reflexivity.
Qed.

Lemma bind_print {B : Type} (s : string) (k : unit -> M world B) (w : world) :
  bind (print s) k w
  = k tt {| console := (console w ++ [s])%list; files := files w |}.
Proof. reflexivity. Qed.

Lemma fold_left_map {A B C : Type} (f : A -> B -> A) (g : C -> B) (l : list C) (a : A) :
  fold_left f (List.map g l) a = fold_left (fun a c => f a (g c)) l a.
Proof. revert a. induction l as [|c l IH]; intros a; simpl; [reflexivity|apply IH]. Qed.

Lemma same_files_refl (w : world) : same_files w w.
Proof. reflexivity. Qed.

Lemma same_files_trans (w1 w2 w3 : world) :
  same_files w1 w2 -> same_files w2 w3 -> same_files w1 w3.
Proof. unfold same_files. congruence. Qed.

(** [analyze_artifacts_directory] always returns, and returns
    [final_analysis]; it writes no file. *)
Lemma analyze_artifacts_directory_returns (artifacts_dir : string) (tree : list file)
    (now : string) (w : world) :
  exists w',
    analyze_artifacts_directory artifacts_dir tree now w
    = (Py.Ok (final_analysis tree now), w')
    /\ files w' = files w.
Proof.
  unfold analyze_artifacts_directory. rewrite bind_print.
  match goal with |- context [bind _ _ ?s] => set (w0 := s) end.
  destruct (for_fold_total same_files
              (fun analysis log_file =>
                 print ("Parsing log file: " ++ f_path log_file) ;;
                 log_results <- parse_log_file log_file ;;
                 ret (merge_log analysis log_results))
              (fun a f => merge_log a (log_results f))
              (log_files tree) same_files_refl same_files_trans) 
    with (acc := initial_analysis now) (s := w0) as [w1 [H1 K1]].
  { intros acc x s. rewrite bind_print.
    match goal with |- context [bind _ _ ?s] =>
      destruct (parse_log_file_returns x s) as [s' [H K]] end.
    exists s'. rewrite (bind_ok _ _ _ _ _ H). split; [reflexivity | exact K]. }
  rewrite (bind_ok _ _ _ _ _ H1).
  destruct (for_fold_total same_files
              (fun analysis csv_file =>
                 print ("Parsing CSV file: " ++ f_path csv_file) ;;
                 csv_data <- parse_csv_report csv_file ;;
                 if negb (Csv.is_empty csv_data)
                 then ret (set_performance_data analysis (stem (f_path csv_file)) csv_data)
                 else ret analysis)
              csv_step (glob_suffix ".csv" tree) same_files_refl same_files_trans)
    with (acc := fold_left (fun a f => merge_log a (log_results f)) (log_files tree)
                   (initial_analysis now)) (s := w1) as [w2 [H2 K2]].
  { intros acc x s. rewrite bind_print.
    match goal with |- context [bind _ _ ?s] =>
      destruct (parse_csv_report_returns x s) as [s' [H K]] end.
    exists s'. rewrite (bind_ok _ _ _ _ _ H). unfold csv_step.
    destruct (negb (Csv.is_empty (csv_data x))); split; try reflexivity; exact K. }
  rewrite (bind_ok _ _ _ _ _ H2).
  destruct (for_fold_total same_files
              (fun analysis json_file =>
                 print ("Parsing JSON file: " ++ f_path json_file) ;;
                 json_data <- parse_json_report json_file ;;
                 if truthy json_data
                 then ret (append_report analysis
                             {| Report.name := stem (f_path json_file);
                                Report.path := f_path json_file;
                                Report.data := json_data |})
                 else ret analysis)
              json_step (glob_suffix ".json" tree) same_files_refl same_files_trans)
    with (acc := fold_left csv_step (glob_suffix ".csv" tree)
                   (fold_left (fun a f => merge_log a (log_results f)) (log_files tree)
                      (initial_analysis now))) (s := w2) as [w3 [H3 K3]].
  { intros acc x s. rewrite bind_print.
    match goal with |- context [bind _ _ ?s] =>
      destruct (parse_json_report_returns x s) as [s' [H K]] end.
    exists s'. rewrite (bind_ok _ _ _ _ _ H). unfold json_step.
    destruct (truthy (json_data x)); split; try reflexivity; exact K. }
  rewrite (bind_ok _ _ _ _ _ H3).
  exists w3. split.
  - unfold ret, final_analysis, merged_logs. rewrite fold_left_map. reflexivity.
  - unfold same_files in *. rewrite K3, K2, K1. reflexivity.
Qed.

(** ** The renderers always return *)

Lemma returns_ret {S A : Type} (a : A) : returns (ret a : M S A).
Proof. intros s. exists a, s. reflexivity. Qed.

Lemma returns_bind {S A B : Type} (c : M S A) (k : A -> M S B) :
  returns c -> (forall a, returns (k a)) -> returns (bind c k).
Proof.
  intros Hc Hk s. destruct (Hc s) as [a [s1 H1]]. destruct (Hk a s1) as [b [s2 H2]].
  exists b, s2. rewrite (bind_ok _ _ _ _ _ H1). exact H2.
Qed.

Lemma returns_modify {S : Type} (g : S -> S) : returns (modify g).
Proof. intros s. exists tt, (g s). reflexivity. Qed.

Lemma returns_emit (t : string) : returns (emit t).
Proof. apply returns_modify. Qed.

Lemma returns_lift_ok {S A : Type} (a : A) : returns (lift (Py.Ok a) : M S A).
Proof. intros s. exists a, s. reflexivity. Qed.

Lemma returns_when {S : Type} (b : bool) (c : M S unit) :
  (b = true -> returns c) -> returns (when b c).
Proof. destruct b; intros H; [apply H; reflexivity | apply returns_ret]. Qed.

Lemma returns_for_each {S X : Type} (l : list X) (body : X -> M S unit) :
  (forall x, returns (body x)) -> returns (for_each l body).
Proof.
  intros Hb. induction l as [|x l IH]; simpl.
  - apply returns_ret.
  - apply returns_bind; [apply Hb | intros _; exact IH].
Qed.

(** One step of a proof that a block of writes returns. *)
Ltac returns_step :=
  first [ apply returns_emit | apply returns_ret | apply returns_lift_ok
        | apply returns_bind; [|intros ?]
        | apply returns_for_each; intros ?
        | apply returns_when; intros ? ].

Lemma write_statistics_returns (data : list Csv.row) : returns (write_statistics data).
Proof.
  unfold write_statistics. destruct data as [|first rest]; [apply returns_ret|].
  repeat returns_step.
  destruct (column_values (first :: rest) x) as [|v vs]; [apply returns_ret|].
  unfold Py.fdiv_len. cbn [List.length]. repeat returns_step.
Qed.

Lemma write_gate_table_returns (a : Analysis.t) : returns (write_gate_table a).
Proof.
  unfold write_gate_table. repeat returns_step. destruct x as [n r]. apply returns_emit.
Qed.

Lemma write_performance_data_returns (a : Analysis.t) :
  returns (write_performance_data a).
Proof.
  unfold write_performance_data. repeat returns_step. destruct x as [n data].
  repeat returns_step. apply write_statistics_returns.
Qed.

Lemma write_reports_returns (a : Analysis.t) : returns (write_reports a).
Proof. unfold write_reports. repeat returns_step. Qed.

Lemma write_recommendations_returns (a : Analysis.t) : returns (write_recommendations a).
Proof.
  unfold write_recommendations. apply returns_bind; [apply returns_emit|intros _].
  destruct (0 <? Summary.failed_gates (Analysis.summary a)); repeat returns_step.
  destruct x as [n r]. repeat returns_step.
Qed.

Lemma overflow_bound_large : 2 <= Py.overflow_bound.
Proof. vm_compute. discriminate. Qed.

(** The quotient of a count by a larger count neither divides by zero nor
    overflows. *)
Lemma success_rate_returns (s : Summary.t) :
  0 < Summary.total_gates s ->
  0 <= Summary.passed_gates s <= Summary.total_gates s ->
  exists rate, success_rate s = Py.Ok rate.
Proof.
  intros Ht Hp. unfold success_rate, Py.truediv.
  pose proof overflow_bound_large as Hb.
  destruct (Summary.total_gates s =? 0) eqn:H0; [apply Z.eqb_eq in H0; lia|].
  destruct (Z.abs (Summary.total_gates s) * Py.overflow_bound
            <=? Z.abs (Summary.passed_gates s)) eqn:H1.
  - apply Z.leb_le in H1. exfalso.
    generalize dependent Py.overflow_bound. intros b H1 Hb. nia.
  - eexists. reflexivity.
Qed.

Lemma write_overall_status_returns (a : Analysis.t) : returns (write_overall_status a).
Proof. unfold write_overall_status. cbv zeta. repeat returns_step. Qed.

Lemma write_summary_statistics_returns (a : Analysis.t) :
  (0 < Summary.total_gates (Analysis.summary a) ->
   0 <= Summary.passed_gates (Analysis.summary a) <= Summary.total_gates (Analysis.summary a)) ->
  returns (write_summary_statistics a).
Proof.
  intros Hp. unfold write_summary_statistics. cbv zeta.
  do 4 (apply returns_bind; [apply returns_emit|intros _]).
  apply returns_bind; [|intros _; apply returns_emit].
  apply returns_when. intros Ht. apply Z.ltb_lt in Ht.
  destruct (success_rate_returns _ Ht (Hp Ht)) as [rate Hr]. rewrite Hr.
  repeat returns_step.
Qed.

Lemma write_sections_returns (a : Analysis.t) : returns (write_sections a).
Proof.
  unfold write_sections.
  apply returns_bind; [apply write_gate_table_returns|intros _].
  apply returns_bind; [apply write_performance_data_returns|intros _].
  apply returns_bind; [apply write_reports_returns|intros _].
  apply write_recommendations_returns.
Qed.

Lemma summary_body_returns (a : Analysis.t) :
  (0 < Summary.total_gates (Analysis.summary a) ->
   0 <= Summary.passed_gates (Analysis.summary a) <= Summary.total_gates (Analysis.summary a)) ->
  returns (summary_body a).
Proof.
  intros Hp. unfold summary_body.
  apply returns_bind; [apply write_overall_status_returns|intros _].
  apply returns_bind; [apply write_summary_statistics_returns, Hp|intros _].
  apply write_sections_returns.
Qed.

Lemma gates_csv_body_returns (a : Analysis.t) : returns (gates_csv_body a).
Proof.
  unfold gates_csv_body. repeat returns_step. destruct x as [n r]. apply returns_emit.
Qed.

(** ** Where the renderers leave the files *)

Lemma with_open_w_returns (path : string) (body : M string unit) (w : world) :
  returns body ->
  with_open_w path body w
  = (Py.Ok tt,
     {| console := console w;
        files := Py.dict_set String.eqb (files w) path
                   (TextContent (snd (body EmptyString))) |}).
Proof.
  intros Hb. unfold with_open_w. destruct (Hb EmptyString) as [[] [text H]].
  rewrite H. reflexivity.
Qed.

Lemma generate_summary_report_runs (a : Analysis.t) (output_dir : string) (w : world) :
  (0 < Summary.total_gates (Analysis.summary a) ->
   0 <= Summary.passed_gates (Analysis.summary a) <= Summary.total_gates (Analysis.summary a)) ->
  exists w',
    generate_summary_report a output_dir w
    = (Py.Ok (path_join output_dir "performance-analysis-summary.md"), w')
    /\ files w'
       = Py.dict_set String.eqb (files w)
           (path_join output_dir "performance-analysis-summary.md")
           (TextContent (summary_text a)).
Proof.
  intros Hs. unfold generate_summary_report. cbv zeta.
  rewrite (bind_ok _ _ _ _ _ (with_open_w_returns _ _ w (summary_body_returns a Hs))).
  rewrite bind_print. eexists. split; reflexivity.
Qed.

Lemma generate_detailed_analysis_runs (a : Analysis.t) (output_dir : string) (w : world) :
  exists w',
    generate_detailed_analysis a output_dir w = (Py.Ok tt, w')
    /\ files w'
       = let fs := Py.dict_set String.eqb (files w)
                     (path_join output_dir "full-analysis.json") (JsonDump a) in
         if Csv.is_empty (Analysis.gates a) then fs
         else Py.dict_set String.eqb fs (path_join output_dir "gate-results.csv")
                (TextContent (gates_csv_text a)).
Proof.
  unfold generate_detailed_analysis. cbv zeta. unfold dump. rewrite bind_modify, bind_print.
  destruct (Csv.is_empty (Analysis.gates a)); simpl.
  - eexists. split; reflexivity.
  - rewrite (bind_ok _ _ _ _ _ (with_open_w_returns _ _ _ (gates_csv_body_returns a))).
    unfold print, modify. eexists. split; reflexivity.
Qed.

(** ** The counters of the aggregate *)

Lemma final_analysis_counters (tree : list file) (now : string) :
  let s := Analysis.summary (final_analysis tree now) in
  Summary.total_gates s = Z.of_nat (List.length (folded_entries tree))
  /\ Summary.passed_gates s = Z.of_nat (passes (folded_entries tree))
  /\ Summary.failed_gates s = Z.of_nat (fails (folded_entries tree)).
Proof.
  cbv zeta. destruct (final_analysis_summary tree now) as [Hs _]. rewrite Hs.
  destruct (merged_logs_fields tree now) as (_ & Ht & Hp & Hf & _).
  auto.
Qed.

Lemma final_analysis_sane (tree : list file) (now : string) :
  counters_sane (Analysis.summary (final_analysis tree now)).
Proof.
  destruct (final_analysis_counters tree now) as (Ht & Hp & Hf).
  unfold counters_sane. rewrite Ht, Hp, Hf.
  pose proof (passes_fails (folded_entries tree)). lia.
Qed.

(** ** main in closed form *)

(** With an artifacts directory, [main] returns: the exit code tells
    whether a failed gate was counted, and the files are those of the two
    renderers. *)
Lemma main_runs (artifacts_dir output_dir : string) (tree : list file) (now : string)
    (w : world) :
  exists w',
    main artifacts_dir output_dir (Some tree) now w
    = (Py.Ok (if 0 <? Summary.failed_gates (Analysis.summary (final_analysis tree now))
              then 1 else 0), w')
    /\ files w' = output_files output_dir (final_analysis tree now) (files w).
Proof.
  unfold main. rewrite !bind_print.
  match goal with |- context [bind _ _ ?s] =>
    destruct (analyze_artifacts_directory_returns artifacts_dir tree now s)
      as [w1 [H1 K1]] end.
  rewrite (bind_ok _ _ _ _ _ H1).
  set (a := final_analysis tree now) in *.
  pose proof (final_analysis_sane tree now) as Hsane. fold a in Hsane.
  destruct (generate_summary_report_runs a output_dir w1 (fun _ => proj1 Hsane))
    as [w2 [H2 K2]].
  rewrite (bind_ok _ _ _ _ _ H2).
  destruct (generate_detailed_analysis_runs a output_dir w2) as [w3 [H3 K3]].
  rewrite (bind_ok _ _ _ _ _ H3).
  cbv zeta. rewrite !bind_print.
  match goal with |- context [bind (when ?b ?c) _ ?s] =>
    assert (Hw : exists s', when b c s = (Py.Ok tt, s') /\ files s' = files s) end.
  { unfold when. destruct (0 <? Summary.total_gates (Analysis.summary a)) eqn:Ht.
    - apply Z.ltb_lt in Ht. destruct Hsane as [Hp _].
      destruct (success_rate_returns _ Ht Hp) as [rate Hr]. rewrite Hr.
      rewrite bind_lift_ok. unfold print, modify. eexists. split; reflexivity.
    - eexists. split; reflexivity. }
  destruct Hw as [w4 [H4 K4]].
  rewrite (bind_ok _ _ _ _ _ H4). rewrite !bind_print.
  assert (Hfiles : files w4 = output_files output_dir a (files w)).
  { rewrite K4. simpl. rewrite K3, K2, K1. simpl. reflexivity. }
  destruct (0 <? Summary.failed_gates (Analysis.summary a));
    rewrite bind_print; eexists; (split; [reflexivity | exact Hfiles]).
Qed.

(** Without one, it prints one line, writes nothing and returns 1. *)
Lemma main_missing_directory (artifacts_dir output_dir now : string) (w : world) :
  main artifacts_dir output_dir None now w
  = (Py.Ok 1,
     {| console := List.app (console w)
                     ["Error: Artifacts directory not found: " ++ artifacts_dir];
        files := files w |}).
Proof. reflexivity. Qed.

(** ** Text facts *)

Lemma append_nil_r (s : string) : s ++ "" = s.
Proof. induction s as [|c s IH]; simpl; [reflexivity|]. rewrite IH. reflexivity. Qed.

Lemma append_assoc (a b c : string) : (a ++ b) ++ c = a ++ (b ++ c).
Proof. induction a as [|x a IH]; simpl; [reflexivity|]. rewrite IH. reflexivity. Qed.

Lemma eqb_append_l (p a b : string) : String.eqb (p ++ a) (p ++ b) = String.eqb a b.
Proof.
  induction p as [|c p IH]; simpl; [reflexivity|].
  rewrite Ascii.eqb_refl. exact IH.
Qed.

(** ** Blocks of writes append *)

Lemma appends_emit (s : string) : appends (emit s).
Proof. intros t. reflexivity. Qed.

Lemma appends_ret {A : Type} (a : A) : appends (ret a : M string A).
Proof. intros t. unfold ret. simpl. rewrite append_nil_r. reflexivity. Qed.

Lemma appends_lift {A : Type} (r : Py.result A) : appends (lift r : M string A).
Proof. intros t. unfold lift. simpl. rewrite append_nil_r. reflexivity. Qed.

Lemma appends_bind {A B : Type} (c : M string A) (k : A -> M string B) :
  appends c -> (forall a, appends (k a)) -> appends (bind c k).
Proof.
  intros Hc Hk t. unfold bind. rewrite (Hc t).
  destruct (c "") as [[a|e] u] eqn:Hcu; simpl.
  - rewrite (Hk a (t ++ u)), (Hk a u). simpl. rewrite append_assoc. reflexivity.
  - reflexivity.
Qed.

Lemma appends_when (b : bool) (c : M string unit) : appends c -> appends (when b c).
Proof. destruct b; intros H; [exact H | apply appends_ret]. Qed.

Lemma appends_for_each {X : Type} (l : list X) (body : X -> M string unit) :
  (forall x, appends (body x)) -> appends (for_each l body).
Proof.
  intros Hb. induction l as [|x l IH]; simpl.
  - apply appends_ret.
  - apply appends_bind; [apply Hb | intros _; exact IH].
Qed.

(** One step of a proof that a block of writes appends. *)
Ltac appends_step :=
  first [ apply appends_emit | apply appends_ret | apply appends_lift
        | apply appends_bind; [|intros ?]
        | apply appends_for_each; intros ?
        | apply appends_when ].

Lemma write_statistics_appends (data : list Csv.row) : appends (write_statistics data).
Proof.
  unfold write_statistics. destruct data as [|first rest]; [apply appends_ret|].
  repeat appends_step.
  destruct (column_values (first :: rest) x) as [|v vs]; repeat appends_step.
Qed.

Lemma write_gate_table_appends (a : Analysis.t) : appends (write_gate_table a).
Proof.
  unfold write_gate_table. repeat appends_step. destruct x as [n r]. apply appends_emit.
Qed.

Lemma write_performance_data_appends (a : Analysis.t) :
  appends (write_performance_data a).
Proof.
  unfold write_performance_data. repeat appends_step. destruct x as [n data].
  repeat appends_step. apply write_statistics_appends.
Qed.

Lemma write_reports_appends (a : Analysis.t) : appends (write_reports a).
Proof. unfold write_reports. repeat appends_step. Qed.

Lemma write_recommendations_appends (a : Analysis.t) :
  appends (write_recommendations a).
Proof.
  unfold write_recommendations. apply appends_bind; [apply appends_emit|intros _].
  destruct (0 <? Summary.failed_gates (Analysis.summary a)); repeat appends_step.
  destruct x as [n r]. repeat appends_step.
Qed.

(** What follows a write is appended to it. *)
Lemma emit_then (s : string) (k : M string unit) :
  appends k ->
  (emit s ;; k) EmptyString = (fst (k EmptyString), s ++ snd (k EmptyString)).
Proof. intros Hk. unfold bind, emit, modify. simpl. apply Hk. Qed.

Lemma write_overall_status_appends (a : Analysis.t) : appends (write_overall_status a).
Proof. unfold write_overall_status. cbv zeta. repeat appends_step. Qed.

Lemma write_summary_statistics_appends (a : Analysis.t) :
  appends (write_summary_statistics a).
Proof. unfold write_summary_statistics. cbv zeta. repeat appends_step. Qed.

Lemma write_sections_appends (a : Analysis.t) : appends (write_sections a).
Proof.
  unfold write_sections.
  apply appends_bind; [apply write_gate_table_appends|intros _].
  apply appends_bind; [apply write_performance_data_appends|intros _].
  apply appends_bind; [apply write_reports_appends|intros _].
  apply write_recommendations_appends.
Qed.

(** The text of a sequence of two blocks, when the first returns. *)
Lemma snd_bind_returns (c k : M string unit) :
  appends k -> fst (c EmptyString) = Py.Ok tt ->
  snd ((c ;; k) EmptyString) = snd (c EmptyString) ++ snd (k EmptyString).
Proof.
  intros Hk Hc. unfold bind. destruct (c "") as [[[]|e] u]; simpl in *.
  - rewrite (Hk u). reflexivity.
  - discriminate.
Qed.

Lemma returns_fst (c : M string unit) : returns c -> fst (c EmptyString) = Py.Ok tt.
Proof. intros H. destruct (H "") as [[] [s' E]]. rewrite E. reflexivity. Qed.

(** The summary is its three parts in a row. *)
Lemma summary_text_parts (a : Analysis.t) :
  (0 < Summary.total_gates (Analysis.summary a) ->
   0 <= Summary.passed_gates (Analysis.summary a) <= Summary.total_gates (Analysis.summary a)) ->
  summary_text a
  = snd (write_overall_status a EmptyString)
    ++ snd (write_summary_statistics a EmptyString)
    ++ snd (write_sections a EmptyString).
Proof.
  intros Hp. unfold summary_text, summary_body.
  rewrite snd_bind_returns.
  - rewrite snd_bind_returns; [reflexivity | apply write_sections_appends |].
    apply returns_fst, write_summary_statistics_returns, Hp.
  - apply appends_bind; [apply write_summary_statistics_appends|intros _].
    apply write_sections_appends.
  - apply returns_fst, write_overall_status_returns.
Qed.

(** ** What a log file yields *)

Lemma log_results_text (f : file) (content : string) :
  read f = Py.Ok content -> log_results f = results_of_text content.
Proof. intros H. unfold log_results. apply parse_log_file_try_text, H. Qed.

Lemma log_results_unreadable (f : file) (e : string) :
  read f = Py.Raise e -> log_results f = default_results.
Proof.
  intros H. unfold log_results. rewrite (parse_log_file_try_unreadable f e H). reflexivity.
Qed.

Lemma log_results_gates (f : file) :
  Results.gates (log_results f) = Py.dict_of String.eqb (occurrences f).
Proof.
  unfold occurrences. destruct (read f) as [content|e] eqn:Hread.
  - rewrite (log_results_text f content Hread). reflexivity.
  - rewrite (log_results_unreadable f e Hread). reflexivity.
Qed.

Lemma metrics_from_bad (ms : list (list string)) (m : list string) :
  In m ms -> Py.float_of_string (Re.group m 2) = None ->
  forall acc, metrics_from ms acc = None.
Proof.
  intros Hin Hbad. induction ms as [|m' ms IH]; intros acc; [destruct Hin|].
  simpl. destruct Hin as [->|Hin].
  - rewrite Hbad. reflexivity.
  - destruct (Py.float_of_string (Re.group m' 2)); [apply IH, Hin | reflexivity].
Qed.

(** ** Number parts that are no float literal *)

Lemma rev_onto_dots (n : nat) (acc : string) :
  Py.rev_onto (Py.repeat_char "." n) acc = Py.repeat_char "." n ++ acc.
Proof.
  revert acc. induction n as [|n IH]; intros acc; simpl; [reflexivity|].
  rewrite IH. clear IH. induction n as [|n IH]; simpl; [reflexivity|].
  rewrite IH. reflexivity.
Qed.

Lemma strip_float_dots (n : nat) :
  Py.strip_float (Py.repeat_char "." (S n)) = Py.repeat_char "." (S n).
Proof.
  unfold Py.strip_float, Py.rev. cbn [Py.repeat_char Py.drop_while].
  change (Py.isspace_float ".") with false. cbv iota.
  change (String "." (Py.repeat_char "." n)) with (Py.repeat_char "." (S n)).
  rewrite rev_onto_dots, append_nil_r. cbn [Py.repeat_char Py.drop_while].
  change (Py.isspace_float ".") with false. cbv iota.
  change (String "." (Py.repeat_char "." n)) with (Py.repeat_char "." (S n)).
  rewrite rev_onto_dots, append_nil_r. reflexivity.
Qed.

Lemma has_underscore_dots (n : nat) : Py.has_char "_" (Py.repeat_char "." n) = false.
Proof. induction n as [|n IH]; simpl; [reflexivity | exact IH]. Qed.

Lemma span_digits_dots (n : nat) :
  Py.span Py.isdigit (Py.repeat_char "." n) = (EmptyString, Py.repeat_char "." n).
Proof. destruct n; reflexivity. Qed.

(** A token of dots only is no float literal; neither is 1.2.3. *)
Lemma float_of_dots (n : nat) : Py.float_of_string (Py.repeat_char "." (S n)) = None.
Proof.
  unfold Py.float_of_string. rewrite strip_float_dots.
  cbn [Py.repeat_char]. 
  change (Py.lowercase (String "." (Py.repeat_char "." n)))
    with (String "." (Py.lowercase (Py.repeat_char "." n))).
  cbn [String.eqb Ascii.eqb Bool.eqb orb].
  change (Py.has_char "_" (String "." (Py.repeat_char "." n)))
    with (Py.has_char "_" (Py.repeat_char "." n)).
  rewrite has_underscore_dots.
  unfold Py.parse_decimal. cbn [Py.span]. change (Py.isdigit ".") with false. cbv iota.
  rewrite span_digits_dots. reflexivity.
Qed.

Lemma float_of_version_number : Py.float_of_string "1.2.3" = None.
Proof. reflexivity. Qed.

(** ** The claims on parse_log_file *)

(** C1 as the specification states it does not hold: a text that holds
    both markers, here with the failed marker first, gives
    [overall_success = True]. *)
Lemma parse_log_file_both_markers_counterexample :
  ~ (forall (f : file) (content : string) (w : world),
       read f = Py.Ok content ->
       Py.contains "ALL PERFORMANCE GATES PASSED" content = true ->
       Py.contains "PERFORMANCE GATES FAILED" content = true ->
       exists results w',
         parse_log_file f w = (Py.Ok results, w')
         /\ Results.overall_success results = false).
Proof.
  intros H.
  destruct (H {| f_path := "artifacts/unity.log";
                 f_data := Text ("PERFORMANCE GATES FAILED" ++ Py.nl
                                 ++ "ALL PERFORMANCE GATES PASSED" ++ Py.nl);
                 f_json := Py.Raise "not JSON" |}
              ("PERFORMANCE GATES FAILED" ++ Py.nl
               ++ "ALL PERFORMANCE GATES PASSED" ++ Py.nl)
              empty_world eq_refl eq_refl eq_refl) as [results [w' [Hrun Hfalse]]].
  vm_compute in Hrun. inversion Hrun; subst. discriminate Hfalse.
Qed.

(** C1, amended: for every log text that contains both the marker
    'ALL PERFORMANCE GATES PASSED' and the marker 'PERFORMANCE GATES
    FAILED', in whatever order, [parse_log_file] returns a result with
    [overall_success] true: the passed marker is tested first and the
    failed marker only in the [elif] branch. *)
Theorem parse_log_file_both_markers (f : file) (content : string) (w : world) :
  read f = Py.Ok content ->
  Py.contains "ALL PERFORMANCE GATES PASSED" content = true ->
  Py.contains "PERFORMANCE GATES FAILED" content = true ->
  exists results w',
    parse_log_file f w = (Py.Ok results, w')
    /\ Results.overall_success results = true.
Proof.
  intros Hread Hpassed _.
  destruct (parse_log_file_returns f w) as [w' [Hrun _]].
  exists (log_results f), w'. split; [exact Hrun|].
  rewrite (log_results_text f content Hread). exact Hpassed.
Qed.

Lemma parse_log_file_both_markers_witness :
  exists results w',
    parse_log_file
      {| f_path := "artifacts/unity.log";
         f_data := Text ("ALL PERFORMANCE GATES PASSED" ++ Py.nl
                         ++ "PERFORMANCE GATES FAILED" ++ Py.nl);
         f_json := Py.Raise "not JSON" |} empty_world
    = (Py.Ok results, w')
    /\ Results.overall_success results = true.
Proof.
  apply (parse_log_file_both_markers _
           ("ALL PERFORMANCE GATES PASSED" ++ Py.nl
            ++ "PERFORMANCE GATES FAILED" ++ Py.nl)); reflexivity.
Defined.

(** C10: when the text holds an occurrence of the metric pattern whose
    number part is no float literal, the conversion raises inside the
    [try] block; [parse_log_file] prints the error and returns the build
    id, overall verdict and gates extracted before, with no ['metrics']
    key. *)
Theorem parse_log_file_bad_metric (f : file) (content : string) (m : list string)
    (w : world) :
  read f = Py.Ok content ->
  In m (Re.finditer metrics_pattern content) ->
  Py.float_of_string (Re.group m 2) = None ->
  exists e,
    parse_log_file f w
    = (Py.Ok {| Results.gates := Py.dict_of String.eqb (gate_matches content);
                Results.overall_success :=
                  Py.contains "ALL PERFORMANCE GATES PASSED" content;
                Results.execution_time := 0;
                Results.build_id := build_id_of content;
                Results.timestamp := None;
                Results.metrics := None |},
       {| console := List.app (console w)
                       ["Error parsing log file " ++ f_path f ++ ": " ++ e];
          files := files w |}).
Proof.
  intros Hread Hin Hbad.
  pose proof (parse_log_file_try_text f content Hread) as Htext.
  pose proof (parse_log_file_try_status f content Hread) as Hstatus.
  unfold results_of_text in Htext.
  rewrite (metrics_from_bad _ m Hin Hbad) in Htext, Hstatus.
  destruct Hstatus as [e He]. exists e.
  unfold parse_log_file.
  destruct (parse_log_file_try f default_results) as [r s]. simpl in Htext, He.
  subst r s. reflexivity.
Qed.

Lemma parse_log_file_bad_metric_witness :
  exists e,
    parse_log_file
      {| f_path := "artifacts/unity.log";
         f_data := Text ("Build ID: b7" ++ Py.nl ++ "[ci] Gate 'fps': PASS" ++ Py.nl
                         ++ "version: 1.2.3" ++ Py.nl);
         f_json := Py.Raise "not JSON" |} empty_world
    = (Py.Ok {| Results.gates := [("fps", true)];
                Results.overall_success := false;
                Results.execution_time := 0;
                Results.build_id := "b7";
                Results.timestamp := None;
                Results.metrics := None |},
       {| console := ["Error parsing log file artifacts/unity.log: " ++ e];
          files := [] |}).
Proof.
  apply (parse_log_file_bad_metric
           {| f_path := "artifacts/unity.log";
              f_data := Text ("Build ID: b7" ++ Py.nl ++ "[ci] Gate 'fps': PASS" ++ Py.nl
                              ++ "version: 1.2.3" ++ Py.nl);
              f_json := Py.Raise "not JSON" |}
           ("Build ID: b7" ++ Py.nl ++ "[ci] Gate 'fps': PASS" ++ Py.nl
            ++ "version: 1.2.3" ++ Py.nl)
           ["version"; "1.2.3"] empty_world).
  - reflexivity.
  - vm_compute. left. reflexivity.
  - reflexivity.
Defined.

(** ** Entries against distinct names *)

Lemma occurs_dict_set (d : Py.dict string bool) (k x : string) (v : bool) :
  occurs x (Py.dict_set String.eqb d k v) = (String.eqb x k || occurs x d)%bool.
Proof.
  unfold occurs. induction d as [|[k' v'] d IH]; simpl.
  - reflexivity.
  - destruct (String.eqb k k') eqn:Hk; simpl.
    + apply String.eqb_eq in Hk. subst k'.
      destruct (String.eqb x k); reflexivity.
    + rewrite IH. destruct (String.eqb x k), (String.eqb x k'); reflexivity.
Qed.

Lemma dict_set_length (d : Py.dict string bool) (k : string) (v : bool) :
  List.length (Py.dict_set String.eqb d k v)
  = if occurs k d then List.length d else S (List.length d).
Proof.
  unfold occurs. induction d as [|[k' v'] d IH]; simpl; [reflexivity|].
  destruct (String.eqb k k') eqn:Hk; simpl; [reflexivity|].
  rewrite IH. destruct (List.existsb _ d); reflexivity.
Qed.

Lemma fold_set_length (l d : list (string * bool)) :
  (List.length (fold_left (fun d kv => Py.dict_set String.eqb d (fst kv) (snd kv)) l d)
   <= List.length d + List.length l)%nat.
Proof.
  revert d. induction l as [|[k v] l IH]; intros d; simpl; [lia|].
  specialize (IH (Py.dict_set String.eqb d k v)). rewrite dict_set_length in IH.
  destruct (occurs k d); lia.
Qed.

Lemma fold_set_length_known (x : string) (l d : list (string * bool)) :
  occurs x d = true -> occurs x l = true ->
  (List.length (fold_left (fun d kv => Py.dict_set String.eqb d (fst kv) (snd kv)) l d)
   < List.length d + List.length l)%nat.
Proof.
  revert d. induction l as [|[k v] l IH]; intros d Hd Hl; [discriminate|].
  cbn [fold_left fst snd List.length].
  unfold occurs in Hl. cbn [List.existsb fst] in Hl.
  destruct (String.eqb x k) eqn:Hk.
  - apply String.eqb_eq in Hk. subst k.
    pose proof (fold_set_length l (Py.dict_set String.eqb d x v)) as Hle.
    rewrite dict_set_length, Hd in Hle. lia.
  - simpl in Hl.
    assert (Hd' : occurs x (Py.dict_set String.eqb d k v) = true).
    { rewrite occurs_dict_set, Hd. apply orb_true_r. }
    specialize (IH _ Hd' Hl). rewrite dict_set_length in IH.
    destruct (occurs k d); lia.
Qed.

Lemma count_name_occurs (x : string) (l : list (string * bool)) :
  (1 <= count_name x l)%nat -> occurs x l = true.
Proof.
  unfold count_name, occurs. induction l as [|[k v] l IH]; simpl; [lia|].
  destruct (String.eqb x k); simpl; [reflexivity | exact IH].
Qed.

(** A name entered twice makes the entries outnumber the names. *)
Lemma fold_set_length_repeated (x : string) (l d : list (string * bool)) :
  (2 <= count_name x l)%nat ->
  (List.length (fold_left (fun d kv => Py.dict_set String.eqb d (fst kv) (snd kv)) l d)
   < List.length d + List.length l)%nat.
Proof.
  revert d. induction l as [|[k v] l IH]; intros d Hc; [unfold count_name in Hc; simpl in Hc; lia|].
  cbn [fold_left fst snd List.length].
  unfold count_name in Hc. cbn [List.filter fst] in Hc.
  destruct (String.eqb x k) eqn:Hk.
  - apply String.eqb_eq in Hk. subst k. cbn [List.length] in Hc.
    assert (Hl : occurs x l = true) by (apply count_name_occurs; unfold count_name; lia).
    assert (Hd : occurs x (Py.dict_set String.eqb d x v) = true).
    { rewrite occurs_dict_set, String.eqb_refl. reflexivity. }
    pose proof (fold_set_length_known x l _ Hd Hl) as Hlt.
    rewrite dict_set_length in Hlt. destruct (occurs x d); lia.
  - specialize (IH (Py.dict_set String.eqb d k v) Hc).
    rewrite dict_set_length in IH. destruct (occurs k d); lia.
Qed.

Lemma final_gates_length (tree : list file) (now : string) :
  Z.of_nat (List.length (Analysis.gates (final_analysis tree now)))
  <= Summary.total_gates (Analysis.summary (final_analysis tree now))
  /\ forall x, (2 <= count_name x (folded_entries tree))%nat ->
       Z.of_nat (List.length (Analysis.gates (final_analysis tree now)))
       < Summary.total_gates (Analysis.summary (final_analysis tree now)).
Proof.
  destruct (final_analysis_summary tree now) as [Hs Hg]. rewrite Hs, Hg.
  destruct (merged_logs_fields tree now) as (Hg' & Ht & _). rewrite Hg', Ht.
  unfold Py.dict_of. split.
  - pose proof (fold_set_length (folded_entries tree) []). simpl in *. lia.
  - intros x Hx.
    pose proof (fold_set_length_repeated x (folded_entries tree) [] Hx). simpl in *. lia.
Qed.

(** ** The claims on the aggregator *)

Lemma count_name_visits (x : string) (fs : list file) :
  count_name x (List.flat_map (fun f => Results.gates (log_results f)) fs)
  = List.length (List.filter (fun f => occurs x (occurrences f)) fs).
Proof.
  induction fs as [|f fs IH]; simpl; [reflexivity|].
  rewrite count_name_app, IH, log_results_gates.
  rewrite count_name_dict by apply dict_of_unique.
  rewrite occurs_dict_of.
  destruct (occurs x (occurrences f)); reflexivity.
Qed.

Lemma final_gates_last_verdict (tree : list file) (now : string) (x : string) :
  Py.dict_get String.eqb (Analysis.gates (final_analysis tree now)) x
  = last_verdict x (all_occurrences tree).
Proof.
  destruct (final_analysis_summary tree now) as [_ Hg]. rewrite Hg.
  destruct (merged_logs_fields tree now) as (Hg' & _). rewrite Hg'.
  unfold Py.dict_of. rewrite dict_get_fold_set. simpl.
  unfold folded_entries, all_occurrences.
  rewrite (last_verdict_flat_map x (fun f => Results.gates (log_results f)) occurrences).
  - destruct (last_verdict x _); reflexivity.
  - intros f. rewrite log_results_gates. apply last_verdict_dict_of.
Qed.

(** C2 as the specification states it does not hold: one log file with
    one PASS and one FAIL occurrence of the gate X (N = 1, M = 1, no other
    gate) leaves [total_gates] at 1, not at N + M = 2, because
    [parse_log_file] keeps one entry per name. *)
Lemma repeated_gate_counting_counterexample :
  let tree :=
    [ {| f_path := "artifacts/unity.log";
         f_data := Text ("[ci] Gate 'X': PASS" ++ Py.nl ++ "[ci] Gate 'X': FAIL" ++ Py.nl);
         f_json := Py.Raise "not JSON" |} ] in
  all_occurrences tree = [("X", true); ("X", false)]
  /\ exists a w',
       analyze_artifacts_directory "artifacts" tree "2024-01-01T00:00:00" empty_world
       = (Py.Ok a, w')
       /\ Py.dict_get String.eqb (Analysis.gates a) "X" = Some false
       /\ Summary.total_gates (Analysis.summary a) = 1
       /\ Summary.total_gates (Analysis.summary a)
          <> Z.of_nat (count_name "X" (all_occurrences tree)).
Proof.
  cbv zeta. split; [reflexivity|].
  eexists. eexists. split; [vm_compute; reflexivity|].
  split; [reflexivity|]. split; [reflexivity|]. vm_compute. discriminate.
Qed.

(** C2, amended: for every gate name X, after aggregation [gates[X]] is
    the verdict of the last occurrence processed (none when X never
    occurs), [summary.total_gates] is the number of entries folded in, and
    X accounts for one entry per visited log file in which it occurs,
    however often it occurs inside that file; a file found by both
    patterns is visited twice.  The total is never below the number of
    names in [gates], and exceeds it as soon as a name was folded in
    twice. *)
Theorem repeated_gate_aggregation (artifacts_dir : string) (tree : list file)
    (now : string) (w : world) (x : string) :
  exists a w',
    analyze_artifacts_directory artifacts_dir tree now w = (Py.Ok a, w')
    /\ Py.dict_get String.eqb (Analysis.gates a) x = last_verdict x (all_occurrences tree)
    /\ Summary.total_gates (Analysis.summary a)
       = Z.of_nat (List.length (folded_entries tree))
    /\ count_name x (folded_entries tree)
       = List.length (List.filter (fun f => occurs x (occurrences f)) (log_files tree))
    /\ Z.of_nat (List.length (Analysis.gates a)) <= Summary.total_gates (Analysis.summary a)
    /\ ((2 <= count_name x (folded_entries tree))%nat ->
        Z.of_nat (List.length (Analysis.gates a)) < Summary.total_gates (Analysis.summary a)).
Proof.
  destruct (analyze_artifacts_directory_returns artifacts_dir tree now w) as [w' [Hrun _]].
  exists (final_analysis tree now), w'. split; [exact Hrun|].
  split; [apply final_gates_last_verdict|].
  split; [apply final_analysis_counters|].
  split; [apply count_name_visits|].
  destruct (final_gates_length tree now) as [Hle Hlt].
  split; [exact Hle | apply Hlt].
Qed.

Lemma repeated_gate_aggregation_witness :
  exists a w',
    analyze_artifacts_directory "artifacts"
      [ {| f_path := "artifacts/editor.log";
           f_data := Text ("[ci] Gate 'X': PASS" ++ Py.nl);
           f_json := Py.Raise "not JSON" |};
        {| f_path := "artifacts/player.log";
           f_data := Text ("[ci] Gate 'X': FAIL" ++ Py.nl);
           f_json := Py.Raise "not JSON" |} ]
      "2024-01-01T00:00:00" empty_world
    = (Py.Ok a, w')
    /\ Py.dict_get String.eqb (Analysis.gates a) "X" = Some false
    /\ Z.of_nat (List.length (Analysis.gates a)) < Summary.total_gates (Analysis.summary a).
Proof.
  destruct (repeated_gate_aggregation "artifacts"
              [ {| f_path := "artifacts/editor.log";
                   f_data := Text ("[ci] Gate 'X': PASS" ++ Py.nl);
                   f_json := Py.Raise "not JSON" |};
                {| f_path := "artifacts/player.log";
                   f_data := Text ("[ci] Gate 'X': FAIL" ++ Py.nl);
                   f_json := Py.Raise "not JSON" |} ]
              "2024-01-01T00:00:00" empty_world "X")
    as [a [w' [Hrun [Hlast [_ [_ [_ Hmore]]]]]]].
  exists a, w'. split; [exact Hrun|]. split; [exact Hlast|].
  apply Hmore. vm_compute. apply le_n.
Defined.

(** C6: the aggregate's [summary.overall_success] is the disjunction of
    the verdicts of the parsed log files: true exactly when some visited
    log file's result has [overall_success] true, hence false when no log
    file is found. *)
Theorem overall_success_is_any (artifacts_dir : string) (tree : list file)
    (now : string) (w : world) :
  exists a w',
    analyze_artifacts_directory artifacts_dir tree now w = (Py.Ok a, w')
    /\ Summary.overall_success (Analysis.summary a)
       = List.existsb (fun f => Results.overall_success (log_results f)) (log_files tree)
    /\ (Summary.overall_success (Analysis.summary a) = true
        <-> exists f results w1 w2,
              In f (log_files tree)
              /\ parse_log_file f w1 = (Py.Ok results, w2)
              /\ Results.overall_success results = true)
    /\ (log_files tree = [] -> Summary.overall_success (Analysis.summary a) = false).
Proof.
  destruct (analyze_artifacts_directory_returns artifacts_dir tree now w) as [w' [Hrun _]].
  exists (final_analysis tree now), w'. split; [exact Hrun|].
  destruct (final_analysis_summary tree now) as [Hs _]. rewrite Hs.
  destruct (merged_logs_fields tree now) as (_ & _ & _ & _ & Ho). rewrite Ho.
  split; [reflexivity|]. split.
  - rewrite List.existsb_exists. split.
    + intros [f [Hin Hf]]. destruct (parse_log_file_returns f w) as [w2 [Hp _]].
      exists f, (log_results f), w, w2. auto.
    + intros [f [results [w1 [w2 [Hin [Hp Hr]]]]]]. exists f. split; [exact Hin|].
      destruct (parse_log_file_returns f w1) as [w3 [Hp' _]].
      rewrite Hp' in Hp. inversion Hp; subst. exact Hr.
  - intros Hnone. rewrite Hnone. reflexivity.
Qed.

Lemma overall_success_is_any_witness :
  exists a w',
    analyze_artifacts_directory "artifacts"
      [ {| f_path := "artifacts/frames.csv";
           f_data := Text ("fps" ++ Py.nl ++ "72" ++ Py.nl);
           f_json := Py.Raise "not JSON" |} ]
      "2024-01-01T00:00:00" empty_world
    = (Py.Ok a, w')
    /\ Summary.overall_success (Analysis.summary a) = false.
Proof.
  destruct (overall_success_is_any "artifacts"
              [ {| f_path := "artifacts/frames.csv";
                   f_data := Text ("fps" ++ Py.nl ++ "72" ++ Py.nl);
                   f_json := Py.Raise "not JSON" |} ]
              "2024-01-01T00:00:00" empty_world) as [a [w' [Hrun [_ [_ Hzero]]]]].
  exists a, w'. split; [exact Hrun | apply Hzero; reflexivity].
Defined.

Lemma merge_gate_consistent (a : Analysis.t) (item : string * bool) :
  counters_consistent a -> counters_consistent (merge_gate a item).
Proof.
  unfold counters_consistent. destruct item as [n [|]]; simpl; lia.
Qed.

Lemma merge_log_consistent (a : Analysis.t) (r : Results.t) :
  counters_consistent a -> counters_consistent (merge_log a r).
Proof.
  intros Ha. unfold counters_consistent.
  destruct (merge_log_fields a r) as (_ & Ht & Hp & Hf & _).
  rewrite Ht, Hp, Hf. pose proof (passes_fails (Results.gates r)).
  unfold counters_consistent in Ha. lia.
Qed.

Lemma scan_consistent (l : list (string * bool)) (a : Analysis.t) :
  counters_consistent a -> Forall counters_consistent (scan merge_gate l a).
Proof.
  revert a. induction l as [|item l IH]; intros a Ha; simpl.
  - constructor; [exact Ha | constructor].
  - constructor; [exact Ha|]. apply IH, merge_gate_consistent, Ha.
Qed.

Lemma aggregation_states_consistent (rs : list Results.t) (a : Analysis.t) :
  counters_consistent a -> Forall counters_consistent (aggregation_states rs a).
Proof.
  revert a. induction rs as [|r rs IH]; intros a Ha; simpl.
  - constructor; [exact Ha | constructor].
  - apply Forall_app. split; [apply scan_consistent, Ha|].
    apply IH, merge_log_consistent, Ha.
Qed.

Lemma aggregation_states_last (rs : list Results.t) (a : Analysis.t) :
  In (fold_left merge_log rs a) (aggregation_states rs a).
Proof.
  revert a. induction rs as [|r rs IH]; intros a; simpl.
  - left. reflexivity.
  - apply in_or_app. right. apply IH.
Qed.

(** C9: the counters stay consistent.  In every state the aggregate goes
    through while the log files are merged (before and after each gate
    entry folded in, after each log file), and in the analysis returned,
    [total_gates = passed_gates + failed_gates]. *)
Theorem counters_stay_consistent (artifacts_dir : string) (tree : list file)
    (now : string) (w : world) :
  Forall counters_consistent
    (aggregation_states (List.map log_results (log_files tree)) (initial_analysis now))
  /\ In (merged_logs tree now)
        (aggregation_states (List.map log_results (log_files tree)) (initial_analysis now))
  /\ exists a w',
       analyze_artifacts_directory artifacts_dir tree now w = (Py.Ok a, w')
       /\ Analysis.summary a = Analysis.summary (merged_logs tree now)
       /\ counters_consistent a.
Proof.
  assert (H0 : counters_consistent (initial_analysis now)) by reflexivity.
  pose proof (aggregation_states_consistent
                (List.map log_results (log_files tree)) _ H0) as Hall.
  pose proof (aggregation_states_last
                (List.map log_results (log_files tree)) (initial_analysis now)) as Hlast.
  split; [exact Hall|]. split; [exact Hlast|].
  destruct (analyze_artifacts_directory_returns artifacts_dir tree now w) as [w' [Hrun _]].
  exists (final_analysis tree now), w'. split; [exact Hrun|].
  destruct (final_analysis_summary tree now) as [Hs _]. split; [exact Hs|].
  unfold counters_consistent. rewrite Hs.
  rewrite Forall_forall in Hall. apply (Hall _ Hlast).
Qed.

(** ** The claims on the entry point *)

(** C4: with an artifacts directory, the exit code is 0 exactly when the
    aggregated failed-gate count is zero (so also when no gate was found)
    and 1 exactly when a failed gate was counted; without one, the exit
    code is 1 and no file is written. *)
Theorem main_exit_code (artifacts_dir output_dir now : string) (tree : list file)
    (w : world) :
  let run := main artifacts_dir output_dir (Some tree) now w in
  let missing := main artifacts_dir output_dir None now w in
  (exists a w1,
     analyze_artifacts_directory artifacts_dir tree now w = (Py.Ok a, w1)
     /\ (exit_status run = 0 <-> Summary.failed_gates (Analysis.summary a) = 0)
     /\ (exit_status run = 1 <-> 0 < Summary.failed_gates (Analysis.summary a))
     /\ (Summary.total_gates (Analysis.summary a) = 0 -> exit_status run = 0))
  /\ exit_status missing = 1
  /\ files (snd missing) = files w.
Proof.
  cbv zeta. split; [|split; reflexivity].
  destruct (analyze_artifacts_directory_returns artifacts_dir tree now w) as [w1 [Hrun _]].
  exists (final_analysis tree now), w1. split; [exact Hrun|].
  destruct (main_runs artifacts_dir output_dir tree now w) as [w' [Hmain _]].
  unfold exit_status. rewrite Hmain. simpl.
  destruct (final_analysis_sane tree now) as [Hp Hf].
  destruct (0 <? Summary.failed_gates (Analysis.summary (final_analysis tree now))) eqn:E.
  - apply Z.ltb_lt in E. repeat split; intros; try lia.
    pose proof (final_analysis_counters tree now) as (Ht & Hp' & Hf').
    cbv zeta in Ht, Hp', Hf'.
    pose proof (passes_fails (folded_entries tree)). lia.
  - apply Z.ltb_ge in E. repeat split; intros; lia.
Qed.

Lemma main_exit_code_witness :
  exit_status (main "artifacts" "performance-analysis" (Some []) "2024-01-01T00:00:00"
                 empty_world) = 0.
Proof.
  destruct (main_exit_code "artifacts" "performance-analysis" "2024-01-01T00:00:00" []
              empty_world) as [[a [w1 [Hrun [_ [_ Hzero]]]]] _].
  apply Hzero. vm_compute in Hrun. inversion Hrun. reflexivity.
Defined.

(** ** The end-to-end scenario *)

Lemma endswith_log_only (n : string) :
  Py.endswith n ".log" = true ->
  Py.endswith n ".csv" = false /\ Py.endswith n ".json" = false.
Proof.
  unfold Py.endswith. generalize (Py.rev n). intros r.
  change (Py.rev ".log") with "gol.". change (Py.rev ".csv") with "vsc.".
  change (Py.rev ".json") with "nosj.".
  destruct r as [|c r]; cbn [Py.startswith]; [discriminate|].
  destruct (Ascii.eqb "g" c) eqn:Hg; [|discriminate].
  apply Ascii.eqb_eq in Hg. subst c. intros _. split; reflexivity.
Qed.

Lemma scenario_read (f : file) :
  f_data f = Text scenario_log -> read f = Py.Ok scenario_log.
Proof. intros H. unfold read. rewrite H. reflexivity. Qed.

Lemma scenario_results (f : file) :
  f_data f = Text scenario_log ->
  Results.gates (log_results f) = [("latency", true); ("memory", false)]
  /\ Results.overall_success (log_results f) = true.
Proof.
  intros H. rewrite (log_results_text f scenario_log (scenario_read f H)).
  split; vm_compute; reflexivity.
Qed.

(** The aggregate of the scenario: the file is visited once, or twice
    when its name is [performance-gates.log]. *)
Lemma scenario_analysis (f : file) (now : string) :
  f_data f = Text scenario_log ->
  Py.endswith (basename (f_path f)) ".log" = true ->
  exists visits,
    0 < visits
    /\ final_analysis [f] now
       = {| Analysis.summary :=
              {| Summary.total_gates := 2 * visits;
                 Summary.passed_gates := visits;
                 Summary.failed_gates := visits;
                 Summary.overall_success := true;
                 Summary.analysis_timestamp := now |};
            Analysis.gates := [("latency", true); ("memory", false)];
            Analysis.performance_data := [];
            Analysis.reports := [] |}.
Proof.
  intros Hdata Hname.
  destruct (endswith_log_only _ Hname) as [Hcsv Hjson].
  destruct (scenario_results f Hdata) as [Hg Ho].
  unfold final_analysis, merged_logs, log_files, glob_suffix, glob_name.
  cbn [List.filter]. rewrite Hname, Hcsv, Hjson. cbn [fold_left].
  destruct (String.eqb (basename (f_path f)) "performance-gates.log").
  - exists 2. split; [lia|]. cbn [List.app List.map fold_left].
    unfold merge_log. rewrite Hg, Ho. reflexivity.
  - exists 1. split; [lia|]. cbn [List.app List.map fold_left].
    unfold merge_log. rewrite Hg, Ho. reflexivity.
Qed.

Lemma overall_status_text (a : Analysis.t) :
  snd (write_overall_status a EmptyString)
  = "# Performance Gates Analysis Summary" ++ Py.nl ++ Py.nl
    ++ "**Analysis Timestamp**: " ++ Summary.analysis_timestamp (Analysis.summary a)
    ++ Py.nl ++ Py.nl
    ++ "## Overall Status: "
    ++ (if Summary.overall_success (Analysis.summary a)
        then CHECK_MARK ++ " PASSED" else CROSS_MARK ++ " FAILED")
    ++ Py.nl ++ Py.nl.
Proof.
  unfold write_overall_status, bind, emit, modify. cbn [snd fst].
  destruct (Summary.overall_success (Analysis.summary a)); cbn;
    rewrite !append_assoc; reflexivity.
Qed.

(** C3: the end-to-end scenario.  For an artifacts directory whose only
    file is a log file with the scenario's five lines, a full run writes
    [gate-results.csv] with the header and exactly the two data rows
    latency,PASS,True and memory,FAIL,False, writes a Markdown summary
    whose overall status line reads PASSED, and exits with code 1. *)
Theorem end_to_end_scenario (artifacts_dir output_dir now : string) (f : file)
    (w : world) :
  f_data f = Text scenario_log ->
  Py.endswith (basename (f_path f)) ".log" = true ->
  exists w' rest,
    main artifacts_dir output_dir (Some [f]) now w = (Py.Ok 1, w')
    /\ Py.dict_get String.eqb (files w') (path_join output_dir "gate-results.csv")
       = Some (TextContent
                 (Csv.writerow ["Gate Name"; "Status"; "Success"]
                  ++ Csv.writerow ["latency"; "PASS"; "True"]
                  ++ Csv.writerow ["memory"; "FAIL"; "False"]))
    /\ Py.dict_get String.eqb (files w')
         (path_join output_dir "performance-analysis-summary.md")
       = Some (TextContent
                 ("# Performance Gates Analysis Summary" ++ Py.nl ++ Py.nl
                  ++ "**Analysis Timestamp**: " ++ now ++ Py.nl ++ Py.nl
                  ++ "## Overall Status: " ++ CHECK_MARK ++ " PASSED" ++ Py.nl ++ Py.nl
                  ++ rest)).
Proof.
  intros Hdata Hname.
  destruct (scenario_analysis f now Hdata Hname) as [visits [Hpos Ha]].
  destruct (main_runs artifacts_dir output_dir [f] now w) as [w' [Hmain Hfiles]].
  rewrite Ha in Hmain, Hfiles.
  match type of Hfiles with _ = output_files _ ?x _ => set (a := x) in * end.
  exists w', (snd (write_summary_statistics a "") ++ snd (write_sections a "")).
  split; [|split].
  - rewrite Hmain. cbn [Analysis.summary Summary.failed_gates a].
    apply Z.ltb_lt in Hpos. rewrite Hpos. reflexivity.
  - rewrite Hfiles. unfold output_files. cbn [a Analysis.gates Csv.is_empty].
    rewrite dict_get_set_same. reflexivity.
  - rewrite Hfiles. unfold output_files. cbn [a Analysis.gates Csv.is_empty].
    rewrite !dict_get_set. unfold path_join. rewrite !eqb_append_l.
    change (String.eqb "performance-analysis-summary.md" "gate-results.csv") with false.
    change (String.eqb "performance-analysis-summary.md" "full-analysis.json") with false.
    rewrite String.eqb_refl.
    rewrite summary_text_parts by (cbn [a Analysis.summary Summary.total_gates
                                          Summary.passed_gates]; lia).
    rewrite overall_status_text. cbn [a Analysis.summary Summary.overall_success
                                        Summary.analysis_timestamp].
    rewrite !append_assoc. reflexivity.
Qed.

Lemma end_to_end_scenario_witness :
  exists w' rest,
    main "artifacts" "performance-analysis"
      (Some [ {| f_path := "artifacts/run-7/performance-gates.log";
                 f_data := Text scenario_log;
                 f_json := Py.Raise "not JSON" |} ])
      "2024-01-01T00:00:00" empty_world
    = (Py.Ok 1, w')
    /\ Py.dict_get String.eqb (files w') "performance-analysis/gate-results.csv"
       = Some (TextContent
                 (Csv.writerow ["Gate Name"; "Status"; "Success"]
                  ++ Csv.writerow ["latency"; "PASS"; "True"]
                  ++ Csv.writerow ["memory"; "FAIL"; "False"]))
    /\ Py.dict_get String.eqb (files w') "performance-analysis/performance-analysis-summary.md"
       = Some (TextContent
                 ("# Performance Gates Analysis Summary" ++ Py.nl ++ Py.nl
                  ++ "**Analysis Timestamp**: " ++ "2024-01-01T00:00:00" ++ Py.nl ++ Py.nl
                  ++ "## Overall Status: " ++ CHECK_MARK ++ " PASSED" ++ Py.nl ++ Py.nl
                  ++ rest)).
Proof.
  apply (end_to_end_scenario "artifacts" "performance-analysis" "2024-01-01T00:00:00"
           {| f_path := "artifacts/run-7/performance-gates.log";
              f_data := Text scenario_log;
              f_json := Py.Raise "not JSON" |} empty_world); reflexivity.
Defined.

(** ** The success-rate line *)

Lemma success_rate_three_of_four (a : Analysis.t) :
  success_rate (Analysis.summary (with_counts 4 3 a)) = Py.Ok "75.0".
Proof. vm_compute. reflexivity. Qed.

Lemma summary_statistics_three_of_four (a : Analysis.t) :
  write_summary_statistics (with_counts 4 3 a) EmptyString
  = (Py.Ok tt,
     "## Summary Statistics" ++ Py.nl ++ Py.nl
     ++ "- **Total Gates**: 4" ++ Py.nl
     ++ "- **Passed Gates**: 3" ++ Py.nl
     ++ "- **Failed Gates**: " ++ Py.str_int (Summary.failed_gates (Analysis.summary a))
     ++ Py.nl
     ++ "- **Success Rate**: 75.0%" ++ Py.nl
     ++ Py.nl).
Proof.
  unfold write_summary_statistics. cbv zeta.
  rewrite (success_rate_three_of_four a).
  unfold bind, emit, modify, when, lift.
  cbn [Analysis.summary with_counts Summary.total_gates Summary.passed_gates
       Summary.failed_gates Z.ltb Z.compare fst snd].
  f_equal. change (Py.str_int 4) with "4". change (Py.str_int 3) with "3".
  cbn [append Py.nl]. rewrite !append_assoc. reflexivity.
Qed.

Lemma summary_statistics_no_gates (passed : Z) (a : Analysis.t) :
  write_summary_statistics (with_counts 0 passed a) EmptyString
  = (Py.Ok tt,
     "## Summary Statistics" ++ Py.nl ++ Py.nl
     ++ "- **Total Gates**: 0" ++ Py.nl
     ++ "- **Passed Gates**: " ++ Py.str_int passed ++ Py.nl
     ++ "- **Failed Gates**: " ++ Py.str_int (Summary.failed_gates (Analysis.summary a))
     ++ Py.nl
     ++ Py.nl).
Proof.
  unfold write_summary_statistics. cbv zeta.
  unfold bind, emit, modify, when, lift, ret.
  cbn [Analysis.summary with_counts Summary.total_gates Summary.passed_gates
       Summary.failed_gates Z.ltb Z.compare fst snd].
  f_equal. change (Py.str_int 0) with "0".
  cbn [append Py.nl]. rewrite !append_assoc. cbn [append]. rewrite !append_assoc.
  reflexivity.
Qed.

(** The written summary is the overall status, the summary statistics
    and the remaining sections, in a row. *)
Lemma generate_summary_report_text (a : Analysis.t) (output_dir : string) (w : world) :
  (0 < Summary.total_gates (Analysis.summary a) ->
   0 <= Summary.passed_gates (Analysis.summary a) <= Summary.total_gates (Analysis.summary a)) ->
  exists w',
    generate_summary_report a output_dir w
    = (Py.Ok (path_join output_dir "performance-analysis-summary.md"), w')
    /\ Py.dict_get String.eqb (files w')
         (path_join output_dir "performance-analysis-summary.md")
       = Some (TextContent
                 (snd (write_overall_status a EmptyString)
                  ++ snd (write_summary_statistics a EmptyString)
                  ++ snd (write_sections a EmptyString))).
Proof.
  intros Hp. destruct (generate_summary_report_runs a output_dir w Hp) as [w' [Hrun Hfiles]].
  exists w'. split; [exact Hrun|].
  rewrite Hfiles, dict_get_set_same, (summary_text_parts a Hp). reflexivity.
Qed.

(** C7: with [total_gates = 4] and [passed_gates = 3] the rate is
    rendered as 75.0 and the line "- **Success Rate**: 75.0%" follows the
    failed-gates line; with [total_gates = 0] the blank line follows the
    failed-gates line directly and the report is still written, although
    the division would raise.  In both cases the file holds the overall
    status, these summary statistics and the remaining sections. *)
Theorem success_rate_rendering (passed : Z) (a : Analysis.t) (output_dir : string)
    (w : world) :
  let a43 := with_counts 4 3 a in
  let a0 := with_counts 0 passed a in
  let path := path_join output_dir "performance-analysis-summary.md" in
  let failed_line :=
    "- **Failed Gates**: " ++ Py.str_int (Summary.failed_gates (Analysis.summary a))
    ++ Py.nl in
  success_rate (Analysis.summary a43) = Py.Ok "75.0"
  /\ write_summary_statistics a43 EmptyString
     = (Py.Ok tt,
        "## Summary Statistics" ++ Py.nl ++ Py.nl
        ++ "- **Total Gates**: 4" ++ Py.nl
        ++ "- **Passed Gates**: 3" ++ Py.nl
        ++ failed_line
        ++ "- **Success Rate**: 75.0%" ++ Py.nl
        ++ Py.nl)
  /\ (exists w',
        generate_summary_report a43 output_dir w = (Py.Ok path, w')
        /\ Py.dict_get String.eqb (files w') path
           = Some (TextContent
                     (snd (write_overall_status a43 EmptyString)
                      ++ snd (write_summary_statistics a43 EmptyString)
                      ++ snd (write_sections a43 EmptyString))))
  /\ success_rate (Analysis.summary a0) = Py.Raise "division by zero"
  /\ write_summary_statistics a0 EmptyString
     = (Py.Ok tt,
        "## Summary Statistics" ++ Py.nl ++ Py.nl
        ++ "- **Total Gates**: 0" ++ Py.nl
        ++ "- **Passed Gates**: " ++ Py.str_int passed ++ Py.nl
        ++ failed_line
        ++ Py.nl)
  /\ (exists w',
        generate_summary_report a0 output_dir w = (Py.Ok path, w')
        /\ Py.dict_get String.eqb (files w') path
           = Some (TextContent
                     (snd (write_overall_status a0 EmptyString)
                      ++ snd (write_summary_statistics a0 EmptyString)
                      ++ snd (write_sections a0 EmptyString)))).
Proof.
  cbv zeta. split; [apply success_rate_three_of_four|].
  split; [rewrite summary_statistics_three_of_four, !append_assoc; reflexivity|].
  split; [apply generate_summary_report_text; simpl; lia|].
  split; [reflexivity|].
  split; [rewrite summary_statistics_no_gates, !append_assoc; reflexivity|].
  apply generate_summary_report_text. simpl. lia.
Qed.

(** ** The claims on the readers *)

(** C8: the tabular round trip.  A file written by [csv.writer] with the
    header a,b and the rows 1,x and 2.5,y is read back as two rows in file
    order; in each, column a holds the float (1.0, then 2.5: the text
    converts) and column b the string unchanged (the text does not
    convert).  The same holds when the lines end in a bare line feed. *)
Theorem csv_round_trip (path : string) (j : Py.result json) (w : world) :
  let one := S754_finite false 4503599627370496 (-52) in
  let two_and_a_half := S754_finite false 5629499534213120 (-51) in
  let rows :=
    [ [(Some "a", Csv.CFloat one); (Some "b", Csv.CStr "x")];
      [(Some "a", Csv.CFloat two_and_a_half); (Some "b", Csv.CStr "y")] ] in
  one = Py.float_of_int 1
  /\ two_and_a_half = Py.float_of_decimal false 25 (-1)
  /\ Py.float_of_string "1" = Some one
  /\ Py.float_of_string "x" = None
  /\ convert_cell (Csv.CStr "x") = Csv.CStr "x"
  /\ parse_csv_report
       {| f_path := path;
          f_data := Text (Csv.writerow ["a"; "b"] ++ Csv.writerow ["1"; "x"]
                          ++ Csv.writerow ["2.5"; "y"]);
          f_json := j |} w
     = (Py.Ok rows, w)
  /\ parse_csv_report
       {| f_path := path;
          f_data := Text ("a,b" ++ Py.nl ++ "1,x" ++ Py.nl ++ "2.5,y" ++ Py.nl);
          f_json := j |} w
     = (Py.Ok rows, w).
Proof.
  cbv zeta. repeat split; vm_compute; reflexivity.
Qed.

(** C5 as the specification states it does not hold for the CSV reader:
    when reading fails after rows were read, here on a third record whose
    field exceeds the field size limit of the [csv] module, the rows read
    before are returned, not an empty sequence. *)
Lemma readers_never_raise_counterexample :
  let f := {| f_path := "artifacts/frames.csv";
              f_data := Text ("fps" ++ Py.nl ++ "72" ++ Py.nl
                              ++ Py.repeat_char "9" (N.to_nat 131073) ++ Py.nl);
              f_json := Py.Raise "not JSON" |} in
  fst (parse_csv_report_try f []) = Py.Raise "field larger than field limit (131072)"
  /\ exists rows w',
       parse_csv_report f empty_world = (Py.Ok rows, w')
       /\ rows = [ [(Some "fps", Csv.CFloat (Py.float_of_int 72))] ]
       /\ rows <> [].
Proof.
  cbv zeta. split; [vm_compute; reflexivity|].
  eexists. eexists. split; [vm_compute; reflexivity|].
  split; [reflexivity | discriminate].
Qed.

Lemma fold_append_map {A B : Type} (g : A -> B) (l : list A) (acc : list B) :
  fold_left (fun data x => (data ++ [g x])%list) l acc = (acc ++ List.map g l)%list.
Proof.
  revert acc. induction l as [|x l IH]; intros acc; simpl.
  - rewrite List.app_nil_r. reflexivity.
  - rewrite IH, <- List.app_assoc. reflexivity.
Qed.

(** The rows [parse_csv_report] returns are those delivered before the
    failure, if any; none when the file cannot be opened. *)
Lemma csv_data_rows (f : file) :
  match open_lines f with
  | Py.Raise _ => csv_data f = []
  | Py.Ok lines => csv_data f = List.map convert_row (fst (Csv.DictReader lines))
  end.
Proof.
  unfold csv_data, parse_csv_report_try.
  destruct (open_lines f) as [lines|e]; [|reflexivity].
  rewrite bind_lift_ok. destruct (Csv.DictReader lines) as [rows failure]. unfold bind.
  rewrite (for_each_modify (fun row data => (data ++ [convert_row row])%list)).
  rewrite (fold_append_map convert_row rows []). simpl.
  destruct failure; reflexivity.
Qed.

(** C5, amended: no reader raises to its caller.  An exception in
    [parse_log_file] is printed and the result is the dictionary as it
    stood, the defaults when the file could not be read; an exception in
    [parse_csv_report] is printed and the rows read before it are
    returned, none when the file could not be opened; an exception in
    [parse_json_report] is printed and the empty object is returned; the
    aggregator returns the fold over every file found. *)
Theorem readers_never_raise (f : file) (w : world) (artifacts_dir now : string)
    (tree : list file) :
  let logged (kind e : string) :=
    {| console := List.app (console w)
                    ["Error parsing " ++ kind ++ " file " ++ f_path f ++ ": " ++ e];
       files := files w |} in
  match parse_log_file_try f default_results with
  | (Py.Ok _, results) => parse_log_file f w = (Py.Ok results, w)
  | (Py.Raise e, results) => parse_log_file f w = (Py.Ok results, logged "log" e)
  end
  /\ match read f with
     | Py.Ok _ => True
     | Py.Raise e => parse_log_file f w = (Py.Ok default_results, logged "log" e)
     end
  /\ match parse_csv_report_try f [] with
     | (Py.Ok _, data) => parse_csv_report f w = (Py.Ok data, w)
     | (Py.Raise e, data) => parse_csv_report f w = (Py.Ok data, logged "CSV" e)
     end
  /\ match open_lines f with
     | Py.Ok lines =>
         csv_data f = List.map convert_row (fst (Csv.DictReader lines))
     | Py.Raise e => parse_csv_report f w = (Py.Ok [], logged "CSV" e)
     end
  /\ match f_json f with
     | Py.Ok v => parse_json_report f w = (Py.Ok v, w)
     | Py.Raise e => parse_json_report f w = (Py.Ok (JObj []), logged "JSON" e)
     end
  /\ exists w',
       analyze_artifacts_directory artifacts_dir tree now w
       = (Py.Ok (final_analysis tree now), w').
Proof.
  cbv zeta. repeat split.
  - unfold parse_log_file.
    destruct (parse_log_file_try f default_results) as [[u|e] r]; reflexivity.
  - destruct (read f) as [content|e] eqn:Hread; [exact I|].
    unfold parse_log_file. rewrite (parse_log_file_try_unreadable f e Hread). reflexivity.
  - unfold parse_csv_report.
    destruct (parse_csv_report_try f []) as [[u|e] data]; reflexivity.
  - pose proof (csv_data_rows f) as Hrows.
    destruct (open_lines f) as [lines|e] eqn:Hopen; [exact Hrows|].
    unfold parse_csv_report, parse_csv_report_try. rewrite Hopen. reflexivity.
  - unfold parse_json_report. destruct (f_json f); reflexivity.
  - destruct (analyze_artifacts_directory_returns artifacts_dir tree now w) as [w' [H _]].
    exists w'. exact H.
Qed.

(** ** What a match of a pattern says about the text *)

Lemma startswith_split (s l : string) :
  Py.startswith s l = true -> s = l ++ Py.drop (String.length l) s.
Proof.
  revert s. induction l as [|a l IH]; intros s H; simpl.
  - destruct s; reflexivity.
  - destruct s as [|b s]; simpl in H; [discriminate|].
    apply andb_true_iff in H. destruct H as [Hab Hs].
    apply Ascii.eqb_eq in Hab. subst b. simpl. rewrite <- (IH s Hs). reflexivity.
Qed.

Lemma startswith_append (l rest : string) : Py.startswith (l ++ rest) l = true.
Proof.
  induction l as [|a l IH]; simpl.
  - destruct rest; reflexivity.
  - rewrite Ascii.eqb_refl. exact IH.
Qed.

Lemma contains_startswith (needle s : string) :
  Py.startswith s needle = true -> Py.contains needle s = true.
Proof. intros H. destruct s; cbn [Py.contains]; rewrite H; reflexivity. Qed.

Lemma contains_here (needle rest : string) : Py.contains needle (needle ++ rest) = true.
Proof. apply contains_startswith, startswith_append. Qed.

Lemma contains_later (needle pre s : string) :
  Py.contains needle s = true -> Py.contains needle (pre ++ s) = true.
Proof.
  intros H. induction pre as [|c pre IH]; [exact H|].
  change (String c pre ++ s) with (String c (pre ++ s)). cbn [Py.contains].
  destruct (Py.startswith (String c (pre ++ s)) needle); [reflexivity | exact IH].
Qed.

Lemma contains_inside (needle pre post : string) :
  Py.contains needle (pre ++ needle ++ post) = true.
Proof. apply contains_later, contains_here. Qed.

Lemma plus_splits_sound (cls : ascii -> bool) (s a b : string) :
  In (a, b) (Re.plus_splits cls s) ->
  s = a ++ b /\ a <> EmptyString /\ all_chars cls a = true.
Proof.
  revert a b. induction s as [|c s IH]; intros a b Hin; simpl in Hin; [destruct Hin|].
  destruct (cls c) eqn:Hc; [|destruct Hin].
  apply in_app_or in Hin. destruct Hin as [Hin|[Hin|[]]].
  - apply in_map_iff in Hin. destruct Hin as [[a' b'] [Heq Hin]].
    simpl in Heq. inversion Heq; subst. destruct (IH _ _ Hin) as (Hs & _ & Ha).
    repeat split; [simpl; rewrite <- Hs; reflexivity | discriminate |].
    simpl. rewrite Hc, Ha. reflexivity.
  - inversion Hin; subst. repeat split; [discriminate|]. simpl. rewrite Hc. reflexivity.
Qed.

Lemma splits_sound (a : Re.atom) (s piece rest : string) :
  In (piece, rest) (Re.splits a s) -> s = piece ++ rest /\ atom_accepts a piece.
Proof.
  destruct a as [l|cls|alts]; simpl.
  - unfold Re.lit_splits. destruct (Py.startswith s l) eqn:H; [|intros []].
    intros [Hin|[]]. inversion Hin; subst. split; [apply startswith_split, H | reflexivity].
  - intros Hin. destruct (plus_splits_sound _ _ _ _ Hin) as (Hs & Hne & Ha). auto.
  - intros Hin. apply in_flat_map in Hin. destruct Hin as [l [Hl Hin]].
    unfold Re.lit_splits in Hin. destruct (Py.startswith s l) eqn:H; [|destruct Hin].
    destruct Hin as [Hin|[]]. inversion Hin; subst.
    split; [apply startswith_split, H | exact Hl].
Qed.

Lemma first_some_found {A B : Type} (f : A -> option B) (l : list A) (b : B) :
  Re.first_some f l = Some b -> exists a, In a l /\ f a = Some b.
Proof.
  induction l as [|a l IH]; simpl; [discriminate|].
  destruct (f a) as [b'|] eqn:Hfa.
  - intros H. inversion H; subst. exists a. auto.
  - intros H. destruct (IH H) as [a' [Hin Ha']]. exists a'. auto.
Qed.

Lemma concat_cons (x : string) (l : list string) :
  String.concat EmptyString (x :: l) = x ++ String.concat EmptyString l.
Proof. destruct l; simpl; [rewrite append_nil_r|]; reflexivity. Qed.

(** A match consumes a prefix of the text that splits into one accepted
    piece per atom; the groups are the captured pieces. *)
Lemma match_here_sound (r : Re.regex) (s : string) (gs : list string) (fin : string) :
  Re.match_here r s = Some (gs, fin) ->
  exists pieces,
    Forall2 (fun ca piece => atom_accepts (snd ca) piece) r pieces
    /\ s = String.concat EmptyString pieces ++ fin
    /\ gs = captured r pieces.
Proof.
  revert s gs fin. induction r as [|[cap a] r IH]; intros s gs fin H; simpl in H.
  - inversion H; subst. exists []. repeat split. constructor.
  - apply first_some_found in H. destruct H as [[piece rest] [Hin H]]. simpl in H.
    destruct (Re.match_here r rest) as [[gs' fin']|] eqn:Hr; [|discriminate].
    inversion H; subst. destruct (IH _ _ _ Hr) as [pieces (Hacc & Hs & Hg)].
    destruct (splits_sound _ _ _ _ Hin) as [Hsplit Ha].
    exists (piece :: pieces). repeat split.
    + constructor; assumption.
    + rewrite Hsplit, Hs, concat_cons, append_assoc. reflexivity.
    + simpl. rewrite Hg. reflexivity.
Qed.

Lemma search_sound (r : Re.regex) (s : string) (gs : list string) :
  Re.search r s = Some gs ->
  exists pre suffix fin, s = pre ++ suffix /\ Re.match_here r suffix = Some (gs, fin).
Proof.
  induction s as [|c s IH]; simpl.
  - destruct (Re.match_here r "") as [[gs' fin]|] eqn:H; [|discriminate].
    intros E. inversion E; subst. exists "", "", fin. auto.
  - destruct (Re.match_here r (String c s)) as [[gs' fin]|] eqn:H.
    + intros E. inversion E; subst. exists "", (String c s), fin. auto.
    + intros E. destruct (IH E) as [pre [suffix [fin [Hs Hm]]]].
      exists (String c pre), suffix, fin. split; [simpl; rewrite Hs; reflexivity | exact Hm].
Qed.

Lemma finditer_from_sound (r : Re.regex) (s : string) (skip : nat) (gs : list string) :
  In gs (Re.finditer_from r skip s) ->
  exists pre suffix fin, s = pre ++ suffix /\ Re.match_here r suffix = Some (gs, fin).
Proof.
  revert skip. induction s as [|c s IH]; intros skip Hin.
  - destruct skip; simpl in Hin; [|destruct Hin].
    destruct (Re.match_here r "") as [[gs' fin]|] eqn:H; [|destruct Hin].
    destruct Hin as [E|[]]. subst. exists "", "", fin. auto.
  - destruct skip as [|k]; simpl in Hin.
    + destruct (Re.match_here r (String c s)) as [[gs' fin]|] eqn:H.
      * destruct Hin as [E|Hin].
        -- subst. exists "", (String c s), fin. auto.
        -- destruct (IH _ Hin) as [pre [suffix [fin' [Hs Hm]]]].
           exists (String c pre), suffix, fin'.
           split; [simpl; rewrite Hs; reflexivity | exact Hm].
      * destruct (IH _ Hin) as [pre [suffix [fin' [Hs Hm]]]].
        exists (String c pre), suffix, fin'.
        split; [simpl; rewrite Hs; reflexivity | exact Hm].
    + destruct (IH _ Hin) as [pre [suffix [fin' [Hs Hm]]]].
      exists (String c pre), suffix, fin'.
      split; [simpl; rewrite Hs; reflexivity | exact Hm].
Qed.

(** Every match [re.finditer] yields stands in the text. *)
Lemma finditer_sound (r : Re.regex) (s : string) (gs : list string) :
  In gs (Re.finditer r s) ->
  exists pre pieces fin,
    s = pre ++ String.concat EmptyString pieces ++ fin
    /\ Forall2 (fun ca piece => atom_accepts (snd ca) piece) r pieces
    /\ gs = captured r pieces.
Proof.
  intros Hin. destruct (finditer_from_sound _ _ _ _ Hin) as [pre [suffix [fin [Hs Hm]]]].
  destruct (match_here_sound _ _ _ _ Hm) as [pieces (Hacc & Hsuf & Hg)].
  exists pre, pieces, fin. subst. auto.
Qed.

(** ** Extracted values stand in the text *)

Lemma last_verdict_in (x : string) (l : list (string * bool)) (v : bool) :
  last_verdict x l = Some v -> In (x, v) l.
Proof.
  induction l as [|[k v'] l IH]; simpl; [discriminate|].
  destruct (last_verdict x l) as [v''|].
  - intros H. inversion H; subst. right. apply IH. reflexivity.
  - destruct (String.eqb x k) eqn:Hk; [|discriminate].
    apply String.eqb_eq in Hk. intros H. inversion H; subst. left. reflexivity.
Qed.

Lemma dict_of_get_in (l : list (string * bool)) (x : string) (v : bool) :
  Py.dict_get String.eqb (Py.dict_of String.eqb l) x = Some v -> In (x, v) l.
Proof.
  unfold Py.dict_of. rewrite dict_get_fold_set. simpl. intros H.
  apply last_verdict_in. destruct (last_verdict x l); [exact H | discriminate].
Qed.

(** What an occurrence of the gate pattern looks like. *)
Lemma gate_match_shape (content name : string) (v : bool) :
  In (name, v) (gate_matches content) ->
  exists pre tag fin,
    content = pre ++ "[" ++ tag ++ "] Gate '" ++ name ++ "': " ++ verdict_text v ++ fin
    /\ tag <> EmptyString /\ all_chars Py.isword tag = true
    /\ name <> EmptyString
    /\ all_chars (fun c => negb (Ascii.eqb c "'")) name = true.
Proof.
  unfold gate_matches. intros Hin. apply in_map_iff in Hin.
  destruct Hin as [m [Hm Hin]].
  destruct (finditer_sound _ _ _ Hin) as [pre [pieces [fin (Hs & Hacc & Hg)]]].
  unfold gate_pattern in Hacc, Hg.
  repeat match goal with
         | H : Forall2 _ (_ :: _) _ |- _ => inversion H; clear H; subst
         | H : Forall2 _ [] _ |- _ => inversion H; clear H; subst
         end.
  simpl in *.
  repeat match goal with
         | H : _ /\ _ |- _ => destruct H
         end.
  subst. unfold Re.group in Hm. simpl in Hm. inversion Hm; subst; clear Hm.
  match goal with
  | H : _ = ?y \/ _, Ht : ?t <> EmptyString, Hn : name <> EmptyString |- _ =>
      exists pre, t, fin; destruct H as [<-|[<-|[]]]
  end;
    (split; [simpl; repeat (rewrite append_assoc; simpl); reflexivity | auto]).
Qed.

(** The gate table of a log file holds only what the text shows: every
    name stored with a verdict stands in the text as
    [tag] Gate 'name': verdict, with a tag of word characters; the name is
    not empty and holds no apostrophe. *)
Theorem gates_come_from_text (f : file) (content name : string) (v : bool) :
  read f = Py.Ok content ->
  Py.dict_get String.eqb (Results.gates (log_results f)) name = Some v ->
  name <> EmptyString
  /\ all_chars (fun c => negb (Ascii.eqb c "'")) name = true
  /\ exists tag,
       tag <> EmptyString
       /\ all_chars Py.isword tag = true
       /\ Py.contains ("[" ++ tag ++ "] Gate '" ++ name ++ "': " ++ verdict_text v)
            content = true.
Proof.
  intros Hread Hget. rewrite (log_results_text f content Hread) in Hget.
  apply dict_of_get_in in Hget.
  destruct (gate_match_shape _ _ _ Hget) as [pre [tag [fin (Hs & Ht & Hw & Hn & Hq)]]].
  split; [exact Hn|]. split; [exact Hq|]. exists tag. split; [exact Ht|]. split; [exact Hw|].
  rewrite Hs.
  replace ("[" ++ tag ++ "] Gate '" ++ name ++ "': " ++ verdict_text v ++ fin)
    with (("[" ++ tag ++ "] Gate '" ++ name ++ "': " ++ verdict_text v) ++ fin).
  - apply contains_inside.
  - simpl. repeat (rewrite append_assoc; simpl). reflexivity.
Qed.

Lemma gates_come_from_text_witness :
  exists tag,
    tag <> EmptyString
    /\ all_chars Py.isword tag = true
    /\ Py.contains ("[" ++ tag ++ "] Gate '" ++ "memory" ++ "': " ++ verdict_text false)
         scenario_log = true.
Proof.
  apply (gates_come_from_text
           {| f_path := "artifacts/unity.log"; f_data := Text scenario_log;
              f_json := Py.Raise "not JSON" |} scenario_log "memory" false);
    reflexivity.
Defined.

(** The longest run is tried first: what it leaves starts outside the
    class. *)
Lemma plus_splits_first (cls : ascii -> bool) (s a b : string)
    (others : list (string * string)) :
  Re.plus_splits cls s = (a, b) :: others ->
  b = EmptyString \/ exists c rest, b = String c rest /\ cls c = false.
Proof.
  revert a b others. induction s as [|c s IH]; intros a b others H; simpl in H;
    [discriminate|].
  destruct (cls c) eqn:Hc; [|discriminate].
  destruct (Re.plus_splits cls s) as [|[a' b'] tl] eqn:Hs; simpl in H.
  - inversion H; subst. destruct b as [|d rest]; [left; reflexivity|].
    right. exists d, rest. split; [reflexivity|].
    simpl in Hs. destruct (cls d); [|reflexivity].
    destruct (List.map _ _); discriminate.
  - inversion H; subst. eapply IH. reflexivity.
Qed.

Lemma build_id_match_shape (s : string) (gs : list string) (fin : string) :
  Re.match_here build_id_pattern s = Some (gs, fin) ->
  exists id,
    gs = [id]
    /\ s = "Build ID: " ++ id ++ fin
    /\ id <> EmptyString
    /\ all_chars (fun c => negb (Py.isspace c)) id = true
    /\ (fin = EmptyString \/ exists c rest, fin = String c rest /\ Py.isspace c = true).
Proof.
  unfold build_id_pattern. cbn [Re.match_here Re.splits]. unfold Re.lit_splits.
  destruct (Py.startswith s "Build ID: ") eqn:Hstart; [|discriminate].
  apply startswith_split in Hstart. cbn [Re.first_some snd fst].
  remember (Py.drop (String.length "Build ID: ") s) as rest eqn:Hr. clear Hr.
  set (cls := fun c => negb (Py.isspace c || Ascii.eqb c Py.LF)).
  assert (Hcls : forall c, cls c = negb (Py.isspace c)).
  { intros c. unfold cls. destruct (Ascii.eqb c Py.LF) eqn:E.
    - apply Ascii.eqb_eq in E. subst c. reflexivity.
    - rewrite orb_false_r. reflexivity. }
  destruct (Re.plus_splits cls rest) as [|[a b] tl] eqn:Hsplits; [discriminate|].
  cbn [Re.first_some snd fst]. intros H. inversion H; subst; clear H.
  assert (Hin : In (a, fin) (Re.plus_splits cls rest)) by (rewrite Hsplits; left; reflexivity).
  destruct (plus_splits_sound _ _ _ _ Hin) as (Hrest & Hne & Hall).
  exists a. split; [reflexivity|]. split; [subst; reflexivity|].
  split; [exact Hne|]. split.
  - clear -Hall Hcls. induction a as [|c a IH]; [reflexivity|].
    simpl in *. apply andb_true_iff in Hall. destruct Hall as [Hc Ha].
    rewrite <- Hcls, Hc. apply IH, Ha.
  - destruct (plus_splits_first _ _ _ _ _ Hsplits) as [->|[c [r [-> Hc]]]]; [left; reflexivity|].
    right. exists c, r. split; [reflexivity|]. rewrite Hcls in Hc.
    destruct (Py.isspace c); [reflexivity | discriminate].
Qed.

(** The build id of a log file is the default only when the pattern is
    nowhere in the text; otherwise it is a whole token of the text: it
    follows "Build ID: ", is not empty, holds no white space and runs up to
    the next white space or the end of the text. *)
Theorem build_id_is_a_token (f : file) (content : string) :
  read f = Py.Ok content ->
  let id := Results.build_id (log_results f) in
  match Re.search build_id_pattern content with
  | None => id = "unknown"
  | Some _ =>
      id <> EmptyString
      /\ all_chars (fun c => negb (Py.isspace c)) id = true
      /\ exists pre fin,
           content = pre ++ "Build ID: " ++ id ++ fin
           /\ (fin = EmptyString \/ exists c rest, fin = String c rest /\ Py.isspace c = true)
  end
  /\ (Py.contains "Build ID: " content = false -> id = "unknown").
Proof.
  intros Hread. cbv zeta. rewrite (log_results_text f content Hread).
  cbn [results_of_text Results.build_id]. unfold build_id_of.
  destruct (Re.search build_id_pattern content) as [m|] eqn:Hsearch.
  - destruct (search_sound _ _ _ Hsearch) as [pre [suffix [fin [Hs Hm]]]].
    destruct (build_id_match_shape _ _ _ Hm) as [id (Hg & Hsuf & Hne & Hall & Hfin)].
    subst m. unfold Re.group. cbn [nth Nat.sub].
    split.
    + split; [exact Hne|]. split; [exact Hall|]. exists pre, fin.
      split; [rewrite Hs, Hsuf; reflexivity | exact Hfin].
    + intros Hnone. exfalso. rewrite Hs, Hsuf in Hnone.
      change ("Build ID: " ++ id ++ fin) with ("Build ID: " ++ (id ++ fin)) in Hnone.
      rewrite contains_inside in Hnone. discriminate.
  - split; [reflexivity | intros _; reflexivity].
Qed.

Lemma build_id_is_a_token_witness :
  Results.build_id
    (log_results {| f_path := "artifacts/unity.log";
                    f_data := Text ("[ci] Gate 'fps': PASS" ++ Py.nl);
                    f_json := Py.Raise "not JSON" |}) = "unknown".
Proof.
  apply (build_id_is_a_token
           {| f_path := "artifacts/unity.log";
              f_data := Text ("[ci] Gate 'fps': PASS" ++ Py.nl);
              f_json := Py.Raise "not JSON" |}
           ("[ci] Gate 'fps': PASS" ++ Py.nl) eq_refl).
  reflexivity.
Defined.

(** ** Which number parts convert *)

Lemma digit_or_dot_cases (c : ascii) :
  digit_or_dot c = true ->
  Py.isdigit c = true /\ c <> "."%char /\ Py.isspace_float c = false
    /\ Ascii.eqb c "_" = false /\ Ascii.eqb "_" c = false
  \/ c = "."%char.
Proof.
  destruct c as [b0 b1 b2 b3 b4 b5 b6 b7].
  destruct b0, b1, b2, b3, b4, b5, b6, b7; vm_compute; intros H;
    try discriminate H;
    first [ right; reflexivity
          | left; repeat split; try reflexivity; discriminate ].
Qed.

Lemma digit_cases (c : ascii) :
  Py.isdigit c = true ->
  c = "0"%char \/ c = "1"%char \/ c = "2"%char \/ c = "3"%char \/ c = "4"%char
  \/ c = "5"%char \/ c = "6"%char \/ c = "7"%char \/ c = "8"%char \/ c = "9"%char.
Proof.
  destruct c as [b0 b1 b2 b3 b4 b5 b6 b7].
  destruct b0, b1, b2, b3, b4, b5, b6, b7; vm_compute; intros H;
    try discriminate H; tauto.
Qed.

Lemma all_chars_app (p : ascii -> bool) (a b : string) :
  all_chars p (a ++ b) = (all_chars p a && all_chars p b)%bool.
Proof.
  induction a as [|c a IH]; simpl; [reflexivity|].
  rewrite IH, andb_assoc. reflexivity.
Qed.

Lemma any_char_app (p : ascii -> bool) (a b : string) :
  any_char p (a ++ b) = (any_char p a || any_char p b)%bool.
Proof.
  induction a as [|c a IH]; simpl; [reflexivity|].
  rewrite IH, orb_assoc. reflexivity.
Qed.

Lemma count_char_app (c : ascii) (a b : string) :
  count_char c (a ++ b) = (count_char c a + count_char c b)%nat.
Proof.
  induction a as [|d a IH]; simpl; [reflexivity|].
  rewrite IH. destruct (Ascii.eqb c d); reflexivity.
Qed.

Lemma span_spec (p : ascii -> bool) (s : string) :
  s = fst (Py.span p s) ++ snd (Py.span p s)
  /\ all_chars p (fst (Py.span p s)) = true
  /\ (snd (Py.span p s) = EmptyString
      \/ exists c r, snd (Py.span p s) = String c r /\ p c = false).
Proof.
  induction s as [|c s IH]; simpl.
  - repeat split. left. reflexivity.
  - destruct (p c) eqn:Hc.
    + destruct (Py.span p s) as [a b]. simpl in *.
      destruct IH as (Hs & Ha & Hb). rewrite <- Hs, Hc, Ha. repeat split. exact Hb.
    + simpl. repeat split. right. exists c, s. auto.
Qed.

Lemma digits_no_dot (s : string) :
  all_chars Py.isdigit s = true ->
  count_char "." s = O /\ any_char Py.isdigit s = negb (String.eqb s EmptyString).
Proof.
  induction s as [|c s IH]; [simpl; auto|].
  cbn [all_chars count_char any_char].
  intros H. apply andb_true_iff in H. destruct H as [Hc Hs].
  rewrite Hc. destruct (IH Hs) as [H0 _]. split; [|reflexivity].
  destruct (Ascii.eqb "." c) eqn:E; [|exact H0].
  apply Ascii.eqb_eq in E. subst c. discriminate Hc.
Qed.

Lemma rev_onto_twice (s a b : string) :
  Py.rev_onto (Py.rev_onto s a) b = Py.rev_onto a (s ++ b).
Proof.
  revert a. induction s as [|c s IH]; intros a; simpl; [reflexivity|].
  rewrite IH. reflexivity.
Qed.

Lemma rev_rev (s : string) : Py.rev (Py.rev s) = s.
Proof. unfold Py.rev. rewrite rev_onto_twice. simpl. apply append_nil_r. Qed.

Lemma all_chars_rev_onto (p : ascii -> bool) (s acc : string) :
  all_chars p (Py.rev_onto s acc) = (all_chars p s && all_chars p acc)%bool.
Proof.
  revert acc. induction s as [|c s IH]; intros acc; simpl; [reflexivity|].
  rewrite IH. simpl. destruct (p c), (all_chars p s); reflexivity.
Qed.

Lemma drop_while_none (p : ascii -> bool) (s : string) :
  all_chars (fun c => negb (p c)) s = true -> Py.drop_while p s = s.
Proof.
  destruct s as [|c s]; simpl; [reflexivity|].
  destruct (p c); [discriminate | reflexivity].
Qed.

(** Without white space at either end nothing is stripped. *)
Lemma strip_float_none (s : string) :
  all_chars (fun c => negb (Py.isspace_float c)) s = true -> Py.strip_float s = s.
Proof.
  intros H. unfold Py.strip_float.
  rewrite (drop_while_none _ s H).
  rewrite drop_while_none; [apply rev_rev|].
  unfold Py.rev. rewrite all_chars_rev_onto, H. reflexivity.
Qed.

Lemma all_chars_weaken (p q : ascii -> bool) (s : string) :
  (forall c, p c = true -> q c = true) ->
  all_chars p s = true -> all_chars q s = true.
Proof.
  intros Hpq. induction s as [|c s IH]; simpl; [reflexivity|].
  intros H. apply andb_true_iff in H. destruct H as [Hc Hs].
  rewrite (Hpq c Hc), (IH Hs). reflexivity.
Qed.

Lemma digit_or_dot_no_space (c : ascii) :
  digit_or_dot c = true -> negb (Py.isspace_float c) = true.
Proof.
  intros H. destruct (digit_or_dot_cases c H) as [(_ & _ & Hs & _)| ->].
  - rewrite Hs. reflexivity.
  - reflexivity.
Qed.

Lemma no_underscore (s : string) :
  all_chars digit_or_dot s = true -> Py.has_char "_" s = false.
Proof.
  induction s as [|c s IH]; simpl; [reflexivity|].
  intros H. apply andb_true_iff in H. destruct H as [Hc Hs].
  rewrite (IH Hs), orb_false_r.
  destruct (digit_or_dot_cases c Hc) as [(_ & _ & _ & _ & Hu)| ->]; [exact Hu | reflexivity].
Qed.

(** What is left after a run of digits starts with a point. *)
Lemma after_digits (s : string) :
  all_chars digit_or_dot s = true ->
  snd (Py.span Py.isdigit s) = EmptyString
  \/ exists r, snd (Py.span Py.isdigit s) = String "." r /\ all_chars digit_or_dot r = true.
Proof.
  intros H. destruct (span_spec Py.isdigit s) as (Hs & Ha & [Hb|[c [r [Hb Hc]]]]).
  - left. exact Hb.
  - right. rewrite Hs, all_chars_app, Hb in H. apply andb_true_iff in H.
    destruct H as [_ H]. simpl in H. apply andb_true_iff in H. destruct H as [Hdd Hr].
    destruct (digit_or_dot_cases c Hdd) as [(Hd & _)| ->].
    + rewrite Hd in Hc. discriminate.
    + exists r. rewrite Hb. auto.
Qed.

Lemma parse_decimal_number (t : string) :
  all_chars digit_or_dot t = true ->
  is_some (Py.parse_decimal t) = well_formed_number t.
Proof.
  intros Ht. unfold Py.parse_decimal, well_formed_number.
  destruct (span_spec Py.isdigit t) as (Hs & Ha & _).
  destruct (after_digits t Ht) as [Hb|[r [Hb Hr]]].
  - destruct (Py.span Py.isdigit t) as [ip r1]. simpl in *. subst r1.
    rewrite append_nil_r in Hs. subst ip.
    destruct (digits_no_dot t Ha) as [H0 Hany]. rewrite H0, Hany.
    rewrite Nat.add_0_r. destruct t; reflexivity.
  - destruct (Py.span Py.isdigit t) as [ip r1]. simpl in Hs, Ha, Hb. subst r1.
    destruct (span_spec Py.isdigit r) as (Hs2 & Ha2 & _).
    destruct (after_digits r Hr) as [Hb2|[r' [Hb2 Hr']]].
    + destruct (Py.span Py.isdigit r) as [fp r2]. simpl in *. subst r2.
      rewrite append_nil_r in Hs2. subst fp.
      destruct (digits_no_dot ip Ha) as [H0 Hany]. destruct (digits_no_dot r Ha2) as [H0' Hany'].
      rewrite Hs, count_char_app, any_char_app. simpl. rewrite H0, H0', Hany, Hany'.
      destruct ip, r; reflexivity.
    + destruct (Py.span Py.isdigit r) as [fp r2]. simpl in Hs2, Ha2, Hb2. subst r2.
      rewrite Hs, count_char_app. simpl. rewrite Hs2, count_char_app. simpl.
      replace (Nat.leb (count_char "." ip + S (count_char "." fp + S (count_char "." r'))) 1)
        with false by (symmetry; apply Nat.leb_gt; lia).
      destruct (String.length ip + String.length fp =? 0)%nat; reflexivity.
Qed.

(** For a number part, a run of digits and points, [float] succeeds
    exactly when it holds at most one point and at least one digit. *)
Lemma float_of_number_part (t : string) :
  all_chars digit_or_dot t = true ->
  is_some (Py.float_of_string t) = well_formed_number t.
Proof.
  intros Ht. rewrite <- (parse_decimal_number t Ht).
  unfold Py.float_of_string.
  rewrite strip_float_none by (apply (all_chars_weaken digit_or_dot); [apply digit_or_dot_no_space | exact Ht]).
  pose proof (no_underscore t Ht) as Hu.
  destruct t as [|c t']; [reflexivity|].
  simpl in Ht. apply andb_true_iff in Ht. destruct Ht as [Hc _].
  assert (Hhead : c = "."%char \/ Py.isdigit c = true).
  { destruct (digit_or_dot_cases c Hc) as [(Hd & _)| ->]; auto. }
  destruct Hhead as [->|Hd];
    [|destruct (digit_cases c Hd) as [->|[->|[->|[->|[->|[->|[->|[->|[->| ->]]]]]]]]]];
    cbv beta iota zeta; rewrite Hu;
    cbn [Py.lowercase list_ascii_of_string List.map string_of_list_ascii
         String.eqb Ascii.eqb Bool.eqb Py.lower Py.between Py.code orb andb];
    destruct (Py.parse_decimal _) as [[m e]|]; reflexivity.
Qed.

(** The number part of an occurrence of the metric pattern is a run of
    digits and points. *)
Lemma metric_number_part (content : string) (m : list string) :
  In m (Re.finditer metrics_pattern content) ->
  all_chars digit_or_dot (Re.group m 2) = true.
Proof.
  intros Hin.
  destruct (finditer_sound _ _ _ Hin) as [pre [pieces [fin (Hs & Hacc & Hg)]]].
  unfold metrics_pattern in Hacc, Hg.
  repeat match goal with
         | H : Forall2 _ (_ :: _) _ |- _ => inversion H; clear H; subst
         | H : Forall2 _ [] _ |- _ => inversion H; clear H; subst
         end.
  simpl in *.
  repeat match goal with
         | H : _ /\ _ |- _ => destruct H
         end.
  assumption.
Qed.

Lemma metrics_from_some (ms : list (list string)) :
  (forall m, In m ms -> all_chars digit_or_dot (Re.group m 2) = true) ->
  forall acc,
    is_some (metrics_from ms acc)
    = forallb (fun m => well_formed_number (Re.group m 2)) ms.
Proof.
  induction ms as [|m ms IH]; intros Hall acc; [reflexivity|].
  simpl. rewrite <- (float_of_number_part _ (Hall m (or_introl eq_refl))).
  destruct (Py.float_of_string (Re.group m 2)); [|reflexivity].
  simpl. apply IH. intros m' Hm'. apply Hall. right. exact Hm'.
Qed.

(** The result of a readable log file has the ['metrics'] key exactly
    when every occurrence of the metric pattern has a number part with at
    most one point and at least one digit: one number part such as 1.2.3
    or a lone point anywhere in the text removes all the metrics. *)
Theorem metrics_key_iff_numbers_well_formed (f : file) (content : string) :
  read f = Py.Ok content ->
  is_some (Results.metrics (log_results f))
  = forallb (fun m => well_formed_number (Re.group m 2))
      (Re.finditer metrics_pattern content).
Proof.
  intros Hread. rewrite (log_results_text f content Hread).
  unfold results_of_text. cbn [Results.metrics].
  apply metrics_from_some. intros m. apply metric_number_part.
Qed.

Lemma metrics_key_iff_numbers_well_formed_witness :
  is_some (Results.metrics
             (log_results {| f_path := "build.log";
                             f_data := Text ("fps: 72.5" ++ Py.nl ++ "version: 1.2.3" ++ Py.nl);
                             f_json := Py.Raise "not JSON" |}))
  = false.
Proof.
  rewrite (metrics_key_iff_numbers_well_formed _
             ("fps: 72.5" ++ Py.nl ++ "version: 1.2.3" ++ Py.nl)); reflexivity.
Defined.

(** ** The exit code and the gate lines of the logs *)

Lemma dict_in_get {V : Type} (d : Py.dict string V) (x : string) (v : V) :
  NoDup (List.map fst d) -> In (x, v) d -> Py.dict_get String.eqb d x = Some v.
Proof.
  induction d as [|[k u] d IH]; intros Hnd Hin; [destruct Hin|].
  simpl in *. inversion Hnd as [|? ? Hk Hd]; subst.
  destruct Hin as [Heq|Hin].
  - inversion Heq; subst. rewrite String.eqb_refl. reflexivity.
  - destruct (String.eqb x k) eqn:E.
    + apply String.eqb_eq in E. subst k. exfalso. apply Hk.
      apply in_map_iff. exists (x, v). auto.
    + apply IH; assumption.
Qed.

(** The entries of a dictionary built from pairs are among the pairs. *)
Lemma dict_of_in (l : list (string * bool)) (x : string) (v : bool) :
  In (x, v) (Py.dict_of String.eqb l) -> In (x, v) l.
Proof.
  intros Hin. apply dict_of_get_in. apply dict_in_get; [apply dict_of_unique | exact Hin].
Qed.

Lemma fails_none (l : list (string * bool)) :
  fails l = O -> forall x v, In (x, v) l -> v = true.
Proof.
  unfold fails. induction l as [|[k u] l IH]; intros H x v Hin; [destruct Hin|].
  simpl in H. destruct u; simpl in H; [|discriminate].
  destruct Hin as [Heq|Hin]; [inversion Heq; reflexivity | apply (IH H x v Hin)].
Qed.

Lemma fails_some (l : list (string * bool)) :
  (0 < fails l)%nat -> exists x, In (x, false) l.
Proof.
  unfold fails. induction l as [|[k u] l IH]; simpl; intros H; [lia|].
  destruct u; simpl in H.
  - destruct (IH H) as [x Hx]. exists x. right. exact Hx.
  - exists k. left. reflexivity.
Qed.

(** The log files visited are files of the tree whose name ends in
    [.log]. *)
Lemma log_files_in (tree : list file) (f : file) :
  In f (log_files tree) ->
  In f tree /\ Py.endswith (basename (f_path f)) ".log" = true.
Proof.
  unfold log_files, glob_name, glob_suffix. intros Hin.
  apply in_app_or in Hin. destruct Hin as [Hin|Hin]; apply filter_In in Hin;
    destruct Hin as [Hin Hn]; (split; [exact Hin|]).
  - apply String.eqb_eq in Hn. rewrite Hn. reflexivity.
  - exact Hn.
Qed.

(** An entry of the gate table of a log file is a line of its text. *)
Lemma gate_entry_in_text (f : file) (name : string) (v : bool) :
  In (name, v) (Results.gates (log_results f)) ->
  exists content tag,
    read f = Py.Ok content
    /\ Py.contains ("[" ++ tag ++ "] Gate '" ++ name ++ "': " ++ verdict_text v) content = true.
Proof.
  intros Hin. destruct (read f) as [content|e] eqn:Hread.
  - rewrite (log_results_text f content Hread) in Hin. cbn [results_of_text Results.gates] in Hin.
    apply dict_of_in in Hin.
    destruct (gate_match_shape _ _ _ Hin) as [pre [tag [fin (Hs & _)]]].
    exists content, tag. split; [reflexivity|]. rewrite Hs.
    replace ("[" ++ tag ++ "] Gate '" ++ name ++ "': " ++ verdict_text v ++ fin)
      with (("[" ++ tag ++ "] Gate '" ++ name ++ "': " ++ verdict_text v) ++ fin).
    + apply contains_inside.
    + simpl. repeat (rewrite append_assoc; simpl). reflexivity.
  - rewrite (log_results_unreadable f e Hread) in Hin. destruct Hin.
Qed.

Lemma json_path_kept (output_dir : string) (a : Analysis.t) (fs : Py.dict string content) :
  Py.dict_get String.eqb (output_files output_dir a fs)
    (path_join output_dir "full-analysis.json")
  = Some (JsonDump a).
Proof.
  unfold output_files. destruct (Csv.is_empty (Analysis.gates a)).
  - apply dict_get_set_same.
  - rewrite dict_get_set. unfold path_join. rewrite eqb_append_l.
    change (String.eqb ("/" ++ "full-analysis.json") ("/" ++ "gate-results.csv")) with false.
    apply dict_get_set_same.
Qed.

(** Exit code 0: the analysis dumped to [full-analysis.json] counts no
    failed gate and every gate of its table passes. *)
Theorem exit_zero_gates_all_pass (artifacts_dir output_dir now : string)
    (tree : list file) (w w' : world) :
  main artifacts_dir output_dir (Some tree) now w = (Py.Ok 0, w') ->
  exists a,
    Py.dict_get String.eqb (files w') (path_join output_dir "full-analysis.json")
    = Some (JsonDump a)
    /\ Summary.failed_gates (Analysis.summary a) = 0
    /\ forall x v, In (x, v) (Analysis.gates a) -> v = true.
Proof.
  intros Hrun.
  destruct (main_runs artifacts_dir output_dir tree now w) as [w1 [Hmain Hfiles]].
  rewrite Hmain in Hrun.
  pose proof (final_analysis_counters tree now) as (_ & _ & Hf). cbv zeta in Hf.
  destruct (0 <? Summary.failed_gates (Analysis.summary (final_analysis tree now))) eqn:E;
    inversion Hrun; subst w1.
  apply Z.ltb_ge in E.
  assert (Hnone : fails (folded_entries tree) = O) by lia.
  exists (final_analysis tree now). split; [rewrite Hfiles; apply json_path_kept|].
  split; [lia|].
  intros x v Hin.
  destruct (final_analysis_summary tree now) as [_ Hg]. rewrite Hg in Hin.
  pose proof (merged_logs_fields tree now) as (Hd & _). cbv zeta in Hd. rewrite Hd in Hin.
  apply dict_of_in in Hin. apply (fails_none _ Hnone x v Hin).
Qed.

Lemma exit_zero_gates_all_pass_witness :
  exists a,
    Py.dict_get String.eqb
      (files (snd (main "artifacts" "out"
                     (Some [ {| f_path := "artifacts/unity.log";
                                f_data := Text ("[ci] Gate 'fps': PASS" ++ Py.nl);
                                f_json := Py.Raise "not JSON" |} ])
                     "2024-01-01T00:00:00" empty_world)))
      (path_join "out" "full-analysis.json")
    = Some (JsonDump a)
    /\ Summary.failed_gates (Analysis.summary a) = 0
    /\ forall x v, In (x, v) (Analysis.gates a) -> v = true.
Proof.
  apply (exit_zero_gates_all_pass "artifacts" "out" "2024-01-01T00:00:00"
           [ {| f_path := "artifacts/unity.log";
                f_data := Text ("[ci] Gate 'fps': PASS" ++ Py.nl);
                f_json := Py.Raise "not JSON" |} ] empty_world).
  vm_compute. reflexivity.
Defined.

(** Exit code 1 with an artifacts directory: some file of the tree whose
    name ends in [.log] could be read and its text holds a gate line that
    reads FAIL. *)
Theorem exit_one_fail_line_in_a_log (artifacts_dir output_dir now : string)
    (tree : list file) (w w' : world) :
  main artifacts_dir output_dir (Some tree) now w = (Py.Ok 1, w') ->
  exists f content name tag,
    In f tree
    /\ Py.endswith (basename (f_path f)) ".log" = true
    /\ read f = Py.Ok content
    /\ Py.contains ("[" ++ tag ++ "] Gate '" ++ name ++ "': FAIL") content = true.
Proof.
  intros Hrun.
  destruct (main_runs artifacts_dir output_dir tree now w) as [w1 [Hmain _]].
  rewrite Hmain in Hrun.
  pose proof (final_analysis_counters tree now) as (_ & _ & Hf). cbv zeta in Hf.
  destruct (0 <? Summary.failed_gates (Analysis.summary (final_analysis tree now))) eqn:E;
    inversion Hrun; subst w1.
  apply Z.ltb_lt in E.
  destruct (fails_some (folded_entries tree)) as [name Hin]; [lia|].
  unfold folded_entries in Hin. apply in_flat_map in Hin. destruct Hin as [f [Hf' Hin]].
  destruct (log_files_in tree f Hf') as [Htree Hname].
  destruct (gate_entry_in_text f name false Hin) as [content [tag [Hread Hc]]].
  exists f, content, name, tag. auto.
Qed.

Lemma exit_one_fail_line_in_a_log_witness :
  exists f content name tag,
    In f [ {| f_path := "artifacts/unity.log";
              f_data := Text ("[ci] Gate 'fps': FAIL" ++ Py.nl);
              f_json := Py.Raise "not JSON" |} ]
    /\ Py.endswith (basename (f_path f)) ".log" = true
    /\ read f = Py.Ok content
    /\ Py.contains ("[" ++ tag ++ "] Gate '" ++ name ++ "': FAIL") content = true.
Proof.
  apply (exit_one_fail_line_in_a_log "artifacts" "out" "2024-01-01T00:00:00"
           [ {| f_path := "artifacts/unity.log";
                f_data := Text ("[ci] Gate 'fps': FAIL" ++ Py.nl);
                f_json := Py.Raise "not JSON" |} ] empty_world
           (snd (main "artifacts" "out"
                   (Some [ {| f_path := "artifacts/unity.log";
                              f_data := Text ("[ci] Gate 'fps': FAIL" ++ Py.nl);
                              f_json := Py.Raise "not JSON" |} ])
                   "2024-01-01T00:00:00" empty_world))).
  vm_compute. reflexivity.
Defined.

(** ** The file found by both patterns *)

Lemma glob_name_in_suffix (tree : list file) (f : file) :
  In f (glob_name "performance-gates.log" tree) -> In f (glob_suffix ".log" tree).
Proof.
  unfold glob_name, glob_suffix. intros Hin. apply filter_In in Hin.
  destruct Hin as [Hin Hn]. apply filter_In. split; [exact Hin|].
  apply String.eqb_eq in Hn. rewrite Hn. reflexivity.
Qed.

Lemma occurs_flat_map {A : Type} (x : string) (g : A -> list (string * bool)) (l : list A) :
  occurs x (List.flat_map g l) = List.existsb (fun a => occurs x (g a)) l.
Proof.
  unfold occurs. induction l as [|a l IH]; simpl; [reflexivity|].
  rewrite List.existsb_app, IH. reflexivity.
Qed.

Lemma dict_get_dict_of (l : list (string * bool)) (x : string) :
  Py.dict_get String.eqb (Py.dict_of String.eqb l) x = last_verdict x l.
Proof.
  unfold Py.dict_of. rewrite dict_get_fold_set. simpl.
  destruct (last_verdict x l); reflexivity.
Qed.

(** A file named [performance-gates.log] is parsed a second time by the
    loop over [*.log]: the verdicts stored are those of one pass over the
    [*.log] files alone, while each counter is the sum over both passes. *)
Theorem performance_gates_log_counted_twice (artifacts_dir : string) (tree : list file)
    (now : string) (w : world) :
  let entries := List.flat_map (fun f => Results.gates (log_results f)) in
  let once := entries (glob_suffix ".log" tree) in
  let again := entries (glob_name "performance-gates.log" tree) in
  exists a w',
    analyze_artifacts_directory artifacts_dir tree now w = (Py.Ok a, w')
    /\ (forall x, Py.dict_get String.eqb (Analysis.gates a) x = last_verdict x once)
    /\ Summary.total_gates (Analysis.summary a)
       = Z.of_nat (List.length once) + Z.of_nat (List.length again)
    /\ Summary.passed_gates (Analysis.summary a)
       = Z.of_nat (passes once) + Z.of_nat (passes again)
    /\ Summary.failed_gates (Analysis.summary a)
       = Z.of_nat (fails once) + Z.of_nat (fails again).
Proof.
  cbv zeta.
  destruct (analyze_artifacts_directory_returns artifacts_dir tree now w) as [w' [Hrun _]].
  exists (final_analysis tree now), w'. split; [exact Hrun|].
  pose proof (final_analysis_counters tree now) as (Ht & Hp & Hf). cbv zeta in Ht, Hp, Hf.
  destruct (final_analysis_summary tree now) as [_ Hg].
  pose proof (merged_logs_fields tree now) as (Hd & _). cbv zeta in Hd.
  assert (Hsplit : folded_entries tree
                   = (List.flat_map (fun f => Results.gates (log_results f))
                        (glob_name "performance-gates.log" tree)
                      ++ List.flat_map (fun f => Results.gates (log_results f))
                           (glob_suffix ".log" tree))%list).
  { unfold folded_entries, log_files. apply List.flat_map_app. }
  split; [|rewrite Ht, Hp, Hf, Hsplit, List.length_app, passes_app, fails_app; lia].
  intros x. rewrite Hg, Hd, dict_get_dict_of, Hsplit, last_verdict_app.
  destruct (last_verdict x (List.flat_map _ (glob_suffix ".log" tree))) eqn:Honce;
    [reflexivity|].
  destruct (last_verdict x (List.flat_map _ (glob_name "performance-gates.log" tree)))
    eqn:Hagain; [|reflexivity].
  exfalso.
  assert (Ho : occurs x (List.flat_map (fun f => Results.gates (log_results f))
                           (glob_name "performance-gates.log" tree)) = true)
    by (rewrite last_verdict_occurs, Hagain; reflexivity).
  rewrite occurs_flat_map in Ho. apply List.existsb_exists in Ho.
  destruct Ho as [f [Hf' Hx]].
  assert (Ho' : occurs x (List.flat_map (fun f => Results.gates (log_results f))
                            (glob_suffix ".log" tree)) = true).
  { rewrite occurs_flat_map. apply List.existsb_exists. exists f.
    split; [apply glob_name_in_suffix, Hf' | exact Hx]. }
  rewrite last_verdict_occurs, Honce in Ho'. discriminate.
Qed.

(** ** The CSV and JSON loops of the aggregator *)

Lemma merge_log_rest (a : Analysis.t) (r : Results.t) :
  Analysis.performance_data (merge_log a r) = Analysis.performance_data a
  /\ Analysis.reports (merge_log a r) = Analysis.reports a.
Proof.
  unfold merge_log.
  destruct (merge_gate_fold (Results.gates r) a) as (_ & _ & _ & _ & _ & _ & Hp & Hr).
  cbv zeta in Hp, Hr.
  destruct (Results.overall_success r); simpl; auto.
Qed.

Lemma merged_logs_rest (tree : list file) (now : string) :
  Analysis.performance_data (merged_logs tree now) = []
  /\ Analysis.reports (merged_logs tree now) = [].
Proof.
  unfold merged_logs.
  assert (H : forall rs a,
             Analysis.performance_data (fold_left merge_log rs a)
             = Analysis.performance_data a
             /\ Analysis.reports (fold_left merge_log rs a) = Analysis.reports a).
  { induction rs as [|r rs IH]; intros a; simpl; [auto|].
    destruct (IH (merge_log a r)) as [Hp Hr]. destruct (merge_log_rest a r) as [Hp' Hr'].
    rewrite Hp, Hr. auto. }
  apply H.
Qed.

Lemma find_app {A : Type} (p : A -> bool) (l1 l2 : list A) :
  List.find p (l1 ++ l2)
  = match List.find p l1 with
    | Some x => Some x
    | None => List.find p l2
    end.
Proof.
  induction l1 as [|a l1 IH]; simpl; [reflexivity|].
  destruct (p a); [reflexivity | exact IH].
Qed.

(** The entry of a stem after the CSV loop: the data of the last file
    with that stem and with data. *)
Lemma csv_steps_lookup (s : string) (l : list file) (a : Analysis.t) :
  Py.dict_get String.eqb (Analysis.performance_data (fold_left csv_step l a)) s
  = match List.find (fun f => (String.eqb s (stem (f_path f))
                               && negb (Csv.is_empty (csv_data f)))%bool) (List.rev l) with
    | Some f => Some (csv_data f)
    | None => Py.dict_get String.eqb (Analysis.performance_data a) s
    end.
Proof.
  revert a. induction l as [|f l IH]; intros a; [reflexivity|].
  cbn [fold_left List.rev]. rewrite IH, find_app. cbn [List.find].
  destruct (List.find _ (List.rev l)); [reflexivity|].
  unfold csv_step. destruct (Csv.is_empty (csv_data f)); cbn [negb].
  - rewrite andb_false_r. reflexivity.
  - rewrite andb_true_r. cbn [set_performance_data Analysis.performance_data].
    rewrite dict_get_set. destruct (String.eqb s (stem (f_path f))); reflexivity.
Qed.

Lemma csv_steps_reports (l : list file) (a : Analysis.t) :
  Analysis.reports (fold_left csv_step l a) = Analysis.reports a.
Proof.
  revert a. induction l as [|f l IH]; intros a; [reflexivity|].
  simpl. rewrite IH. unfold csv_step. destruct (negb _); reflexivity.
Qed.

Lemma json_steps_performance_data (l : list file) (a : Analysis.t) :
  Analysis.performance_data (fold_left json_step l a) = Analysis.performance_data a.
Proof.
  revert a. induction l as [|f l IH]; intros a; [reflexivity|].
  simpl. rewrite IH. unfold json_step. destruct (truthy _); reflexivity.
Qed.

Lemma json_steps_reports (l : list file) (a : Analysis.t) :
  Analysis.reports (fold_left json_step l a)
  = (Analysis.reports a
     ++ List.map (fun f => {| Report.name := stem (f_path f);
                              Report.path := f_path f;
                              Report.data := json_data f |})
          (List.filter (fun f => truthy (json_data f)) l))%list.
Proof.
  revert a. induction l as [|f l IH]; intros a; simpl.
  - rewrite List.app_nil_r. reflexivity.
  - rewrite IH. unfold json_step. destruct (truthy (json_data f)); [|reflexivity].
    cbn [append_report Analysis.reports List.map]. rewrite <- List.app_assoc. reflexivity.
Qed.

(** [performance_data] after a run: under a stem stands what
    [parse_csv_report] returned for the last [*.csv] file of the walk with
    that stem and at least one row, so files with the same stem in
    different directories replace one another; a file without rows (one
    that could not be opened, or held a header only) leaves no entry, and
    no entry is ever empty. *)
Theorem performance_data_last_csv_wins (artifacts_dir : string) (tree : list file)
    (now : string) (w : world) (s : string) :
  exists a w',
    analyze_artifacts_directory artifacts_dir tree now w = (Py.Ok a, w')
    /\ Py.dict_get String.eqb (Analysis.performance_data a) s
       = option_map csv_data
           (List.find (fun f => (String.eqb s (stem (f_path f))
                                 && negb (Csv.is_empty (csv_data f)))%bool)
                      (List.rev (glob_suffix ".csv" tree)))
    /\ (forall f w0, fst (parse_csv_report f w0) = Py.Ok (csv_data f))
    /\ Py.dict_get String.eqb (Analysis.performance_data a) s <> Some [].
Proof.
  destruct (analyze_artifacts_directory_returns artifacts_dir tree now w) as [w' [Hrun _]].
  exists (final_analysis tree now), w'. split; [exact Hrun|].
  assert (Hget : Py.dict_get String.eqb (Analysis.performance_data (final_analysis tree now)) s
                 = option_map csv_data
                     (List.find (fun f => (String.eqb s (stem (f_path f))
                                           && negb (Csv.is_empty (csv_data f)))%bool)
                                (List.rev (glob_suffix ".csv" tree)))).
  { unfold final_analysis. rewrite json_steps_performance_data, csv_steps_lookup.
    destruct (merged_logs_rest tree now) as [Hp _]. rewrite Hp.
    destruct (List.find _ _); reflexivity. }
  split; [exact Hget|]. split.
  - intros f w0. destruct (parse_csv_report_returns f w0) as [w1 [H _]].
    rewrite H. reflexivity.
  - rewrite Hget. destruct (List.find _ _) as [f|] eqn:Hfind; [|discriminate].
    apply List.find_some in Hfind. destruct Hfind as [_ Hp].
    apply andb_true_iff in Hp. destruct Hp as [_ Hne].
    simpl. intros Heq. inversion Heq as [Hrows]. rewrite Hrows in Hne. discriminate.
Qed.

(** [reports] after a run: one entry, in walk order, for every [*.json]
    file whose decoded document is truthy; a file that could not be
    decoded, and one that holds an empty document, zero, false or null,
    leaves none. *)
Theorem reports_are_truthy_json_files (artifacts_dir : string) (tree : list file)
    (now : string) (w : world) :
  exists a w',
    analyze_artifacts_directory artifacts_dir tree now w = (Py.Ok a, w')
    /\ Analysis.reports a
       = List.map (fun f => {| Report.name := stem (f_path f);
                               Report.path := f_path f;
                               Report.data := json_data f |})
           (List.filter (fun f => truthy (json_data f)) (glob_suffix ".json" tree))
    /\ (forall f w0, fst (parse_json_report f w0) = Py.Ok (json_data f))
    /\ (forall f e, f_json f = Py.Raise e -> truthy (json_data f) = false)
    /\ (forall r, In r (Analysis.reports a) -> truthy (Report.data r) = true).
Proof.
  destruct (analyze_artifacts_directory_returns artifacts_dir tree now w) as [w' [Hrun _]].
  exists (final_analysis tree now), w'. split; [exact Hrun|].
  assert (Hrep : Analysis.reports (final_analysis tree now)
                 = List.map (fun f => {| Report.name := stem (f_path f);
                                         Report.path := f_path f;
                                         Report.data := json_data f |})
                     (List.filter (fun f => truthy (json_data f)) (glob_suffix ".json" tree))).
  { unfold final_analysis. rewrite json_steps_reports, csv_steps_reports.
    destruct (merged_logs_rest tree now) as [_ Hr]. rewrite Hr. reflexivity. }
  split; [exact Hrep|]. split; [|split].
  - intros f w0. destruct (parse_json_report_returns f w0) as [w1 [H _]].
    rewrite H. reflexivity.
  - intros f e He. unfold json_data. rewrite He. reflexivity.
  - intros r Hin. rewrite Hrep in Hin. apply in_map_iff in Hin.
    destruct Hin as [f [<- Hf]]. apply filter_In in Hf. apply Hf.
Qed.

(** ** The files a run writes *)

Lemma output_files_other (output_dir : string) (a : Analysis.t)
    (fs : Py.dict string content) (p : string) :
  p <> path_join output_dir "performance-analysis-summary.md" ->
  p <> path_join output_dir "full-analysis.json" ->
  p <> path_join output_dir "gate-results.csv" ->
  Py.dict_get String.eqb (output_files output_dir a fs) p = Py.dict_get String.eqb fs p.
Proof.
  intros H1 H2 H3. apply String.eqb_neq in H1, H2, H3.
  unfold output_files. destruct (Csv.is_empty (Analysis.gates a));
    rewrite !dict_get_set, ?H1, ?H2, ?H3; reflexivity.
Qed.

(** A run writes to the three output paths and to nothing else, whether
    the artifacts directory exists or not. *)
Theorem main_touches_only_its_outputs (artifacts_dir output_dir now : string)
    (tree : option (list file)) (w : world) (p : string) :
  p <> path_join output_dir "performance-analysis-summary.md" ->
  p <> path_join output_dir "full-analysis.json" ->
  p <> path_join output_dir "gate-results.csv" ->
  Py.dict_get String.eqb (files (snd (main artifacts_dir output_dir tree now w))) p
  = Py.dict_get String.eqb (files w) p.
Proof.
  intros H1 H2 H3. destruct tree as [tree|].
  - destruct (main_runs artifacts_dir output_dir tree now w) as [w' [Hmain Hfiles]].
    rewrite Hmain. cbn [snd]. rewrite Hfiles. apply output_files_other; assumption.
  - rewrite main_missing_directory. reflexivity.
Qed.

Lemma main_touches_only_its_outputs_witness :
  Py.dict_get String.eqb
    (files (snd (main "artifacts" "out"
                   (Some [ {| f_path := "artifacts/unity.log";
                              f_data := Text ("[ci] Gate 'fps': PASS" ++ Py.nl);
                              f_json := Py.Raise "not JSON" |} ])
                   "2024-01-01T00:00:00"
                   {| console := [];
                      files := [("artifacts/unity.log", TextContent "kept")] |})))
    "artifacts/unity.log"
  = Some (TextContent "kept").
Proof.
  rewrite (main_touches_only_its_outputs "artifacts" "out" "2024-01-01T00:00:00");
    [reflexivity | vm_compute; discriminate ..].
Defined.

(** ** The table written to gate-results.csv *)

Lemma for_each_emit {X : Type} (g : X -> string) (body : X -> M string unit)
    (l : list X) (t : string) :
  (forall x s, body x s = emit (g x) s) ->
  for_each l body t = (Py.Ok tt, t ++ String.concat EmptyString (List.map g l)).
Proof.
  intros Hb. revert t. induction l as [|x l IH]; intros t.
  - simpl. rewrite append_nil_r. reflexivity.
  - cbn [for_each List.map]. unfold bind. rewrite Hb. cbn [emit modify].
    rewrite IH, concat_cons, append_assoc. reflexivity.
Qed.

Lemma gates_csv_text_rows (a : Analysis.t) :
  gates_csv_text a
  = Csv.writerow ["Gate Name"; "Status"; "Success"]
    ++ String.concat EmptyString
         (List.map (fun kv => Csv.writerow [fst kv; verdict_text (snd kv);
                                            Py.str_bool (snd kv)])
                   (Analysis.gates a)).
Proof.
  unfold gates_csv_text, gates_csv_body, bind. cbn [emit modify].
  rewrite (for_each_emit
             (fun kv => Csv.writerow [fst kv; verdict_text (snd kv); Py.str_bool (snd kv)])).
  - reflexivity.
  - intros [n []] s; reflexivity.
Qed.

Lemma fold_set_grows (l d : list (string * bool)) :
  (List.length d
   <= List.length (fold_left (fun d kv => Py.dict_set String.eqb d (fst kv) (snd kv)) l d))%nat.
Proof.
  revert d. induction l as [|[k v] l IH]; intros d; simpl; [lia|].
  specialize (IH (Py.dict_set String.eqb d k v)). rewrite dict_set_length in IH.
  destruct (occurs k d); lia.
Qed.

(** gate-results.csv is written exactly when some visited log file
    yielded a gate: it then holds the header and one record per gate name
    of the table dumped to full-analysis.json, in the order the names were
    first met; otherwise the path keeps what it held before the run. *)
Theorem gate_results_csv_rows (artifacts_dir output_dir now : string)
    (tree : list file) (w : world) :
  exists a code w',
    main artifacts_dir output_dir (Some tree) now w = (Py.Ok code, w')
    /\ Py.dict_get String.eqb (files w') (path_join output_dir "full-analysis.json")
       = Some (JsonDump a)
    /\ Analysis.gates a = Py.dict_of String.eqb (folded_entries tree)
    /\ Py.dict_get String.eqb (files w') (path_join output_dir "gate-results.csv")
       = match folded_entries tree with
         | [] => Py.dict_get String.eqb (files w) (path_join output_dir "gate-results.csv")
         | _ :: _ =>
             Some (TextContent
                     (Csv.writerow ["Gate Name"; "Status"; "Success"]
                      ++ String.concat EmptyString
                           (List.map (fun kv => Csv.writerow [fst kv; verdict_text (snd kv);
                                                              Py.str_bool (snd kv)])
                                     (Analysis.gates a))))
         end.
Proof.
  destruct (main_runs artifacts_dir output_dir tree now w) as [w' [Hmain Hfiles]].
  exists (final_analysis tree now). eexists. exists w'. split; [exact Hmain|].
  split; [rewrite Hfiles; apply json_path_kept|].
  destruct (final_analysis_summary tree now) as [_ Hg].
  pose proof (merged_logs_fields tree now) as (Hd & _). cbv zeta in Hd.
  split; [rewrite Hg; exact Hd|].
  rewrite Hfiles. unfold output_files.
  assert (Hempty : Csv.is_empty (Analysis.gates (final_analysis tree now))
                   = Csv.is_empty (folded_entries tree)).
  { rewrite Hg, Hd. destruct (folded_entries tree) as [|[k v] l]; [reflexivity|].
    unfold Py.dict_of. cbn [fold_left Py.dict_set fst snd].
    pose proof (fold_set_grows l [(k, v)]) as Hpos.
    destruct (fold_left (fun d kv => Py.dict_set String.eqb d (fst kv) (snd kv)) l [(k, v)]);
      [simpl in Hpos; lia | reflexivity]. }
  rewrite Hempty. destruct (folded_entries tree) as [|kv l]; cbn [Csv.is_empty].
  - rewrite !dict_get_set. unfold path_join. rewrite !eqb_append_l.
    change (String.eqb ("/" ++ "gate-results.csv") ("/" ++ "full-analysis.json")) with false.
    change (String.eqb ("/" ++ "gate-results.csv")
                       ("/" ++ "performance-analysis-summary.md")) with false.
    reflexivity.
  - rewrite dict_get_set_same, gates_csv_text_rows. reflexivity.
Qed.

(** ** What a run reports *)

(** The last three lines a run prints, with its exit code and files. *)
Lemma main_report (artifacts_dir output_dir : string) (tree : list file) (now : string)
    (w : world) :
  let s := Analysis.summary (final_analysis tree now) in
  exists w' pre,
    main artifacts_dir output_dir (Some tree) now w
    = (Py.Ok (if 0 <? Summary.failed_gates s then 1 else 0), w')
    /\ files w' = output_files output_dir (final_analysis tree now) (files w)
    /\ console w'
       = List.app pre [ "Overall Status: "
                     ++ (if Summary.overall_success s then "PASSED" else "FAILED");
                   Py.nl ++ "Detailed reports available in: " ++ output_dir;
                   Py.nl ++ (if 0 <? Summary.failed_gates s
                             then CROSS_MARK
                                  ++ " Some performance gates failed - check the detailed reports"
                             else CHECK_MARK
                                  ++ " All performance gates passed successfully") ].
Proof.
  cbv zeta. unfold main. rewrite !bind_print.
  match goal with |- context [bind _ _ ?s] =>
    destruct (analyze_artifacts_directory_returns artifacts_dir tree now s)
      as [w1 [H1 K1]] end.
  rewrite (bind_ok _ _ _ _ _ H1).
  set (a := final_analysis tree now) in *.
  pose proof (final_analysis_sane tree now) as Hsane. fold a in Hsane.
  destruct (generate_summary_report_runs a output_dir w1 (fun _ => proj1 Hsane))
    as [w2 [H2 K2]].
  rewrite (bind_ok _ _ _ _ _ H2).
  destruct (generate_detailed_analysis_runs a output_dir w2) as [w3 [H3 K3]].
  rewrite (bind_ok _ _ _ _ _ H3).
  cbv zeta. rewrite !bind_print.
  match goal with |- context [bind (when ?b ?c) _ ?s] =>
    assert (Hw : exists s', when b c s = (Py.Ok tt, s') /\ files s' = files s) end.
  { unfold when. destruct (0 <? Summary.total_gates (Analysis.summary a)) eqn:Ht.
    - apply Z.ltb_lt in Ht. destruct Hsane as [Hp _].
      destruct (success_rate_returns _ Ht Hp) as [rate Hr]. rewrite Hr.
      rewrite bind_lift_ok. unfold print, modify. eexists. split; reflexivity.
    - eexists. split; reflexivity. }
  destruct Hw as [w4 [H4 K4]].
  rewrite (bind_ok _ _ _ _ _ H4). rewrite !bind_print.
  assert (Hfiles : files w4 = output_files output_dir a (files w)).
  { rewrite K4. simpl. rewrite K3, K2, K1. simpl. reflexivity. }
  destruct (0 <? Summary.failed_gates (Analysis.summary a));
    rewrite bind_print; eexists; exists (console w4);
    (split; [reflexivity | split; [exact Hfiles|]]);
    cbn [console]; rewrite <- !List.app_assoc; reflexivity.
Qed.

Lemma overall_success_of_text (f : file) :
  Results.overall_success (log_results f)
  = match read f with
    | Py.Ok content => Py.contains "ALL PERFORMANCE GATES PASSED" content
    | Py.Raise _ => false
    end.
Proof.
  destruct (read f) as [content|e] eqn:Hread.
  - rewrite (log_results_text f content Hread). reflexivity.
  - rewrite (log_results_unreadable f e Hread). reflexivity.
Qed.

Lemma fails_existsb (l : list (string * bool)) :
  (0 <? Z.of_nat (fails l)) = List.existsb (fun kv => negb (snd kv)) l.
Proof.
  unfold fails. induction l as [|[k v] l IH]; [reflexivity|].
  cbn [List.filter List.existsb snd]. destruct v; cbn [negb orb]; [exact IH|].
  cbn [List.length]. apply Z.ltb_lt. lia.
Qed.

Lemma summary_file_kept (output_dir : string) (a : Analysis.t) (fs : Py.dict string content) :
  Py.dict_get String.eqb (output_files output_dir a fs)
    (path_join output_dir "performance-analysis-summary.md")
  = Some (TextContent (summary_text a)).
Proof.
  unfold output_files. destruct (Csv.is_empty (Analysis.gates a));
    rewrite !dict_get_set; unfold path_join; rewrite !eqb_append_l.
  - change (String.eqb ("/" ++ "performance-analysis-summary.md")
                       ("/" ++ "full-analysis.json")) with false.
    rewrite String.eqb_refl. reflexivity.
  - change (String.eqb ("/" ++ "performance-analysis-summary.md")
                       ("/" ++ "gate-results.csv")) with false.
    change (String.eqb ("/" ++ "performance-analysis-summary.md")
                       ("/" ++ "full-analysis.json")) with false.
    rewrite String.eqb_refl. reflexivity.
Qed.

(** The status a run shows and its exit code come from different parts
    of the logs.  The status line of the summary and the one printed read
    PASSED exactly when some visited log file could be read and holds the
    all-gates-passed marker; the exit code is 1, and the last line printed
    says that gates failed, exactly when some visited log file yielded a
    gate that reads FAIL. *)
Theorem status_follows_marker_exit_follows_gates (artifacts_dir output_dir now : string)
    (tree : list file) (w : world) :
  let marked :=
    List.existsb (fun f => match read f with
                           | Py.Ok content =>
                               Py.contains "ALL PERFORMANCE GATES PASSED" content
                           | Py.Raise _ => false
                           end) (log_files tree) in
  let failing := List.existsb (fun kv => negb (snd kv)) (folded_entries tree) in
  exists w' pre rest,
    main artifacts_dir output_dir (Some tree) now w
    = (Py.Ok (if failing then 1 else 0), w')
    /\ console w'
       = List.app pre [ "Overall Status: " ++ (if marked then "PASSED" else "FAILED");
                   Py.nl ++ "Detailed reports available in: " ++ output_dir;
                   Py.nl ++ (if failing
                             then CROSS_MARK
                                  ++ " Some performance gates failed - check the detailed reports"
                             else CHECK_MARK
                                  ++ " All performance gates passed successfully") ]
    /\ Py.dict_get String.eqb (files w')
         (path_join output_dir "performance-analysis-summary.md")
       = Some (TextContent
                 ("# Performance Gates Analysis Summary" ++ Py.nl ++ Py.nl
                  ++ "**Analysis Timestamp**: " ++ now ++ Py.nl ++ Py.nl
                  ++ "## Overall Status: "
                  ++ (if marked then CHECK_MARK ++ " PASSED" else CROSS_MARK ++ " FAILED")
                  ++ Py.nl ++ Py.nl ++ rest)).
Proof.
  cbv zeta.
  destruct (main_report artifacts_dir output_dir tree now w) as [w' [pre (Hmain & Hfiles & Hcon)]].
  cbv zeta in Hmain, Hcon.
  destruct (final_analysis_summary tree now) as [Hs _].
  pose proof (merged_logs_fields tree now) as (_ & _ & _ & Hf & Ho). cbv zeta in Hf, Ho.
  pose proof (final_analysis_sane tree now) as [Hp _].
  assert (Hts : Summary.analysis_timestamp (Analysis.summary (final_analysis tree now)) = now).
  { rewrite Hs. unfold merged_logs. generalize (List.map log_results (log_files tree)).
    intros rs. assert (H : forall a, Summary.analysis_timestamp
                                       (Analysis.summary (fold_left merge_log rs a))
                                     = Summary.analysis_timestamp (Analysis.summary a)).
    { induction rs as [|r rs IH]; intros a; [reflexivity|]. simpl. rewrite IH.
      unfold merge_log.
      destruct (merge_gate_fold (Results.gates r) a) as (_ & _ & _ & _ & _ & Ht & _).
      cbv zeta in Ht. destruct (Results.overall_success r); simpl; exact Ht. }
    rewrite H. reflexivity. }
  assert (Hmark : Summary.overall_success (Analysis.summary (final_analysis tree now))
                  = List.existsb (fun f => match read f with
                                           | Py.Ok content =>
                                               Py.contains "ALL PERFORMANCE GATES PASSED" content
                                           | Py.Raise _ => false
                                           end) (log_files tree)).
  { rewrite Hs, Ho. generalize (log_files tree). intros l.
    induction l as [|f l IH]; [reflexivity|]. simpl.
    rewrite IH, overall_success_of_text. reflexivity. }
  assert (Hfail : (0 <? Summary.failed_gates (Analysis.summary (final_analysis tree now)))
                  = List.existsb (fun kv => negb (snd kv)) (folded_entries tree)).
  { rewrite Hs, Hf. apply fails_existsb. }
  rewrite Hfail in Hmain, Hcon. rewrite Hmark in Hcon.
  exists w', pre,
    (snd (write_summary_statistics (final_analysis tree now) "")
     ++ snd (write_sections (final_analysis tree now) "")).
  split; [exact Hmain|]. split; [exact Hcon|].
  rewrite Hfiles, summary_file_kept.
  rewrite summary_text_parts by (intros _; exact Hp).
  rewrite overall_status_text, Hts, Hmark. rewrite !append_assoc. reflexivity.
Qed.

(** Without any log file in the tree the run exits with 0 and its last
    line says that all gates passed, while the summary and the console
    read FAILED; gate-results.csv is not written. *)
Theorem run_without_log_files (artifacts_dir output_dir now : string)
    (tree : list file) (w : world) :
  glob_suffix ".log" tree = [] ->
  exists w' pre rest,
    main artifacts_dir output_dir (Some tree) now w = (Py.Ok 0, w')
    /\ console w'
       = List.app pre [ "Overall Status: FAILED";
                   Py.nl ++ "Detailed reports available in: " ++ output_dir;
                   Py.nl ++ CHECK_MARK ++ " All performance gates passed successfully" ]
    /\ Py.dict_get String.eqb (files w')
         (path_join output_dir "performance-analysis-summary.md")
       = Some (TextContent
                 ("# Performance Gates Analysis Summary" ++ Py.nl ++ Py.nl
                  ++ "**Analysis Timestamp**: " ++ now ++ Py.nl ++ Py.nl
                  ++ "## Overall Status: " ++ CROSS_MARK ++ " FAILED" ++ Py.nl ++ Py.nl
                  ++ "## Summary Statistics" ++ Py.nl ++ Py.nl
                  ++ "- **Total Gates**: 0" ++ Py.nl
                  ++ "- **Passed Gates**: 0" ++ Py.nl
                  ++ "- **Failed Gates**: 0" ++ Py.nl ++ Py.nl
                  ++ rest))
    /\ Py.dict_get String.eqb (files w') (path_join output_dir "gate-results.csv")
       = Py.dict_get String.eqb (files w) (path_join output_dir "gate-results.csv").
Proof.
  intros Hnone.
  assert (Hlogs : log_files tree = []).
  { unfold log_files. rewrite Hnone, List.app_nil_r.
    destruct (glob_name "performance-gates.log" tree) as [|f l] eqn:E; [reflexivity|].
    assert (Hin : In f (glob_suffix ".log" tree)).
    { apply glob_name_in_suffix. rewrite E. left. reflexivity. }
    rewrite Hnone in Hin. destruct Hin. }
  destruct (main_report artifacts_dir output_dir tree now w) as [w' [pre (Hmain & Hfiles & Hcon)]].
  cbv zeta in Hmain, Hcon.
  destruct (final_analysis_summary tree now) as [Hs Hg].
  assert (Hm : merged_logs tree now = initial_analysis now).
  { unfold merged_logs. rewrite Hlogs. reflexivity. }
  rewrite Hs, Hm in Hmain, Hcon. cbn in Hmain, Hcon.
  exists w', pre, (snd (write_sections (final_analysis tree now) "")).
  split; [exact Hmain|]. split; [exact Hcon|]. split.
  - rewrite Hfiles, summary_file_kept.
    rewrite summary_text_parts by (rewrite Hs, Hm; cbn; lia).
    rewrite overall_status_text. unfold write_summary_statistics.
    rewrite Hs, Hm. cbn [initial_analysis Analysis.summary Summary.total_gates
                         Summary.passed_gates Summary.failed_gates
                         Summary.overall_success Summary.analysis_timestamp].
    change (0 <? 0) with false. cbn [when]. unfold bind. cbn [emit modify ret snd].
    change (Py.str_int 0) with "0".
    repeat (rewrite !append_assoc; cbn [append]). reflexivity.
  - rewrite Hfiles. unfold output_files. rewrite Hg, Hm. cbn [initial_analysis Analysis.gates Csv.is_empty].
    rewrite !dict_get_set. unfold path_join. rewrite !eqb_append_l.
    change (String.eqb ("/" ++ "gate-results.csv") ("/" ++ "full-analysis.json")) with false.
    change (String.eqb ("/" ++ "gate-results.csv")
                       ("/" ++ "performance-analysis-summary.md")) with false.
    reflexivity.
Qed.

Lemma run_without_log_files_witness :
  exists w' pre rest,
    main "artifacts" "out"
      (Some [ {| f_path := "artifacts/frame-times.csv";
                 f_data := Text ("fps" ++ Py.nl ++ "72" ++ Py.nl);
                 f_json := Py.Raise "not JSON" |} ])
      "2024-01-01T00:00:00" empty_world
    = (Py.Ok 0, w')
    /\ console w'
       = List.app pre [ "Overall Status: FAILED";
                   Py.nl ++ "Detailed reports available in: " ++ "out";
                   Py.nl ++ CHECK_MARK ++ " All performance gates passed successfully" ]
    /\ Py.dict_get String.eqb (files w')
         (path_join "out" "performance-analysis-summary.md")
       = Some (TextContent
                 ("# Performance Gates Analysis Summary" ++ Py.nl ++ Py.nl
                  ++ "**Analysis Timestamp**: " ++ "2024-01-01T00:00:00" ++ Py.nl ++ Py.nl
                  ++ "## Overall Status: " ++ CROSS_MARK ++ " FAILED" ++ Py.nl ++ Py.nl
                  ++ "## Summary Statistics" ++ Py.nl ++ Py.nl
                  ++ "- **Total Gates**: 0" ++ Py.nl
                  ++ "- **Passed Gates**: 0" ++ Py.nl
                  ++ "- **Failed Gates**: 0" ++ Py.nl ++ Py.nl
                  ++ rest))
    /\ Py.dict_get String.eqb (files w') (path_join "out" "gate-results.csv")
       = Py.dict_get String.eqb (files empty_world) (path_join "out" "gate-results.csv").
Proof.
  apply (run_without_log_files "artifacts" "out" "2024-01-01T00:00:00"
           [ {| f_path := "artifacts/frame-times.csv";
                f_data := Text ("fps" ++ Py.nl ++ "72" ++ Py.nl);
                f_json := Py.Raise "not JSON" |} ] empty_world).
  reflexivity.
Defined.

(** ** The gates in the summary *)

Lemma gate_table_text (a : Analysis.t) :
  snd (write_gate_table a EmptyString)
  = match Analysis.gates a with
    | [] => EmptyString
    | _ :: _ =>
        "## Individual Gate Results" ++ Py.nl ++ Py.nl
        ++ "| Gate Name | Status |" ++ Py.nl
        ++ "|-----------|--------|" ++ Py.nl
        ++ String.concat EmptyString
             (List.map (fun kv : string * bool => "| " ++ fst kv ++ " | "
                                  ++ (if snd kv then CHECK_MARK else CROSS_MARK)
                                  ++ " " ++ verdict_text (snd kv) ++ " |" ++ Py.nl)
                       (Analysis.gates a))
        ++ Py.nl
    end.
Proof.
  unfold write_gate_table. destruct (Analysis.gates a) as [|kv l] eqn:E; [reflexivity|].
  cbn [Csv.is_empty negb when]. unfold bind at 1 2 3. cbn [emit modify].
  unfold bind.
  rewrite (for_each_emit
             (fun kv : string * bool => "| " ++ fst kv ++ " | " ++ (if snd kv then CHECK_MARK else CROSS_MARK)
                        ++ " " ++ verdict_text (snd kv) ++ " |" ++ Py.nl)).
  - cbn [snd]. repeat (rewrite !append_assoc; cbn [append]). reflexivity.
  - intros [n []] s; reflexivity.
Qed.

Lemma concat_filter {X : Type} (p : X -> bool) (g : X -> string) (l : list X) :
  String.concat EmptyString (List.map (fun x => if p x then g x else EmptyString) l)
  = String.concat EmptyString (List.map g (List.filter p l)).
Proof.
  induction l as [|x l IH]; [reflexivity|].
  cbn [List.map List.filter]. rewrite concat_cons, IH.
  destruct (p x); cbn [List.map]; [rewrite concat_cons|]; reflexivity.
Qed.

Lemma recommendations_text (a : Analysis.t) :
  snd (write_recommendations a EmptyString)
  = "## Recommendations" ++ Py.nl ++ Py.nl
    ++ (if 0 <? Summary.failed_gates (Analysis.summary a)
        then CROSS_MARK ++ " **Action Required**: Some performance gates have failed."
             ++ Py.nl ++ Py.nl
             ++ "**Failed Gates:**" ++ Py.nl
             ++ String.concat EmptyString
                  (List.map (fun kv : string * bool => "- " ++ fst kv ++ Py.nl)
                            (List.filter (fun kv : string * bool => negb (snd kv)) (Analysis.gates a)))
             ++ Py.nl
             ++ "**Next Steps:**" ++ Py.nl
             ++ "1. Review the detailed logs for each failed gate" ++ Py.nl
             ++ "2. Address the specific issues identified" ++ Py.nl
             ++ "3. Re-run the performance gates" ++ Py.nl
             ++ "4. Consider adjusting performance thresholds if appropriate" ++ Py.nl
        else CHECK_MARK ++ " **All Clear**: All performance gates have passed successfully."
             ++ Py.nl ++ Py.nl
             ++ "**Next Steps:**" ++ Py.nl
             ++ "1. Proceed with build deployment" ++ Py.nl
             ++ "2. Monitor performance metrics in production" ++ Py.nl
             ++ "3. Consider tightening performance thresholds for continuous improvement"
             ++ Py.nl).
Proof.
  unfold write_recommendations.
  destruct (0 <? Summary.failed_gates (Analysis.summary a)).
  - unfold bind at 1 2 3. cbn [emit modify]. unfold bind.
    rewrite (for_each_emit
               (fun kv : string * bool => if negb (snd kv) then "- " ++ fst kv ++ Py.nl else EmptyString)).
    + cbn [emit modify snd]. rewrite concat_filter.
      repeat (rewrite !append_assoc; cbn [append]). reflexivity.
    + intros [n []] s; cbn [negb when snd fst]; unfold ret, emit, modify;
        [rewrite append_nil_r|]; reflexivity.
  - unfold bind. cbn [emit modify snd].
    repeat (rewrite !append_assoc; cbn [append]). reflexivity.
Qed.

(** The summary shows the gate table as stored: one row per gate name, in
    the order of the table, under a heading that is left out when there is
    no gate; its last section names, under Action Required, the gates whose
    stored verdict is FAIL, and reads All Clear when the failed count is
    zero.  The list under Action Required is empty when every gate counted
    as failed was stored again with PASS. *)
Theorem summary_gate_table_and_failed_list (a : Analysis.t) (output_dir : string)
    (w : world) :
  (0 < Summary.total_gates (Analysis.summary a) ->
   0 <= Summary.passed_gates (Analysis.summary a) <= Summary.total_gates (Analysis.summary a)) ->
  exists w' before middle,
    generate_summary_report a output_dir w
    = (Py.Ok (path_join output_dir "performance-analysis-summary.md"), w')
    /\ Py.dict_get String.eqb (files w')
         (path_join output_dir "performance-analysis-summary.md")
       = Some (TextContent
           (before
            ++ match Analysis.gates a with
               | [] => EmptyString
               | _ :: _ =>
                   "## Individual Gate Results" ++ Py.nl ++ Py.nl
                   ++ "| Gate Name | Status |" ++ Py.nl
                   ++ "|-----------|--------|" ++ Py.nl
                   ++ String.concat EmptyString
                        (List.map (fun kv : string * bool => "| " ++ fst kv ++ " | "
                                             ++ (if snd kv then CHECK_MARK else CROSS_MARK)
                                             ++ " " ++ verdict_text (snd kv) ++ " |" ++ Py.nl)
                                  (Analysis.gates a))
                   ++ Py.nl
               end
            ++ middle
            ++ "## Recommendations" ++ Py.nl ++ Py.nl
            ++ (if 0 <? Summary.failed_gates (Analysis.summary a)
                then CROSS_MARK ++ " **Action Required**: Some performance gates have failed."
                     ++ Py.nl ++ Py.nl
                     ++ "**Failed Gates:**" ++ Py.nl
                     ++ String.concat EmptyString
                          (List.map (fun kv : string * bool => "- " ++ fst kv ++ Py.nl)
                                    (List.filter (fun kv : string * bool => negb (snd kv)) (Analysis.gates a)))
                     ++ Py.nl
                     ++ "**Next Steps:**" ++ Py.nl
                     ++ "1. Review the detailed logs for each failed gate" ++ Py.nl
                     ++ "2. Address the specific issues identified" ++ Py.nl
                     ++ "3. Re-run the performance gates" ++ Py.nl
                     ++ "4. Consider adjusting performance thresholds if appropriate" ++ Py.nl
                else CHECK_MARK
                     ++ " **All Clear**: All performance gates have passed successfully."
                     ++ Py.nl ++ Py.nl
                     ++ "**Next Steps:**" ++ Py.nl
                     ++ "1. Proceed with build deployment" ++ Py.nl
                     ++ "2. Monitor performance metrics in production" ++ Py.nl
                     ++ "3. Consider tightening performance thresholds for continuous improvement"
                     ++ Py.nl))).
Proof.
  intros Hp.
  destruct (generate_summary_report_text a output_dir w Hp) as [w' [Hrun Hfile]].
  exists w',
    (snd (write_overall_status a "") ++ snd (write_summary_statistics a "")),
    (snd (write_performance_data a "") ++ snd (write_reports a "")).
  split; [exact Hrun|]. rewrite Hfile.
  assert (Hsec : snd (write_sections a "")
                 = snd (write_gate_table a "") ++ snd (write_performance_data a "")
                   ++ snd (write_reports a "") ++ snd (write_recommendations a "")).
  { unfold write_sections.
    rewrite snd_bind_returns;
      [| apply appends_bind; [apply write_performance_data_appends|intros _];
         apply appends_bind; [apply write_reports_appends|intros _];
         apply write_recommendations_appends
       | apply returns_fst, write_gate_table_returns ].
    rewrite snd_bind_returns;
      [| apply appends_bind; [apply write_reports_appends|intros _];
         apply write_recommendations_appends
       | apply returns_fst, write_performance_data_returns ].
    rewrite snd_bind_returns;
      [| apply write_recommendations_appends
       | apply returns_fst, write_reports_returns ].
    reflexivity. }
  rewrite Hsec, gate_table_text, recommendations_text.
  rewrite !append_assoc. reflexivity.
Qed.

Lemma summary_gate_table_and_failed_list_witness :
  exists w' before middle,
    generate_summary_report
      {| Analysis.summary :=
           {| Summary.total_gates := 2; Summary.passed_gates := 1;
              Summary.failed_gates := 1; Summary.overall_success := false;
              Summary.analysis_timestamp := "2024-01-01T00:00:00" |};
         Analysis.gates := [("fps", true)];
         Analysis.performance_data := [];
         Analysis.reports := [] |} "out" empty_world
    = (Py.Ok (path_join "out" "performance-analysis-summary.md"), w')
    /\ Py.dict_get String.eqb (files w') (path_join "out" "performance-analysis-summary.md")
       = Some (TextContent
           (before
            ++ ("## Individual Gate Results" ++ Py.nl ++ Py.nl
                ++ "| Gate Name | Status |" ++ Py.nl
                ++ "|-----------|--------|" ++ Py.nl
                ++ ("| fps | " ++ CHECK_MARK ++ " PASS |" ++ Py.nl)
                ++ Py.nl)
            ++ middle
            ++ "## Recommendations" ++ Py.nl ++ Py.nl
            ++ CROSS_MARK ++ " **Action Required**: Some performance gates have failed."
            ++ Py.nl ++ Py.nl
            ++ "**Failed Gates:**" ++ Py.nl
            ++ Py.nl
            ++ "**Next Steps:**" ++ Py.nl
            ++ "1. Review the detailed logs for each failed gate" ++ Py.nl
            ++ "2. Address the specific issues identified" ++ Py.nl
            ++ "3. Re-run the performance gates" ++ Py.nl
            ++ "4. Consider adjusting performance thresholds if appropriate" ++ Py.nl)).
Proof.
  destruct (summary_gate_table_and_failed_list
              {| Analysis.summary :=
                   {| Summary.total_gates := 2; Summary.passed_gates := 1;
                      Summary.failed_gates := 1; Summary.overall_success := false;
                      Summary.analysis_timestamp := "2024-01-01T00:00:00" |};
                 Analysis.gates := [("fps", true)];
                 Analysis.performance_data := [];
                 Analysis.reports := [] |} "out" empty_world)
    as [w' [before [middle [Hrun Hfile]]]].
  - simpl. lia.
  - exists w', before, middle. split; [exact Hrun|]. rewrite Hfile. reflexivity.
Defined.

(** ** Reading back what the CSV writer wrote *)

Lemma rev_onto_app (s acc : string) : Py.rev_onto s acc = Py.rev s ++ acc.
Proof.
  unfold Py.rev. revert acc. induction s as [|c s IH]; intros acc; [reflexivity|].
  simpl. rewrite (IH (String c acc)), (IH (String c "")), append_assoc. reflexivity.
Qed.

Lemma rev_cons (c : ascii) (s : string) : Py.rev (String c s) = Py.rev s ++ String c "".
Proof. unfold Py.rev at 1. simpl. apply rev_onto_app. Qed.

Lemma feed_app (p : Csv.parser) (a b : string) :
  feed p (a ++ b)
  = match feed p a with
    | Py.Ok p' => feed p' b
    | Py.Raise x => Py.Raise x
    end.
Proof.
  revert p. induction a as [|c a IH]; intros p; simpl; [reflexivity|].
  destruct (Csv.parse_process_char p (Csv.Chr c)); [apply IH | reflexivity].
Qed.

Lemma process_line_feed (p : Csv.parser) (s : string) :
  Csv.process_line p s
  = match feed p s with
    | Py.Ok p' => Csv.parse_process_char p' Csv.EOL
    | Py.Raise x => Py.Raise x
    end.
Proof.
  revert p. induction s as [|c s IH]; intros p; simpl; [reflexivity|].
  destruct (Csv.parse_process_char p (Csv.Chr c)); [apply IH | reflexivity].
Qed.

(** A line that has been started is delivered, whatever follows. *)
Lemma lines_from_head (cur s : string) :
  cur <> EmptyString ->
  exists l rest, lines_from true cur s = (Py.rev cur ++ l) :: rest.
Proof.
  revert cur. induction s as [|c s IH]; intros cur Hcur.
  - exists "", []. simpl. destruct cur; [contradiction|]. rewrite append_nil_r. reflexivity.
  - cbn [lines_from]. destruct (Ascii.eqb c Py.LF).
    + exists (String c ""), (lines_from true "" s). rewrite rev_cons. reflexivity.
    + destruct (IH (String c cur)) as [l [rest H]]; [discriminate|].
      exists (String c l), rest. rewrite H, rev_cons, append_assoc. reflexivity.
Qed.

(** Reading the lines of a text is reading its characters. *)
Lemma reader_lines_chars (s : string) :
  forall p0 cur p,
    feed p0 (Py.rev cur) = Py.Ok p ->
    Csv.reader_from p0 (lines_from true cur s) None
    = read_chars (negb (String.eqb cur EmptyString)) p s.
Proof.
  induction s as [|c s IH]; intros p0 cur p Hfeed.
  - destruct cur as [|d cur].
    + simpl in Hfeed. inversion Hfeed. reflexivity.
    + cbn [lines_from read_chars String.eqb negb Csv.reader_from].
      rewrite process_line_feed, Hfeed. unfold end_of_line.
      destruct (Csv.parse_process_char p Csv.EOL) as [p'|x]; reflexivity.
  - cbn [lines_from read_chars]. destruct (Ascii.eqb c Py.LF) eqn:Hc.
    + cbn [Csv.reader_from]. rewrite process_line_feed, rev_cons, feed_app, Hfeed.
      cbn [feed].
      destruct (Csv.parse_process_char p (Csv.Chr c)) as [p1|x]; [|reflexivity].
      unfold end_of_line.
      destruct (Csv.parse_process_char p1 Csv.EOL) as [p2|x]; [|reflexivity].
      destruct (Csv.state_eqb (Csv.st p2) Csv.START_RECORD).
      * rewrite (IH Csv.parse_reset "" Csv.parse_reset eq_refl). reflexivity.
      * rewrite (IH p2 "" p2 eq_refl). reflexivity.
    + destruct (Csv.parse_process_char p (Csv.Chr c)) as [p1|x] eqn:Hstep.
      * rewrite (IH p0 (String c cur) p1); [reflexivity|].
        rewrite rev_cons, feed_app, Hfeed. cbn [feed]. rewrite Hstep. reflexivity.
      * destruct (lines_from_head (String c cur) s) as [l [rest H]]; [discriminate|].
        rewrite H. cbn [Csv.reader_from].
        rewrite process_line_feed, rev_cons, append_assoc, feed_app, Hfeed.
        cbn [append feed]. rewrite Hstep. reflexivity.
Qed.

(** *** The steps of the reader *)

Lemma needs_quotes_cons (d : ascii) (s : string) :
  Csv.needs_quotes (String d s) = false ->
  Ascii.eqb d "," = false /\ Ascii.eqb d Py.DQUOTE = false
  /\ Ascii.eqb d Py.CR = false /\ Ascii.eqb d Py.LF = false
  /\ Csv.needs_quotes s = false.
Proof.
  unfold Csv.needs_quotes. cbn [Py.has_char]. intros H.
  repeat (apply orb_false_iff in H; destruct H as [H ?]).
  repeat match goal with
         | K : (_ || _)%bool = false |- _ => apply orb_false_iff in K; destruct K
         end.
  rewrite !(Ascii.eqb_sym d).
  repeat split; try assumption.
  repeat (apply orb_false_iff; split); assumption.
Qed.

Lemma step_plain (s0 : Csv.state) (fld : string) (n : N) (fs : list string) (d : ascii) :
  s0 = Csv.START_RECORD \/ s0 = Csv.START_FIELD \/ s0 = Csv.IN_FIELD ->
  Ascii.eqb d "," = false -> Ascii.eqb d Py.DQUOTE = false ->
  Ascii.eqb d Py.CR = false -> Ascii.eqb d Py.LF = false ->
  (n < Csv.field_limit)%N ->
  Csv.parse_process_char
    {| Csv.st := s0; Csv.field := fld; Csv.field_len := n; Csv.fields := fs |} (Csv.Chr d)
  = Py.Ok {| Csv.st := Csv.IN_FIELD; Csv.field := String d fld;
             Csv.field_len := N.succ n; Csv.fields := fs |}.
Proof.
  intros Hs Hc Hq Hr Hl Hn. apply N.leb_gt in Hn.
  destruct Hs as [->|[->| ->]];
    unfold Csv.parse_process_char, Csv.start_field, Csv.add_event, Csv.parse_add_char;
    cbn [Csv.st Csv.field_len Csv.is_nl Csv.is_chr Csv.field Csv.fields Csv.with_state];
    rewrite ?Hc, ?Hq, ?Hr, ?Hl, ?Hn; reflexivity.
Qed.

Lemma step_quoted (fld : string) (n : N) (fs : list string) (d : ascii) :
  Ascii.eqb d Py.DQUOTE = false ->
  (n < Csv.field_limit)%N ->
  Csv.parse_process_char
    {| Csv.st := Csv.IN_QUOTED_FIELD; Csv.field := fld; Csv.field_len := n;
       Csv.fields := fs |} (Csv.Chr d)
  = Py.Ok {| Csv.st := Csv.IN_QUOTED_FIELD; Csv.field := String d fld;
             Csv.field_len := N.succ n; Csv.fields := fs |}.
Proof.
  intros Hq Hn. apply N.leb_gt in Hn.
  unfold Csv.parse_process_char, Csv.add_event, Csv.parse_add_char.
  cbn [Csv.st Csv.field_len Csv.is_nl Csv.is_chr Csv.field Csv.fields Csv.with_state].
  rewrite Hq, Hn. reflexivity.
Qed.

Lemma step_doubled_quote (fld : string) (n : N) (fs : list string) :
  (n < Csv.field_limit)%N ->
  Csv.parse_process_char
    {| Csv.st := Csv.QUOTE_IN_QUOTED_FIELD; Csv.field := fld; Csv.field_len := n;
       Csv.fields := fs |} (Csv.Chr Py.DQUOTE)
  = Py.Ok {| Csv.st := Csv.IN_QUOTED_FIELD; Csv.field := String Py.DQUOTE fld;
             Csv.field_len := N.succ n; Csv.fields := fs |}.
Proof.
  intros Hn. apply N.leb_gt in Hn.
  unfold Csv.parse_process_char, Csv.add_event, Csv.parse_add_char.
  cbn [Csv.st Csv.field_len Csv.is_nl Csv.is_chr Csv.field Csv.fields Csv.with_state].
  change (Ascii.eqb Py.DQUOTE Py.DQUOTE) with true. cbv iota. rewrite Hn. reflexivity.
Qed.

(** *** An unquoted field *)

Lemma read_in_field (s : string) :
  forall fld n fs m c t,
    Csv.needs_quotes s = false ->
    (n + N.of_nat (String.length s) <= Csv.field_limit)%N ->
    read_chars m {| Csv.st := Csv.IN_FIELD; Csv.field := fld; Csv.field_len := n;
                    Csv.fields := fs |} (s ++ String c t)
    = read_chars true
        {| Csv.st := Csv.IN_FIELD; Csv.field := Py.rev_onto s fld;
           Csv.field_len := n + N.of_nat (String.length s); Csv.fields := fs |}
        (String c t).
Proof.
  induction s as [|d s IH]; intros fld n fs m c t Hq Hn.
  - cbn [append String.length Py.rev_onto]. rewrite N.add_0_r. reflexivity.
  - destruct (needs_quotes_cons d s Hq) as (Hc & Hd & Hr & Hl & Hq').
    cbn [String.length] in Hn.
    change (String d s ++ String c t) with (String d (s ++ String c t)).
    cbn [read_chars].
    rewrite (step_plain Csv.IN_FIELD) by (auto; lia).
    rewrite Hl. rewrite (IH (String d fld) (N.succ n) fs true c t Hq') by lia.
    cbn [Py.rev_onto String.length].
    replace (N.succ n + N.of_nat (String.length s))%N
      with (n + N.of_nat (S (String.length s)))%N by lia.
    reflexivity.
Qed.

(** *** A quoted field *)

Lemma read_in_quoted (s : string) :
  forall fld n fs m c t,
    (n + N.of_nat (String.length s) <= Csv.field_limit)%N ->
    read_chars m {| Csv.st := Csv.IN_QUOTED_FIELD; Csv.field := fld; Csv.field_len := n;
                    Csv.fields := fs |}
      (Csv.double_quotes s ++ String Py.DQUOTE (String c t))
    = read_chars true
        {| Csv.st := Csv.QUOTE_IN_QUOTED_FIELD; Csv.field := Py.rev_onto s fld;
           Csv.field_len := n + N.of_nat (String.length s); Csv.fields := fs |}
        (String c t).
Proof.
  induction s as [|d s IH]; intros fld n fs m c t Hn.
  - cbn [append String.length Py.rev_onto Csv.double_quotes]. rewrite N.add_0_r.
    reflexivity.
  - cbn [String.length] in Hn. cbn [Csv.double_quotes].
    destruct (Ascii.eqb d Py.DQUOTE) eqn:Hd.
    + apply Ascii.eqb_eq in Hd. subst d.
      change (String Py.DQUOTE (String Py.DQUOTE (Csv.double_quotes s))
              ++ String Py.DQUOTE (String c t))
        with (String Py.DQUOTE
                (String Py.DQUOTE (Csv.double_quotes s ++ String Py.DQUOTE (String c t)))).
      cbn [read_chars].
      change (Csv.parse_process_char
                {| Csv.st := Csv.IN_QUOTED_FIELD; Csv.field := fld; Csv.field_len := n;
                   Csv.fields := fs |} (Csv.Chr Py.DQUOTE))
        with (Py.Ok {| Csv.st := Csv.QUOTE_IN_QUOTED_FIELD; Csv.field := fld;
                       Csv.field_len := n; Csv.fields := fs |}).
      change (Ascii.eqb Py.DQUOTE Py.LF) with false. cbv iota.
      rewrite step_doubled_quote by lia.
      rewrite (IH (String Py.DQUOTE fld) (N.succ n) fs true c t) by lia.
      cbn [Py.rev_onto String.length].
      replace (N.succ n + N.of_nat (String.length s))%N
        with (n + N.of_nat (S (String.length s)))%N by lia.
      reflexivity.
    + change (String d (Csv.double_quotes s) ++ String Py.DQUOTE (String c t))
        with (String d (Csv.double_quotes s ++ String Py.DQUOTE (String c t))).
      cbn [read_chars]. rewrite step_quoted by (auto; lia).
      assert (Hnext : forall m',
                 read_chars m'
                   {| Csv.st := Csv.IN_QUOTED_FIELD; Csv.field := String d fld;
                      Csv.field_len := N.succ n; Csv.fields := fs |}
                   (Csv.double_quotes s ++ String Py.DQUOTE (String c t))
                 = read_chars true
                     {| Csv.st := Csv.QUOTE_IN_QUOTED_FIELD;
                        Csv.field := Py.rev_onto (String d s) fld;
                        Csv.field_len := n + N.of_nat (S (String.length s));
                        Csv.fields := fs |} (String c t)).
      { intros m'. rewrite (IH (String d fld) (N.succ n) fs m' c t) by lia.
        cbn [Py.rev_onto].
        replace (N.succ n + N.of_nat (String.length s))%N
          with (n + N.of_nat (S (String.length s)))%N by lia.
        reflexivity. }
      destruct (Ascii.eqb d Py.LF); [|apply Hnext].
      unfold end_of_line. cbn [Csv.parse_process_char Csv.st Csv.state_eqb]. apply Hnext.
Qed.

(** *** A field and what follows it *)

Lemma read_field (f : string) (s0 : Csv.state) (fs : list string) :
  plain_field f ->
  s0 = Csv.START_RECORD \/ s0 = Csv.START_FIELD ->
  exists q,
    (forall m c t,
       read_chars m {| Csv.st := s0; Csv.field := EmptyString; Csv.field_len := 0%N;
                       Csv.fields := fs |} (Csv.quote_field f ++ String c t)
       = read_chars true q (String c t))
    /\ Csv.parse_process_char q (Csv.Chr ",")
       = Py.Ok {| Csv.st := Csv.START_FIELD; Csv.field := EmptyString;
                  Csv.field_len := 0%N; Csv.fields := f :: fs |}
    /\ (f <> EmptyString \/ s0 = Csv.START_FIELD ->
        Csv.parse_process_char q (Csv.Chr Py.LF)
        = Py.Ok {| Csv.st := Csv.EAT_CRNL; Csv.field := EmptyString;
                   Csv.field_len := 0%N; Csv.fields := f :: fs |}).
Proof.
  intros [Hcr Hlen] Hs0. unfold Csv.quote_field.
  destruct (Csv.needs_quotes f) eqn:Hq.
  - exists {| Csv.st := Csv.QUOTE_IN_QUOTED_FIELD; Csv.field := Py.rev_onto f EmptyString;
              Csv.field_len := 0 + N.of_nat (String.length f); Csv.fields := fs |}.
    split; [|split].
    + intros m c t.
      change (String Py.DQUOTE (Csv.double_quotes f ++ String Py.DQUOTE "") ++ String c t)
        with (String Py.DQUOTE
                ((Csv.double_quotes f ++ String Py.DQUOTE "") ++ String c t)).
      rewrite append_assoc.
      change (String Py.DQUOTE "" ++ String c t) with (String Py.DQUOTE (String c t)).
      cbn [read_chars].
      assert (Hopen : Csv.parse_process_char
                        {| Csv.st := s0; Csv.field := ""; Csv.field_len := 0%N;
                           Csv.fields := fs |} (Csv.Chr Py.DQUOTE)
                      = Py.Ok {| Csv.st := Csv.IN_QUOTED_FIELD; Csv.field := "";
                                 Csv.field_len := 0%N; Csv.fields := fs |})
        by (destruct Hs0 as [->| ->]; reflexivity).
      rewrite Hopen. change (Ascii.eqb Py.DQUOTE Py.LF) with false. cbv iota.
      apply read_in_quoted. lia.
    + unfold Csv.parse_process_char, Csv.parse_save_field.
      cbn [Csv.st Csv.is_chr Csv.field Csv.fields Csv.with_state Csv.field_len].
      change (Ascii.eqb "," Py.DQUOTE) with false. change (Ascii.eqb "," ",") with true.
      cbv iota. change (Py.rev_onto f "") with (Py.rev f). rewrite rev_rev. reflexivity.
    + intros _. unfold Csv.parse_process_char, Csv.parse_save_field.
      cbn [Csv.st Csv.is_chr Csv.is_nl Csv.field Csv.fields Csv.with_state Csv.field_len
           Csv.after_line].
      change (Ascii.eqb Py.LF Py.DQUOTE) with false. change (Ascii.eqb Py.LF ",") with false.
      change (Ascii.eqb Py.LF Py.LF) with true. cbn [orb].
      change (Py.rev_onto f "") with (Py.rev f). rewrite rev_rev. reflexivity.
  - destruct f as [|d s].
    + exists {| Csv.st := s0; Csv.field := ""; Csv.field_len := 0%N; Csv.fields := fs |}.
      split; [intros m c t; reflexivity|].
      split; [destruct Hs0 as [->| ->]; reflexivity|].
      intros [H|H]; [contradiction|]. subst s0. reflexivity.
    + destruct (needs_quotes_cons d s Hq) as (Hc & Hd & Hr & Hl & Hq').
      cbn [String.length] in Hlen.
      exists {| Csv.st := Csv.IN_FIELD; Csv.field := Py.rev_onto s (String d "");
                Csv.field_len := 1 + N.of_nat (String.length s); Csv.fields := fs |}.
      split; [|split].
      * intros m c t.
        change (String d s ++ String c t) with (String d (s ++ String c t)).
        cbn [read_chars].
        rewrite (step_plain s0) by (try tauto; try assumption; unfold Csv.field_limit; lia).
        rewrite Hl. apply read_in_field; [exact Hq' | lia].
      * unfold Csv.parse_process_char, Csv.parse_save_field.
        cbn [Csv.st Csv.is_chr Csv.is_nl Csv.field Csv.fields Csv.with_state Csv.field_len].
        change (Ascii.eqb "," Py.LF) with false. change (Ascii.eqb "," Py.CR) with false.
        change (Ascii.eqb "," ",") with true. cbn [orb].
        change (Py.rev_onto s (String d "")) with (Py.rev (String d s)).
        rewrite rev_rev. reflexivity.
      * intros _. unfold Csv.parse_process_char, Csv.parse_save_field.
        cbn [Csv.st Csv.is_chr Csv.is_nl Csv.field Csv.fields Csv.with_state Csv.field_len
             Csv.after_line].
        change (Ascii.eqb Py.LF Py.LF) with true. cbn [orb].
        change (Py.rev_onto s (String d "")) with (Py.rev (String d s)).
        rewrite rev_rev. reflexivity.
Qed.

Lemma read_comma (q q' : Csv.parser) (m : bool) (t : string) :
  Csv.parse_process_char q (Csv.Chr ",") = Py.Ok q' ->
  read_chars m q (String "," t) = read_chars true q' t.
Proof. intros H. cbn [read_chars]. rewrite H. reflexivity. Qed.

Lemma read_line_end (q : Csv.parser) (fs : list string) (m : bool) (t : string) :
  Csv.parse_process_char q (Csv.Chr Py.LF)
  = Py.Ok {| Csv.st := Csv.EAT_CRNL; Csv.field := EmptyString; Csv.field_len := 0%N;
             Csv.fields := fs |} ->
  read_chars m q (String Py.LF t)
  = (List.rev fs :: fst (read_chars false Csv.parse_reset t),
     snd (read_chars false Csv.parse_reset t)).
Proof.
  intros H. cbn [read_chars]. rewrite H. change (Ascii.eqb Py.LF Py.LF) with true.
  cbv iota. unfold end_of_line.
  cbn [Csv.parse_process_char Csv.st Csv.with_state Csv.state_eqb Csv.fields].
  destruct (read_chars false Csv.parse_reset t) as [rows x]. reflexivity.
Qed.

(** *** A record *)

Lemma read_fields (fs : list string) :
  fs <> [] -> Forall plain_field fs ->
  forall acc m t,
    read_chars m {| Csv.st := Csv.START_FIELD; Csv.field := EmptyString;
                    Csv.field_len := 0%N; Csv.fields := acc |}
      (String.concat "," (List.map Csv.quote_field fs) ++ String Py.LF t)
    = ((List.rev acc ++ fs)%list :: fst (read_chars false Csv.parse_reset t),
       snd (read_chars false Csv.parse_reset t)).
Proof.
  induction fs as [|f fs IH]; intros Hne Hall acc m t; [contradiction|].
  inversion Hall as [|? ? Hf Hfs]; subst.
  destruct (read_field f Csv.START_FIELD acc Hf (or_intror eq_refl))
    as [q (Hread & Hcomma & Hlf)].
  destruct fs as [|g fs].
  - cbn [List.map String.concat]. rewrite Hread, (read_line_end q (f :: acc)) by auto.
    reflexivity.
  - change (String.concat "," (List.map Csv.quote_field (f :: g :: fs)))
      with (Csv.quote_field f ++ "," ++ String.concat "," (List.map Csv.quote_field (g :: fs))).
    rewrite append_assoc.
    change (("," ++ String.concat "," (List.map Csv.quote_field (g :: fs))) ++ String Py.LF t)
      with (String ","
              (String.concat "," (List.map Csv.quote_field (g :: fs)) ++ String Py.LF t)).
    rewrite Hread, (read_comma q _ true _ Hcomma).
    rewrite (IH ltac:(discriminate) Hfs (f :: acc) true t).
    cbn [List.rev]. rewrite <- List.app_assoc. reflexivity.
Qed.

Lemma read_record (fs : list string) (m : bool) (t : string) :
  Forall plain_field fs ->
  read_chars m Csv.parse_reset (record_text fs ++ String Py.LF t)
  = (fs :: fst (read_chars false Csv.parse_reset t),
     snd (read_chars false Csv.parse_reset t)).
Proof.
  intros Hall. destruct fs as [|f fs].
  - cbn [record_text List.map String.concat append read_chars].
    change (Csv.parse_process_char Csv.parse_reset (Csv.Chr Py.LF))
      with (Py.Ok (Csv.with_state Csv.parse_reset Csv.EAT_CRNL)).
    change (Ascii.eqb Py.LF Py.LF) with true. cbv iota. unfold end_of_line.
    cbn [Csv.parse_process_char Csv.st Csv.with_state Csv.state_eqb Csv.fields
         Csv.parse_reset List.rev].
    destruct (read_chars false _ t) as [rows x]. reflexivity.
  - inversion Hall as [|? ? Hf Hfs]; subst.
    destruct (read_field f Csv.START_RECORD [] Hf (or_introl eq_refl))
      as [q (Hread & Hcomma & Hlf)].
    destruct fs as [|g fs].
    + destruct f as [|d s].
      * cbn [record_text append read_chars].
        change (Csv.parse_process_char Csv.parse_reset (Csv.Chr Py.DQUOTE))
          with (Py.Ok (Csv.with_state Csv.parse_reset Csv.IN_QUOTED_FIELD)).
        change (Ascii.eqb Py.DQUOTE Py.LF) with false. cbv iota.
        change (Csv.parse_process_char (Csv.with_state Csv.parse_reset Csv.IN_QUOTED_FIELD)
                  (Csv.Chr Py.DQUOTE))
          with (Py.Ok (Csv.with_state Csv.parse_reset Csv.QUOTE_IN_QUOTED_FIELD)).
        cbv iota.
        change (Csv.parse_process_char
                  (Csv.with_state Csv.parse_reset Csv.QUOTE_IN_QUOTED_FIELD)
                  (Csv.Chr Py.LF))
          with (Py.Ok {| Csv.st := Csv.EAT_CRNL; Csv.field := ""; Csv.field_len := 0%N;
                         Csv.fields := [""] |}).
        change (Ascii.eqb Py.LF Py.LF) with true. cbv iota. unfold end_of_line.
        cbn [Csv.parse_process_char Csv.st Csv.with_state Csv.state_eqb Csv.fields List.rev
             List.app].
        destruct (read_chars false _ t) as [rows x]. reflexivity.
      * change (record_text [String d s]) with (Csv.quote_field (String d s)).
        unfold Csv.parse_reset. rewrite Hread.
        rewrite (read_line_end q [String d s]) by (apply Hlf; left; discriminate).
        reflexivity.
    + assert (Htext : record_text (f :: g :: fs)
                      = Csv.quote_field f ++ ","
                        ++ String.concat "," (List.map Csv.quote_field (g :: fs))).
      { destruct f; reflexivity. }
      rewrite Htext, append_assoc.
      change (("," ++ String.concat "," (List.map Csv.quote_field (g :: fs)))
              ++ String Py.LF t)
        with (String ","
                (String.concat "," (List.map Csv.quote_field (g :: fs)) ++ String Py.LF t)).
      unfold Csv.parse_reset. rewrite Hread, (read_comma q _ true _ Hcomma).
      rewrite (read_fields (g :: fs) ltac:(discriminate) Hfs [f] true t). reflexivity.
Qed.

(** *** The text of the file *)

Lemma writerow_text (fs : list string) :
  Csv.writerow fs = record_text fs ++ String Py.CR Py.nl.
Proof.
  destruct fs as [|f fs]; [reflexivity|].
  destruct f, fs; reflexivity.
Qed.

Lemma has_char_app (c : ascii) (a b : string) :
  Py.has_char c (a ++ b) = (Py.has_char c a || Py.has_char c b)%bool.
Proof.
  induction a as [|d a IH]; simpl; [reflexivity|].
  rewrite IH, orb_assoc. reflexivity.
Qed.

Lemma double_quotes_no_cr (s : string) :
  Py.has_char Py.CR s = false -> Py.has_char Py.CR (Csv.double_quotes s) = false.
Proof.
  induction s as [|d s IH]; [reflexivity|].
  cbn [Py.has_char Csv.double_quotes]. intros H.
  apply orb_false_iff in H. destruct H as [Hd Hs].
  destruct (Ascii.eqb d Py.DQUOTE); cbn [Py.has_char]; rewrite ?Hd, (IH Hs); reflexivity.
Qed.

Lemma quote_field_no_cr (f : string) :
  Py.has_char Py.CR f = false -> Py.has_char Py.CR (Csv.quote_field f) = false.
Proof.
  intros H. unfold Csv.quote_field. destruct (Csv.needs_quotes f); [|exact H].
  cbn [Py.has_char]. rewrite has_char_app, (double_quotes_no_cr f H). reflexivity.
Qed.

Lemma record_text_no_cr (fs : list string) :
  Forall plain_field fs -> Py.has_char Py.CR (record_text fs) = false.
Proof.
  intros Hall.
  assert (H : Py.has_char Py.CR (String.concat "," (List.map Csv.quote_field fs)) = false).
  { induction Hall as [|f fs [Hf _] Hfs IH]; [reflexivity|].
    destruct fs as [|g fs]; [apply quote_field_no_cr, Hf|].
    change (String.concat "," (List.map Csv.quote_field (f :: g :: fs)))
      with (Csv.quote_field f ++ ","
            ++ String.concat "," (List.map Csv.quote_field (g :: fs))).
    rewrite !has_char_app, (quote_field_no_cr f Hf), IH. reflexivity. }
  destruct fs as [|f fs]; [reflexivity|].
  destruct f, fs; try exact H; reflexivity.
Qed.

Lemma universal_newlines_no_cr (s t : string) :
  Py.has_char Py.CR s = false ->
  universal_newlines (s ++ t) = s ++ universal_newlines t.
Proof.
  induction s as [|d s IH]; intros H; [reflexivity|].
  cbn [Py.has_char] in H. apply orb_false_iff in H. destruct H as [Hd Hs].
  rewrite Ascii.eqb_sym in Hd.
  change (String d s ++ t) with (String d (s ++ t)).
  cbn [universal_newlines]. rewrite Hd, (IH Hs). reflexivity.
Qed.

(** Read as text, the file shows each record followed by a line feed. *)
Lemma written_text_read (rows : list (list string)) :
  Forall (Forall plain_field) rows ->
  universal_newlines (String.concat EmptyString (List.map Csv.writerow rows))
  = String.concat EmptyString (List.map (fun fs => record_text fs ++ Py.nl) rows).
Proof.
  intros Hall. induction Hall as [|fs rows Hfs _ IH]; [reflexivity|].
  cbn [List.map]. rewrite !concat_cons, writerow_text, append_assoc.
  rewrite universal_newlines_no_cr by (apply record_text_no_cr, Hfs).
  change ((String Py.CR Py.nl) ++ String.concat "" (List.map Csv.writerow rows))
    with (String Py.CR (String Py.LF (String.concat "" (List.map Csv.writerow rows)))).
  cbn [universal_newlines].
  change (Ascii.eqb Py.CR Py.CR) with true. change (Ascii.eqb Py.LF Py.LF) with true.
  cbv iota. rewrite IH, append_assoc. reflexivity.
Qed.

Lemma read_records (rows : list (list string)) :
  Forall (Forall plain_field) rows ->
  read_chars false Csv.parse_reset
    (String.concat EmptyString (List.map (fun fs => record_text fs ++ Py.nl) rows))
  = (rows, None).
Proof.
  intros Hall. induction Hall as [|fs rows Hfs _ IH]; [reflexivity|].
  cbn [List.map]. rewrite concat_cons, append_assoc.
  change (Py.nl ++ String.concat "" (List.map (fun fs => record_text fs ++ Py.nl) rows))
    with (String Py.LF
            (String.concat "" (List.map (fun fs => record_text fs ++ Py.nl) rows))).
  rewrite (read_record fs false _ Hfs), IH. reflexivity.
Qed.

(** The reader gives back the records the writer wrote. *)
Lemma reader_reads_writer (rows : list (list string)) :
  Forall (Forall plain_field) rows ->
  Csv.reader
    (lines_from true EmptyString
       (universal_newlines (String.concat EmptyString (List.map Csv.writerow rows))),
     None)
  = (rows, None).
Proof.
  intros Hall. unfold Csv.reader. cbn [fst snd].
  rewrite (reader_lines_chars _ Csv.parse_reset "" Csv.parse_reset eq_refl).
  rewrite (written_text_read rows Hall). apply read_records, Hall.
Qed.

(** *** gate-results.csv read back *)

Lemma universal_newlines_has_no_cr (raw : string) :
  Py.has_char Py.CR (universal_newlines raw) = false.
Proof.
  assert (H : forall n raw, (String.length raw <= n)%nat ->
                            Py.has_char Py.CR (universal_newlines raw) = false).
  { clear raw. induction n as [|n IH]; intros raw Hn.
    - destruct raw; [reflexivity | simpl in Hn; lia].
    - destruct raw as [|c rest]; [reflexivity|].
      cbn [universal_newlines]. simpl in Hn.
      destruct (Ascii.eqb c Py.CR) eqn:Hc.
      + destruct rest as [|d rest']; [reflexivity|].
        simpl in Hn.
        destruct (Ascii.eqb d Py.LF); cbn [Py.has_char];
          change (Ascii.eqb Py.CR Py.LF) with false; cbn [orb]; apply IH; simpl; lia.
      + cbn [Py.has_char]. rewrite Ascii.eqb_sym, Hc. cbn [orb]. apply IH. lia. }
  apply (H (String.length raw)). lia.
Qed.

Lemma read_has_no_cr (f : file) (content : string) :
  read f = Py.Ok content -> Py.has_char Py.CR content = false.
Proof.
  unfold read. destruct (f_data f); intros H; inversion H.
  apply universal_newlines_has_no_cr.
Qed.

(** The gate names of a log file hold no carriage return. *)
Lemma gate_name_no_cr (f : file) (name : string) (v : bool) :
  In (name, v) (Results.gates (log_results f)) -> Py.has_char Py.CR name = false.
Proof.
  intros Hin. destruct (read f) as [content|e] eqn:Hread.
  - rewrite (log_results_text f content Hread) in Hin.
    cbn [results_of_text Results.gates] in Hin. apply dict_of_in in Hin.
    destruct (gate_match_shape _ _ _ Hin) as [pre [tag [fin (Hs & _)]]].
    pose proof (read_has_no_cr f content Hread) as Hno.
    rewrite Hs in Hno. repeat (rewrite has_char_app in Hno).
    repeat match goal with
           | H : (_ || _)%bool = false |- _ => apply orb_false_iff in H; destruct H
           end.
    assumption.
  - rewrite (log_results_unreadable f e Hread) in Hin. destruct Hin.
Qed.

Lemma plain_text_field (s : string) :
  Py.has_char Py.CR s = false -> (String.length s <= 16)%nat -> plain_field s.
Proof. intros H Hn. split; [exact H|]. unfold Csv.field_limit. lia. Qed.

(** What [parse_csv_report] makes of the gate table written for [a]. *)
Lemma gates_csv_parsed (a : Analysis.t) (f : file) (w : world) :
  (forall name v, In (name, v) (Analysis.gates a) -> plain_field name) ->
  f_data f = Text (gates_csv_text a) ->
  parse_csv_report f w
  = (Py.Ok (List.map (fun kv : string * bool =>
                        [ (Some "Gate Name", convert_cell (Csv.CStr (fst kv)));
                          (Some "Status", Csv.CStr (verdict_text (snd kv)));
                          (Some "Success", Csv.CStr (Py.str_bool (snd kv))) ])
                     (Analysis.gates a)), w).
Proof.
  intros Hplain Hdata.
  set (rows := List.map (fun kv : string * bool =>
                           [fst kv; verdict_text (snd kv); Py.str_bool (snd kv)])
                        (Analysis.gates a)).
  assert (Htext : gates_csv_text a
                  = String.concat "" (List.map Csv.writerow
                                        (["Gate Name"; "Status"; "Success"] :: rows))).
  { rewrite gates_csv_text_rows. cbn [List.map]. rewrite concat_cons.
    unfold rows. rewrite List.map_map. reflexivity. }
  assert (Hall : Forall (Forall plain_field) (["Gate Name"; "Status"; "Success"] :: rows)).
  { constructor.
    - repeat constructor; apply plain_text_field; try reflexivity; simpl; lia.
    - unfold rows. apply Forall_forall. intros r Hr. apply in_map_iff in Hr.
      destruct Hr as [[name v] [<- Hin]]. cbn [fst snd].
      constructor; [apply (Hplain name v Hin)|].
      destruct v; repeat constructor; apply plain_text_field; try reflexivity; simpl; lia. }
  assert (Hlines : open_lines f
                   = Py.Ok (lines_from true "" (universal_newlines (gates_csv_text a)), None)).
  { unfold open_lines. rewrite Hdata. reflexivity. }
  unfold parse_csv_report, parse_csv_report_try. rewrite Hlines, bind_lift_ok.
  unfold Csv.DictReader. rewrite Htext, (reader_reads_writer _ Hall).
  assert (Hfilter : forall l : list (string * bool),
             List.filter (fun r : list string => negb (Csv.is_empty r))
               (List.map (fun kv : string * bool =>
                            [fst kv; verdict_text (snd kv); Py.str_bool (snd kv)]) l)
             = List.map (fun kv : string * bool =>
                           [fst kv; verdict_text (snd kv); Py.str_bool (snd kv)]) l).
  { induction l as [|kv l IH]; [reflexivity|].
    cbn [List.map List.filter Csv.is_empty negb]. rewrite IH. reflexivity. }
  unfold rows. rewrite Hfilter. unfold bind.
  rewrite (for_each_modify (fun row data => (data ++ [convert_row row])%list)).
  rewrite fold_append_map. cbn [List.app ret]. rewrite !List.map_map.
  unfold ret. f_equal. f_equal. apply List.map_ext. intros [name v].
  cbn [fst snd]. destruct v; reflexivity.
Qed.

(** A run that found a gate writes a gate-results.csv that
    [parse_csv_report] reads back without an error message, one row per
    gate of the table dumped to full-analysis.json, in the order of the
    table, as long as no gate name exceeds the field size limit of the
    reader (131072 characters).  The status and success columns come back
    as text; a gate name comes back as a float when [float] accepts it. *)
Theorem gate_results_csv_read_back (artifacts_dir output_dir now : string)
    (tree : list file) (w w0 : world) (f : file) :
  folded_entries tree <> [] ->
  (forall name v, In (name, v) (folded_entries tree) ->
                  (N.of_nat (String.length name) <= Csv.field_limit)%N) ->
  exists a code w' raw,
    main artifacts_dir output_dir (Some tree) now w = (Py.Ok code, w')
    /\ Py.dict_get String.eqb (files w') (path_join output_dir "full-analysis.json")
       = Some (JsonDump a)
    /\ Py.dict_get String.eqb (files w') (path_join output_dir "gate-results.csv")
       = Some (TextContent raw)
    /\ (f_data f = Text raw ->
        parse_csv_report f w0
        = (Py.Ok (List.map (fun kv : string * bool =>
                              [ (Some "Gate Name", convert_cell (Csv.CStr (fst kv)));
                                (Some "Status", Csv.CStr (verdict_text (snd kv)));
                                (Some "Success", Csv.CStr (Py.str_bool (snd kv))) ])
                           (Analysis.gates a)), w0)).
Proof.
  intros Hsome Hlen.
  destruct (main_runs artifacts_dir output_dir tree now w) as [w' [Hmain Hfiles]].
  exists (final_analysis tree now). eexists. exists w'.
  exists (gates_csv_text (final_analysis tree now)).
  split; [exact Hmain|]. split; [rewrite Hfiles; apply json_path_kept|].
  destruct (final_analysis_summary tree now) as [_ Hg].
  pose proof (merged_logs_fields tree now) as (Hd & _). cbv zeta in Hd.
  split.
  - rewrite Hfiles. unfold output_files.
    destruct (Csv.is_empty (Analysis.gates (final_analysis tree now))) eqn:Hempty;
      [|apply dict_get_set_same].
    exfalso. rewrite Hg, Hd in Hempty.
    destruct (folded_entries tree) as [|[k v] l]; [apply Hsome; reflexivity|].
    unfold Py.dict_of in Hempty. cbn [fold_left Py.dict_set fst snd] in Hempty.
    pose proof (fold_set_grows l [(k, v)]) as Hpos.
    destruct (fold_left (fun d kv => Py.dict_set String.eqb d (fst kv) (snd kv)) l [(k, v)]);
      [simpl in Hpos; lia | discriminate].
  - apply gates_csv_parsed. intros name v Hin. rewrite Hg, Hd in Hin.
    apply dict_of_in in Hin. split; [|apply (Hlen name v Hin)].
    unfold folded_entries in Hin. apply in_flat_map in Hin.
    destruct Hin as [g [_ Hin]]. apply (gate_name_no_cr g name v Hin).
Qed.

Lemma gate_results_csv_read_back_witness :
  exists a code w' raw,
    main "artifacts" "out"
      (Some [ {| f_path := "artifacts/unity.log";
                 f_data := Text ("[ci] Gate 'frame, time': FAIL" ++ Py.nl);
                 f_json := Py.Raise "not JSON" |} ])
      "2024-01-01T00:00:00" empty_world
    = (Py.Ok code, w')
    /\ Py.dict_get String.eqb (files w') (path_join "out" "full-analysis.json")
       = Some (JsonDump a)
    /\ Py.dict_get String.eqb (files w') (path_join "out" "gate-results.csv")
       = Some (TextContent raw)
    /\ (f_data {| f_path := "out/gate-results.csv"; f_data := Text raw;
                  f_json := Py.Raise "not JSON" |} = Text raw ->
        parse_csv_report {| f_path := "out/gate-results.csv"; f_data := Text raw;
                            f_json := Py.Raise "not JSON" |} empty_world
        = (Py.Ok (List.map (fun kv : string * bool =>
                              [ (Some "Gate Name", convert_cell (Csv.CStr (fst kv)));
                                (Some "Status", Csv.CStr (verdict_text (snd kv)));
                                (Some "Success", Csv.CStr (Py.str_bool (snd kv))) ])
                           (Analysis.gates a)), empty_world)).
Proof.
  destruct (gate_results_csv_read_back "artifacts" "out" "2024-01-01T00:00:00"
              [ {| f_path := "artifacts/unity.log";
                   f_data := Text ("[ci] Gate 'frame, time': FAIL" ++ Py.nl);
                   f_json := Py.Raise "not JSON" |} ]
              empty_world empty_world
              {| f_path := "out/gate-results.csv";
                 f_data := Text (Csv.writerow ["Gate Name"; "Status"; "Success"]
                                 ++ Csv.writerow ["frame, time"; "FAIL"; "False"]);
                 f_json := Py.Raise "not JSON" |})
    as [a [code [w' [raw (Hmain & Hjson & Hcsv & Hback)]]]].
  - vm_compute. discriminate.
  - intros name v Hin. vm_compute in Hin. destruct Hin as [Heq|[]].
    inversion Heq. vm_compute. discriminate.
  - exists a, code, w', raw. split; [exact Hmain|]. split; [exact Hjson|].
    split; [exact Hcsv|]. intros _.
    assert (Hraw : raw = Csv.writerow ["Gate Name"; "Status"; "Success"]
                         ++ Csv.writerow ["frame, time"; "FAIL"; "False"]).
    { vm_compute in Hmain. inversion Hmain as [[Hcode Hw]]. subst w'.
      vm_compute in Hcsv. inversion Hcsv. reflexivity. }
    subst raw. apply Hback. reflexivity.
Defined.

(** ** One reader per file *)

Lemma endswith_csv_only (n : string) :
  Py.endswith n ".csv" = true -> Py.endswith n ".json" = false.
Proof.
  unfold Py.endswith. generalize (Py.rev n). intros r.
  change (Py.rev ".csv") with "vsc.". change (Py.rev ".json") with "nosj.".
  destruct r as [|c r]; cbn [Py.startswith]; [discriminate|].
  destruct (Ascii.eqb "v" c) eqn:Hv; [|discriminate].
  apply Ascii.eqb_eq in Hv. subst c. intros _. reflexivity.
Qed.

(** The three patterns of the aggregator select disjoint sets of files:
    no file is handed to two different readers, and every file visited as
    a log is a file of the tree whose name ends in [.log]. *)
Theorem each_file_has_one_reader (tree : list file) (f : file) :
  (In f (log_files tree) <->
   In f tree /\ Py.endswith (basename (f_path f)) ".log" = true)
  /\ (In f (log_files tree) ->
      ~ In f (glob_suffix ".csv" tree) /\ ~ In f (glob_suffix ".json" tree))
  /\ (In f (glob_suffix ".csv" tree) -> ~ In f (glob_suffix ".json" tree)).
Proof.
  split; [|split].
  - split; [apply log_files_in|].
    intros [Hin Hn]. unfold log_files. apply in_or_app. right.
    apply filter_In. auto.
  - intros Hin. destruct (log_files_in tree f Hin) as [_ Hn].
    destruct (endswith_log_only _ Hn) as [Hc Hj].
    split; intros H; apply filter_In in H; destruct H as [_ H]; congruence.
  - intros Hin. apply filter_In in Hin. destruct Hin as [_ Hn].
    pose proof (endswith_csv_only _ Hn) as Hj.
    intros H. apply filter_In in H. destruct H as [_ H]. congruence.
Qed.

(** ** Fields the log reader never fills *)

(** Whatever the log holds, and whether or not it can be read,
    [parse_log_file] returns the execution time 0 and no timestamp, and
    leaves the written files as they are. *)
Theorem parse_log_file_leaves_time_fields (f : file) (w : world) :
  exists r w',
    parse_log_file f w = (Py.Ok r, w')
    /\ Results.execution_time r = 0
    /\ Results.timestamp r = None
    /\ files w' = files w.
Proof.
  destruct (parse_log_file_returns f w) as [w' [Hrun Hfiles]].
  exists (log_results f), w'. split; [exact Hrun|].
  destruct (read f) as [content|e] eqn:Hread.
  - rewrite (log_results_text f content Hread). auto.
  - rewrite (log_results_unreadable f e Hread). auto.
Qed.

(** ** Running again *)

Lemma dict_set_same {V : Type} (d : Py.dict string V) (k : string) (v : V) :
  Py.dict_get String.eqb d k = Some v -> Py.dict_set String.eqb d k v = d.
Proof.
  induction d as [|[k' v'] d IH]; simpl; [discriminate|].
  destruct (String.eqb k k') eqn:E.
  - intros H. inversion H. reflexivity.
  - intros H. rewrite (IH H). reflexivity.
Qed.

Lemma gate_csv_kept (output_dir : string) (a : Analysis.t) (fs : Py.dict string content) :
  Csv.is_empty (Analysis.gates a) = false ->
  Py.dict_get String.eqb (output_files output_dir a fs)
    (path_join output_dir "gate-results.csv")
  = Some (TextContent (gates_csv_text a)).
Proof.
  intros H. unfold output_files. rewrite H. apply dict_get_set_same.
Qed.

Lemma output_files_twice (output_dir : string) (a : Analysis.t)
    (fs : Py.dict string content) :
  output_files output_dir a (output_files output_dir a fs) = output_files output_dir a fs.
Proof.
  set (fs1 := output_files output_dir a fs).
  unfold output_files at 1.
  rewrite (dict_set_same fs1 _ _ (summary_file_kept output_dir a fs)).
  rewrite (dict_set_same fs1 _ _ (json_path_kept output_dir a fs)).
  destruct (Csv.is_empty (Analysis.gates a)) eqn:E; [reflexivity|].
  apply dict_set_same, gate_csv_kept, E.
Qed.

(** A second run over the same tree with the same timestamp leaves every
    file as the first run wrote it, and exits with the same code. *)
Theorem main_rerun_same_files (artifacts_dir output_dir now : string)
    (tree : option (list file)) (w : world) :
  let first := main artifacts_dir output_dir tree now w in
  let second := main artifacts_dir output_dir tree now (snd first) in
  files (snd second) = files (snd first) /\ fst second = fst first.
Proof.
  cbv zeta. destruct tree as [tree|].
  - destruct (main_runs artifacts_dir output_dir tree now w) as [w1 [H1 K1]].
    rewrite H1. cbn [snd fst].
    destruct (main_runs artifacts_dir output_dir tree now w1) as [w2 [H2 K2]].
    rewrite H2. cbn [snd fst]. split; [|reflexivity].
    rewrite K2, K1. apply output_files_twice.
  - rewrite !main_missing_directory. split; reflexivity.
Qed.

(** ** More files *)






